(** * Review-analysis pipeline: batching, dual-run consistency, validation

    A shallow embedding of the Python sources [models.py], [config.py],
    [llm_engine.py], [analyzer.py], [app.py] and [validator.py], followed
    by the properties established about them.

    Conventions of the embedding.
    - Python [str] is [string], read as a text over the code points below
      256: the character with number [n] is the code point [n] (so the
      letter e with acute accent is ["233"%char], not the two bytes of an
      encoding). [String.length] is Python's [len]; the classes of
      characters and [lower] follow Python's Unicode tables on these code
      points.
    - Python [int] is [Z]; positions in a list are [nat].
    - A [dict] keyed by review id is a [gmap Z _].
    - The remote chat-completion service is a state transformer on an
      abstract world state; an exception is a value of [exn].
    - Python [float] is binary64 ([PyNum.binary64]). The dual-run score of
      [app.py] is also given as the exact rational that the float
      approximates, for the properties that are stated on the quotient. *)

From Stdlib Require Import ZArith QArith Qround Qabs Strings.String Strings.Ascii Bool Lia Lqa.
From Stdlib Require Import DecimalString PrimFloat Uint63 SpecFloat FloatOps.
From stdpp Require Import base list sorting gmap strings.

Local Open Scope string_scope.
Local Open Scope list_scope.
Local Open Scope stdpp_scope.

(** ** Python strings *)

Module PyStr.

Definition in_range (lo hi : nat) (c : ascii) : bool :=
  let n := nat_of_ascii c in (lo <=? n)%nat && (n <=? hi)%nat.

(** The characters that [str.lower] changes: A to Z, and the accented
    capitals 192 to 214 and 216 to 222. *)
Definition is_upper (c : ascii) : bool :=
  in_range 65 90 c || in_range 192 214 c || in_range 216 222 c.

(** [str.lower] on one character: each of those capitals has its small
    letter 32 places further. *)
Definition lower_char (c : ascii) : ascii :=
  if is_upper c then ascii_of_nat (nat_of_ascii c + 32) else c.

Fixpoint lower (s : string) : string :=
  match s with
  | EmptyString => EmptyString
  | String c s' => String (lower_char c) (lower s')
  end.

(** What [str.isalnum] accepts: the digits and letters of ASCII, the
    ordinal indicators 170 and 186, the superscript digits 178, 179 and 185,
    the micro sign 181, the fractions 188 to 190, and the accented letters
    192 to 255 without the signs 215 and 247. *)
Definition is_alnum (c : ascii) : bool :=
  in_range 48 57 c || in_range 65 90 c || in_range 97 122 c ||
  in_range 170 170 c || in_range 178 179 c || in_range 181 181 c ||
  in_range 185 186 c || in_range 188 190 c ||
  in_range 192 214 c || in_range 216 246 c || in_range 248 255 c.

(** The class [\w] of the [re] module for a [str] pattern: alphanumeric
    or underscore. *)
Definition is_word_char (c : ascii) : bool :=
  is_alnum c || Ascii.eqb c "_"%char.

Definition head_char (s : string) : option ascii :=
  match s with
  | EmptyString => None
  | String c _ => Some c
  end.

(** Last character of [prev :: s], where [prev] is the character (if any)
    that precedes [s]. *)
Fixpoint last_char (prev : option ascii) (s : string) : option ascii :=
  match s with
  | EmptyString => prev
  | String c s' => last_char (Some c) s'
  end.

Definition word_at (o : option ascii) : bool :=
  match o with
  | Some c => is_word_char c
  | None => false
  end.

(** [\b]: exactly one of the two neighbours is a word character; the two
    ends of the subject count as non-word. *)
Definition word_boundary (prev next : option ascii) : bool :=
  xorb (word_at prev) (word_at next).

(** [strip_prefix w s = Some rest] iff [s = w ++ rest]. *)
Fixpoint strip_prefix (w s : string) : option string :=
  match w with
  | EmptyString => Some s
  | String a w' =>
      match s with
      | EmptyString => None
      | String b s' => if Ascii.eqb a b then strip_prefix w' s' else None
      end
  end.

(** One attempt of the pattern [\b(w1|...|wn)\b] at the current position,
    [prev] being the character before it. *)
Definition match_here (alts : list string) (prev : option ascii) (s : string) : bool :=
  word_boundary prev (head_char s) &&
  existsb (fun w =>
             match strip_prefix w s with
             | Some rest => word_boundary (last_char prev w) (head_char rest)
             | None => false
             end) alts.

Fixpoint search_from (alts : list string) (prev : option ascii) (s : string) : bool :=
  match_here alts prev s ||
  match s with
  | EmptyString => false
  | String c s' => search_from alts (Some c) s'
  end.

(** Truth value of [re.search(r"\b(w1|...|wn)\b", s)]. *)
Definition re_search_words (alts : list string) (s : string) : bool :=
  search_from alts None s.

(** Python's [needle in s]. *)
Fixpoint contains (needle s : string) : bool :=
  match strip_prefix needle s with
  | Some _ => true
  | None =>
      match s with
      | EmptyString => false
      | String _ s' => contains needle s'
      end
  end.

(** [w] occurs in [text] as a whole word: the characters next to the
    occurrence, when there are any, are not word characters. *)
Definition whole_word (w text : string) : Prop :=
  exists pre post,
    text = pre +:+ w +:+ post /\
    word_at (last_char None pre) = false /\
    word_at (head_char post) = false.

(** Decimal rendering of an [int], as an f-string does it. *)
Definition str_of_int (z : Z) : string := NilZero.string_of_int (Z.to_int z).

Definition newline : string := String (ascii_of_nat 10) EmptyString.

Fixpoint repeat_str (s : string) (n : nat) : string :=
  match n with
  | O => EmptyString
  | S n' => s +:+ repeat_str s n'
  end.

(** [s.replace(old, new)] for a non-empty [old]: occurrences are taken
    from left to right and do not overlap. [skip] counts the characters of
    the occurrence just replaced that are still to be passed over. *)
Fixpoint replace_from (old new : string) (skip : nat) (s : string) : string :=
  match s with
  | EmptyString => EmptyString
  | String c s' =>
      match skip with
      | S k => replace_from old new k s'
      | O =>
          match strip_prefix old s with
          | Some _ => new +:+ replace_from old new (String.length old - 1) s'
          | None => String c (replace_from old new 0 s')
          end
      end
  end.

Definition replace (old new s : string) : string := replace_from old new 0 s.

(** [str.isspace] on one character, which is what [str.strip] removes:
    tab to carriage return, the four separators 28 to 31, the space, the
    next-line control 133 and the no-break space 160. *)
Definition is_space (c : ascii) : bool :=
  in_range 9 13 c || in_range 28 32 c || in_range 133 133 c || in_range 160 160 c.

Fixpoint lstrip (s : string) : string :=
  match s with
  | EmptyString => EmptyString
  | String c s' => if is_space c then lstrip s' else s
  end.

Fixpoint rstrip (s : string) : string :=
  match s with
  | EmptyString => EmptyString
  | String c s' =>
      match rstrip s' with
      | EmptyString => if is_space c then EmptyString else String c EmptyString
      | String _ _ as r => String c r
      end
  end.

(** [s.strip()]. *)
Definition strip (s : string) : string := rstrip (lstrip s).

End PyStr.

(** ** Exceptions and effects

    [exn] stands for the instances of [Exception] that the modelled code can
    meet; [outcome] tells a normal return from a propagated exception. A
    computation [M W A] runs on a world [W] and either returns or raises. *)

Record exn := PyError { exn_class : string; exn_msg : string }.

Inductive outcome (A : Type) : Type :=
| Returns (a : A)
| Raises (e : exn).
Arguments Returns {A} a.
Arguments Raises {A} e.

Definition M (W A : Type) : Type := W -> outcome A * W.

Definition ret {W A} (a : A) : M W A := fun w => (Returns a, w).

Definition raise {W A} (e : exn) : M W A := fun w => (Raises e, w).

Definition bind {W A B} (c : M W A) (k : A -> M W B) : M W B :=
  fun w =>
    match c w with
    | (Returns a, w') => k a w'
    | (Raises e, w') => (Raises e, w')
    end.

(** [try: c  except Exception as e: h e]. *)
Definition try_except {W A} (c : M W A) (h : exn -> M W A) : M W A :=
  fun w =>
    match c w with
    | (Returns a, w') => (Returns a, w')
    | (Raises e, w') => h e w'
    end.

Notation "x <~ c1 ;; c2" := (bind c1 (fun x => c2))
  (at level 100, c1 at next level, right associativity).

(** [for x in xs: acc = body x acc], the accumulator being the variables
    the loop body updates. *)
Fixpoint for_each {W X S} (xs : list X) (body : X -> S -> M W S) (acc : S) : M W S :=
  match xs with
  | [] => ret acc
  | x :: xs' => acc' <~ body x acc ;; for_each xs' body acc'
  end.

(** ** Python ranges and slices *)

Module PySeq.

Local Open Scope Z_scope.

(** Number of elements of [range(start, stop, step)], [step <> 0]. *)
Definition range_len (start stop step : Z) : Z :=
  if 0 <? step then
    if start <? stop then (stop - start + step - 1) / step else 0
  else
    if stop <? start then (start - stop - step - 1) / (- step) else 0.

(** [list(range(start, stop, step))] for [step <> 0]; a zero step raises
    [ValueError] at the call site. *)
Definition py_range (start stop step : Z) : list Z :=
  map (fun k => start + Z.of_nat k * step)
      (seq 0 (Z.to_nat (range_len start stop step))).

(** [l[i:j]] for [0 <= i] and [0 <= j]. *)
Definition slice {A} (l : list A) (i j : Z) : list A :=
  take (Z.to_nat j - Z.to_nat i)%nat (drop (Z.to_nat i) l).

Definition len {A} (l : list A) : Z := Z.of_nat (length l).

End PySeq.

(** ** Python numbers *)

Module PyNum.

(** [count / total * 100] on integers, in exact arithmetic. *)
Definition percentage (count total : nat) : Q :=
  (inject_Z (Z.of_nat count) / inject_Z (Z.of_nat total) * 100)%Q.

(** The same quotient and product in binary64, as Python evaluates them
    on small integers. *)
Definition percentage_binary64 (count total : nat) : float :=
  PrimFloat.mul
    (PrimFloat.div (PrimFloat.of_uint63 (Uint63.of_Z (Z.of_nat count)))
                   (PrimFloat.of_uint63 (Uint63.of_Z (Z.of_nat total))))
    (PrimFloat.of_uint63 100%uint63).

(** [round(x)] to the nearest integer, ties to even. *)
Definition round_half_even (q : Q) : Z :=
  let f := Qfloor q in
  match Qcompare (q - inject_Z f) (1 # 2) with
  | Lt => f
  | Gt => (f + 1)%Z
  | Eq => if Z.even f then f else (f + 1)%Z
  end.

(** *** binary64

    A Python [float] is an IEEE 754 binary64 number: a value of
    [spec_float], with the operations of the Standard Library's specification
    of the format at [prec] = 53 and [emax] = 1024. *)
Definition binary64 : Type := spec_float.

(** An [int] as operand of a float operation. The mantissa is the integer
    itself, so that [SFdiv] rounds the exact quotient of two integers once,
    as [int / int] does, and [SFmul] by 100 rounds the exact product. *)
Definition of_int (z : Z) : binary64 :=
  match z with
  | Z0 => S754_zero false
  | Zpos p => S754_finite false p 0
  | Zneg p => S754_finite true p 0
  end.

(** [count / total * 100] as Python evaluates it. *)
Definition float_percentage (count total : nat) : binary64 :=
  SFmul prec emax
    (SFdiv prec emax (of_int (Z.of_nat count)) (of_int (Z.of_nat total)))
    (of_int 100).

(** The rational number a float stands for (0 for the zeros and for what
    is not a number). *)
Definition value (x : binary64) : Q :=
  match x with
  | S754_finite s m e =>
      ((if s then -1 else 1) * inject_Z (Zpos m) * 2 ^ e)%Q
  | _ => 0%Q
  end.

(** [round(x, 2)] on a float: the exact value of [x] is rounded to two
    decimals, ties to even, and the float returned is the one nearest to
    that decimal; the sign is kept, and what is not finite is returned as it
    is. *)
Definition float_round2 (x : binary64) : binary64 :=
  match x with
  | S754_finite s m e =>
      match round_half_even (value (S754_finite false m e) * 100) with
      | Zpos k => SFdiv prec emax (S754_finite s k 0) (of_int 100)
      | _ => S754_zero s
      end
  | _ => x
  end.

(** A value that is an [int] on one path and a [float] on another. *)
Inductive number :=
| PyInt (z : Z)
| PyFloat (x : binary64).

(** [round(n, 2)]: an [int] is returned as it is. *)
Definition round2 (n : number) : number :=
  match n with
  | PyInt z => PyInt z
  | PyFloat x => PyFloat (float_round2 x)
  end.

End PyNum.

(** ** models.py *)

Module Models.

Definition AspectEnum : list string :=
  ["product_quality"; "usability"; "delivery_shipping"; "price_value"; "service"; "other"].

Definition SentimentEnum : list string :=
  ["positive"; "negative"; "neutral"; "mixed"].

Record ReviewInsight := mkInsight {
  aspect : string;
  sentiment : string;
  evidence : string;
  rationale : string
}.

Record ReviewResult := mkResult {
  id : Z;
  insights : list ReviewInsight
}.

Record BatchResponse := mkBatchResponse {
  reviews : list ReviewResult
}.

(** The dictionaries [{"id": ..., "text": ...}] handed to the client. *)
Record BatchItem := mkItem {
  item_id : Z;
  item_text : string
}.

End Models.

(** ** config.py *)

Module Config.

Definition BATCH_SIZE : Z := 4.

End Config.

(** ** llm_engine.py *)

Module LlmEngine.
Import PyStr Models.

(** What [completion.choices[0].message] offers to the client. *)
Record ParsedMessage := mkMessage {
  refusal : option string;
  parsed : option BatchResponse
}.

Record ParsedCompletion := mkCompletion {
  choices : list ParsedMessage
}.

(** One call of the client as seen by its caller: the batch passed in and
    the results handed back. *)
Definition Call : Type := list BatchItem * list ReviewResult.

(** The world: the state of the remote service, and the history of the
    calls made to [analyze_review_batch] (a ghost variable, written only
    by that function and read by no code). *)
Record World (R : Type) := mkWorld {
  remote : R;
  calls : list Call
}.
Arguments mkWorld {R} remote calls.
Arguments remote {R} w.
Arguments calls {R} w.

(** Truth value of an [Optional[str]]. *)
Definition str_truthy (o : option string) : bool :=
  match o with
  | Some (String _ _) => true
  | _ => false
  end.

Definition render_item (item : BatchItem) : string :=
  newline +:+ "<<< START REVIEW ID: " +:+ str_of_int (item_id item) +:+ " >>>" +:+ newline +:+
  item_text item +:+ newline +:+
  "<<< END REVIEW ID: " +:+ str_of_int (item_id item) +:+ " >>>" +:+ newline +:+
  repeat_str "-" 20.

Definition user_content (reviews_batch : list BatchItem) : string :=
  fold_left (fun acc item => acc +:+ render_item item) reviews_batch
    ("Here is the batch of reviews to analyze. Remember to treat each one independently:" +:+ newline).

Section Client.
Context {R : Type}.

(** [client.beta.chat.completions.parse] with the fixed model, system
    prompt, response format, temperature 0 and seed 42: it receives the
    user message and either raises or hands back a completion. *)
Variable chat_parse : string -> R -> (exn + ParsedCompletion) * R.

Definition call_api (content : string) : M (World R) ParsedCompletion :=
  fun w =>
    match chat_parse content (remote w) with
    | (inl e, r') => (Raises e, mkWorld r' (calls w))
    | (inr completion, r') => (Returns completion, mkWorld r' (calls w))
    end.

(** [completion.choices[0].message]. *)
Definition first_message (completion : ParsedCompletion) : M (World R) ParsedMessage :=
  match choices completion with
  | [] => raise (PyError "IndexError" "list index out of range")
  | message :: _ => ret message
  end.

(** The body of the [try]. *)
Definition request_reviews (content : string) : M (World R) (list ReviewResult) :=
  completion <~ call_api content ;;
  message <~ first_message completion ;;
  if str_truthy (refusal message) then ret []
  else
    match parsed message with
    | Some response => ret (reviews response)
    | None => ret []
    end.

Definition record_call (reviews_batch : list BatchItem) (results : list ReviewResult)
  : M (World R) (list ReviewResult) :=
  fun w => (Returns results, mkWorld (remote w) (calls w ++ [(reviews_batch, results)])).

Definition analyze_review_batch (reviews_batch : list BatchItem)
  : M (World R) (list ReviewResult) :=
  results <~ try_except (request_reviews (user_content reviews_batch))
                        (fun _ => ret []) ;;
  record_call reviews_batch results.

End Client.

(** *** generate_marketing_summary *)

(** What [client.chat.completions.create] hands back: for every choice,
    its [message.content]. *)
Record ChatCompletion := mkChat {
  chat_choices : list (option string)
}.

Definition summary_prompt (stats_text : string) : string :=
  newline +:+
  "    You are a Strategic Marketing Consultant. " +:+ newline +:+
  "    Based on the following analysis of customer reviews (Counts of Sentiment per Aspect):" +:+ newline +:+
  "    " +:+ newline +:+
  "    " +:+ stats_text +:+ newline +:+
  "    " +:+ newline +:+
  "    Please write a concise executive summary formatted with HTML tags (<h3>, <ul>, <li>, <p>)." +:+ newline +:+
  "    Structure it as:" +:+ newline +:+
  "    1. <h3>Executive Overview</h3>" +:+ newline +:+
  "    2. <h3>Top Pain Points (Risk Areas)</h3>" +:+ newline +:+
  "    3. <h3>Strongest Assets (What users love)</h3>" +:+ newline +:+
  "    4. <h3>Strategic Recommendations</h3>" +:+ newline +:+
  "    " +:+ newline +:+
  "    Keep it professional and actionable. Do NOT wrap the output in markdown code blocks (like ```html). Just return the raw HTML string." +:+ newline +:+
  "    ".

(** The two lines under [if content:]. *)
Definition clean_summary (content : string) : string :=
  strip (replace "```" "" (replace "```html" "" content)).

Section Summary.
Context {R : Type}.

(** [client.chat.completions.create] with the summary model and
    temperature 0.7: it receives the prompt and raises or answers. *)
Variable chat_create : string -> R -> (exn + ChatCompletion) * R.

Definition call_create (prompt : string) : M (World R) ChatCompletion :=
  fun w =>
    match chat_create prompt (remote w) with
    | (inl e, r') => (Raises e, mkWorld r' (calls w))
    | (inr response, r') => (Returns response, mkWorld r' (calls w))
    end.

(** [response.choices[0].message.content]. *)
Definition first_content (response : ChatCompletion) : M (World R) (option string) :=
  match chat_choices response with
  | [] => raise (PyError "IndexError" "list index out of range")
  | content :: _ => ret content
  end.

(** The value returned is a string, or [None] when the message has no
    content. *)
Definition generate_marketing_summary (stats_text : string) : M (World R) (option string) :=
  try_except
    (response <~ call_create (summary_prompt stats_text) ;;
     content <~ first_content response ;;
     match content with
     | Some (String _ _ as text) => ret (Some (clean_summary text))
     | _ => ret content
     end)
    (fun e => ret (Some ("Error generating summary: " +:+ exn_msg e))).

End Summary.

End LlmEngine.

(** ** analyzer.py *)

Module Analyzer.
Import PyStr PySeq Models LlmEngine.

(** One row of the result table. *)
Record AnalyzedRow := mkRow {
  original_text : string;
  row_aspect : string;
  row_sentiment : string;
  row_evidence : string;
  row_rationale : string
}.

(** The sheet as [pd.read_excel] hands it over, reduced to the selected
    text column: the cells [str(row[text_col])] in row order. Its index
    is the default [RangeIndex], so a row's label is its position. *)
Definition DataFrame : Type := list string.

Fixpoint index_from (k : Z) (cells : list string) : list (Z * string) :=
  match cells with
  | [] => []
  | c :: cells' => (k, c) :: index_from (k + 1)%Z cells'
  end.

(** [df.iterrows()]: pairs of index label and text. *)
Definition iterrows (df : DataFrame) : list (Z * string) := index_from 0 df.

(** [df.iloc[i:j].iterrows()]: a positional slice keeps the labels. *)
Definition iloc (df : DataFrame) (i j : Z) : list (Z * string) :=
  slice (iterrows df) i j.

(** The test [len(text) < 5 or text.lower() == 'nan']. *)
Definition skipped (text : string) : bool :=
  (Z.of_nat (String.length text) <? 5)%Z || String.eqb (lower text) "nan".

(** The inner loop that fills [batch_input]; [text_map] is written there
    too but never read, and is left out. *)
Fixpoint prepare_batch (chunk_df : list (Z * string)) : list BatchItem :=
  match chunk_df with
  | [] => []
  | (idx, text) :: rest =>
      if skipped text then prepare_batch rest
      else mkItem idx text :: prepare_batch rest
  end.

(** [{res.id: res.insights for res in batch_results}]: a later result
    replaces an earlier one with the same id. *)
Definition results_map (batch_results : list ReviewResult) : gmap Z (list ReviewInsight) :=
  foldl (fun m res => <[id res := insights res]> m) ∅ batch_results.

Definition no_insight_row (text : string) : AnalyzedRow :=
  mkRow text "other" "neutral" "" "No insight detected (or skipped by LLM)".

Definition insight_row (text : string) (insight : ReviewInsight) : AnalyzedRow :=
  mkRow text (aspect insight) (sentiment insight) (evidence insight) (rationale insight).

(** Body of [for item in batch_input]: the rows appended for one item. *)
Definition rows_for_item (rm : gmap Z (list ReviewInsight)) (item : BatchItem)
  : list AnalyzedRow :=
  let insights := default [] (rm !! item_id item) in
  match insights with
  | [] => [no_insight_row (item_text item)]
  | _ :: _ => map (insight_row (item_text item)) insights
  end.

Definition rows_for_batch (rm : gmap Z (list ReviewInsight)) (batch_input : list BatchItem)
  : list AnalyzedRow :=
  flat_map (rows_for_item rm) batch_input.

Section Loop.
Context {R : Type}.
Variable chat_parse : string -> R -> (exn + ParsedCompletion) * R.

(** Body of [for i in range(0, total_rows, batch_size)]. *)
Definition process_chunk (df : DataFrame) (batch_size i : Z)
    (analyzed_data : list AnalyzedRow) : M (World R) (list AnalyzedRow) :=
  let end_idx := Z.min (i + batch_size) (len df) in
  let batch_input := prepare_batch (iloc df i end_idx) in
  match batch_input with
  | [] => ret analyzed_data
  | _ :: _ =>
      batch_results <~ analyze_review_batch chat_parse batch_input ;;
      ret (analyzed_data ++ rows_for_batch (results_map batch_results) batch_input)
  end.

Definition process_excel_file (df : DataFrame) (batch_size : Z)
  : M (World R) (list AnalyzedRow) :=
  if (batch_size =? 0)%Z
  then raise (PyError "ValueError" "range() arg 3 must not be zero")
  else for_each (py_range 0 (len df) batch_size) (process_chunk df batch_size) [].

End Loop.

(** *** The choice of the text column *)

(** A column label: a [str], or a value of another type (a number or a
    date read from the header row), of which only the name of the type
    matters here. *)
Inductive Label :=
| Str (name : string)
| NotStr (type_name : string).

(** What [col.lower()] raises on a label that is not a [str]. *)
Definition no_lower (type_name : string) : exn :=
  PyError "AttributeError" ("'" +:+ type_name +:+ "' object has no attribute 'lower'").

Definition priority_cols : list string :=
  ["text"; "content"; "body"; "comment"; "review_text"; "review text"].

(** [for col in df.columns: if test(col): text_col = col; break], where
    the test starts with [col.lower()]. *)
Fixpoint first_column (test : string -> bool) (columns : list Label)
  : outcome (option Label) :=
  match columns with
  | [] => Returns None
  | Str name :: rest =>
      if test name then Returns (Some (Str name)) else first_column test rest
  | NotStr type_name :: _ => Raises (no_lower type_name)
  end.

Definition is_priority (col : string) : bool :=
  existsb (String.eqb (lower col)) priority_cols.

Definition is_feedback (col : string) : bool :=
  let c_low := lower col in
  (contains "review" c_low || contains "feedback" c_low) &&
  negb (contains "id" c_low) && negb (contains "date" c_low).

(** Lines 11 to 34. [longest_on_average] is what evaluating the pandas
    expression [df.astype(str).apply(lambda x: x.str.len()).mean().idxmax()]
    gives on the sheet; the bare [except] catches whatever it raises, and
    [df.columns[0]] raises when the sheet has no column. The two loops stand
    outside any [try]. *)
Definition select_text_col (columns : list Label) (longest_on_average : outcome Label)
  : outcome Label :=
  match first_column is_priority columns with
  | Raises e => Raises e
  | Returns (Some col) => Returns col
  | Returns None =>
      match first_column is_feedback columns with
      | Raises e => Raises e
      | Returns (Some col) => Returns col
      | Returns None =>
          match longest_on_average with
          | Returns col => Returns col
          | Raises _ =>
              match columns with
              | [] => Raises (PyError "IndexError"
                                      "index 0 is out of bounds for axis 0 with size 0")
              | col :: _ => Returns col
              end
          end
      end
  end.

End Analyzer.

(** ** app.py *)

Module App.
Import PyNum Analyzer.

(** The column [verification_status]; [Mismatch a s] stands for the text
    "Mismatch (Run2: a/s)". *)
Inductive status :=
| Pending
| Verified
| Mismatch (run2_aspect run2_sentiment : string).

Record CheckedRow := mkChecked {
  row : AnalyzedRow;
  verification_status : status
}.

Definition same_label (r1 r2 : AnalyzedRow) : bool :=
  String.eqb (row_aspect r1) (row_aspect r2) &&
  String.eqb (row_sentiment r1) (row_sentiment r2).

(** [for i in range(total)]: the first [None] is the [break] taken when
    [i >= len(df2)]; the second is never met, since [i < total = len(df1)]
    and the updates keep the length. *)
Fixpoint compare_loop (idxs : list nat) (df1 : list CheckedRow) (df2 : list AnalyzedRow)
    (consistent : nat) : list CheckedRow * nat :=
  match idxs with
  | [] => (df1, consistent)
  | i :: idxs' =>
      match df2 !! i with
      | None => (df1, consistent)
      | Some r2 =>
          match df1 !! i with
          | None => (df1, consistent)
          | Some r1 =>
              if same_label (row r1) r2
              then compare_loop idxs' (<[i := mkChecked (row r1) Verified]> df1) df2
                                (S consistent)
              else compare_loop idxs'
                     (<[i := mkChecked (row r1)
                                       (Mismatch (row_aspect r2) (row_sentiment r2))]> df1)
                     df2 consistent
          end
      end
  end.

(** The table, and the score as the exact quotient that line 140
    approximates; [compare_and_merge_runs_binary64] below has the float. *)
Definition compare_and_merge_runs (df1 df2 : list AnalyzedRow) : list CheckedRow * Q :=
  let total := length df1 in
  let pending := map (fun r => mkChecked r Pending) df1 in
  let '(checked, consistent) := compare_loop (seq 0 total) pending df2 0 in
  let score := if (0 <? total)%nat then percentage consistent total else 0%Q in
  (checked, score).

(** The same function with the score as line 140 computes it: the
    quotient and the product in binary64, and the [int] 0 for an empty first
    run. *)
Definition compare_and_merge_runs_binary64 (df1 df2 : list AnalyzedRow)
  : list CheckedRow * number :=
  let total := length df1 in
  let pending := map (fun r => mkChecked r Pending) df1 in
  let '(checked, consistent) := compare_loop (seq 0 total) pending df2 0 in
  let score := if (0 <? total)%nat then PyFloat (float_percentage consistent total)
               else PyInt 0 in
  (checked, score).

(** *** The passes of the route [analyze] *)

(** [df_results]: the table of a single pass, or the first table with its
    verification column. *)
Inductive ResultTable :=
| Plain (rows : list AnalyzedRow)
| Annotated (rows : list CheckedRow).

Section Passes.
Context {R : Type}.
Variable chat_parse : string -> R -> (exn + LlmEngine.ParsedCompletion) * R.

(** The formatting [f"{consistency_score:.2f}"]. *)
Variable format_2f : Q -> string.

(** Step 4 of the route (lines 44 to 60): the table shown, the score and
    the note appended to the statistics. The sheet saved by step 2 is read
    anew by each pass, and is the same. *)
Definition analysis_passes (dual_mode : bool) (df : DataFrame)
  : M (LlmEngine.World R) (ResultTable * option Q * string) :=
  if dual_mode then
    df_run1 <~ process_excel_file chat_parse df Config.BATCH_SIZE ;;
    df_run2 <~ process_excel_file chat_parse df Config.BATCH_SIZE ;;
    let '(df_results, consistency_score) := compare_and_merge_runs df_run1 df_run2 in
    ret (Annotated df_results, Some consistency_score,
         PyStr.newline +:+ "(Note: Analysis verified with dual-run consistency of " +:+
         format_2f consistency_score +:+ "%.)")
  else
    df_results <~ process_excel_file chat_parse df Config.BATCH_SIZE ;;
    ret (Plain df_results, None, "").

End Passes.

End App.

(** ** validator.py *)

Module Validator.
Import PyStr PySeq PyNum Models Config LlmEngine.

Definition NEGATION_WORDS : list string := ["not"; "no"; "never"; "n't"; "cannot"].
Definition CONTRAST_WORDS : list string := ["but"; "however"; "although"; "though"; "while"].

Definition detect_complexity_tags (text : string) : list string :=
  let text_lower := lower text in
  let tags := [] in
  let tags := if re_search_words NEGATION_WORDS text_lower then tags ++ ["Negation"] else tags in
  let tags := if re_search_words CONTRAST_WORDS text_lower then tags ++ ["Mixed/Contrast"] else tags in
  let tags := if (150 <? String.length text)%nat then tags ++ ["Long Text"] else tags in
  match tags with
  | [] => ["Simple"]
  | _ :: _ => tags
  end.

(** A record of the gold file; [None] is an absent key. *)
Record GoldItem := mkGold {
  gold_text : option string;
  label_aspect : option string;
  label_sentiment : option string
}.

Record Truth := mkTruth {
  truth_aspect : string;
  truth_sentiment : string;
  truth_text : string;
  truth_tags : list string
}.

(** Step 1: [ground_truth_map] (its keys are the positions, in order) and
    [batch_input]. *)
Fixpoint prepare_data (idx : Z) (gold_data : list GoldItem)
  : list (Z * Truth) * list BatchItem :=
  match gold_data with
  | [] => ([], [])
  | item :: rest =>
      let text := default "" (gold_text item) in
      let truth := mkTruth (default "other" (label_aspect item))
                           (default "neutral" (label_sentiment item))
                           text (detect_complexity_tags text) in
      let '(ground_truth_map, batch_input) := prepare_data (idx + 1)%Z rest in
      ((idx, truth) :: ground_truth_map, mkItem idx text :: batch_input)
  end.

(** The pair compared by the consistency check. *)
Definition first_pair (p : list ReviewInsight) : string * string :=
  match p with
  | [] => ("none", "none")
  | insight :: _ => (aspect insight, sentiment insight)
  end.

Definition get (m : gmap Z (list ReviewInsight)) (idx : Z) : list ReviewInsight :=
  default [] (m !! idx).

Definition range (n : nat) : list Z := map Z.of_nat (seq 0 n).

Definition count_consistent (predictions_pass_1 predictions_pass_2 : gmap Z (list ReviewInsight))
    (total_checks : nat) : nat :=
  foldl (fun consistent_count idx =>
           let res1 := first_pair (get predictions_pass_1 idx) in
           let res2 := first_pair (get predictions_pass_2 idx) in
           if bool_decide (res1 = res2) then S consistent_count else consistent_count)
        0%nat (range total_checks).

Definition consistency (predictions_pass_1 predictions_pass_2 : gmap Z (list ReviewInsight))
    (total_checks : nat) : binary64 :=
  if (0 <? total_checks)%nat
  then float_round2 (float_percentage
                       (count_consistent predictions_pass_1 predictions_pass_2 total_checks)
                       total_checks)
  else S754_zero false.

Record Detail := mkDetail {
  detail_text : string;
  detail_tags : string;
  detail_true : string;
  detail_pred : string;
  detail_match : bool
}.

(** [edge_case_stats]: tag to (total, correct), in insertion order. *)
Fixpoint bump (tag : string) (is_correct : bool) (stats : list (string * (nat * nat)))
  : list (string * (nat * nat)) :=
  match stats with
  | [] => [(tag, (1, if is_correct then 1 else 0))]%nat
  | (t, (total, correct)) :: rest =>
      if String.eqb t tag
      then (t, (S total, if is_correct then S correct else correct)) :: rest
      else (t, (total, correct)) :: bump tag is_correct rest
  end.

Record Tally := mkTally {
  y_true_aspect : list string;
  y_pred_aspect : list string;
  details : list Detail;
  edge_case_stats : list (string * (nat * nat))
}.

(** Body of the loop of step 3 for one position. *)
Definition compare_line (predictions_pass_1 : gmap Z (list ReviewInsight))
    (acc : Tally) (entry : Z * Truth) : Tally :=
  let '(idx, truth) := entry in
  let tags := truth_tags truth in
  let predicted_insights := get predictions_pass_1 idx in
  let '(pred_aspect, pred_sentiment) :=
    match predicted_insights with
    | insight :: _ => (aspect insight, sentiment insight)
    | [] => ("other", "neutral")
    end in
  let is_correct :=
    String.eqb (truth_aspect truth) pred_aspect &&
    String.eqb (truth_sentiment truth) pred_sentiment in
  mkTally (y_true_aspect acc ++ [truth_aspect truth])
          (y_pred_aspect acc ++ [pred_aspect])
          (details acc ++
             [mkDetail (substring 0 50 (truth_text truth) +:+ "...")
                       (String.concat ", " tags)
                       (truth_aspect truth +:+ " | " +:+ truth_sentiment truth)
                       (pred_aspect +:+ " | " +:+ pred_sentiment)
                       is_correct])
          (foldl (fun stats tag => bump tag is_correct stats) (edge_case_stats acc) tags).

Record EdgeStat := mkEdge {
  edge_type : string;
  edge_total : nat;
  edge_accuracy : number
}.

Definition final_edge_stat (entry : string * (nat * nat)) : EdgeStat :=
  let '(tag, (total, correct)) := entry in
  let acc_rate := if (0 <? total)%nat then PyFloat (float_percentage correct total)
                  else PyInt 0 in
  mkEdge tag total (round2 acc_rate).

(** What [classification_report] hands back. *)
Inductive Report (V : Type) :=
| ReportDict (entries : list (string * V))
| ReportText (text : string).
Arguments ReportDict {V} entries.
Arguments ReportText {V} text.

Record Metrics (V : Type) := mkMetrics {
  accuracy : binary64;
  precision : binary64;
  recall : binary64;
  f1 : binary64;
  aspect_breakdown : list (string * V);
  final_edge_stats : list EdgeStat;
  metric_details : list Detail;
  metric_consistency : option binary64
}.
Arguments mkMetrics {V}.
Arguments metric_consistency {V} m.

(** The dictionary returned: metrics, or the single key ["error"]. *)
Inductive ValidationResult (V : Type) :=
| MetricsResult (metrics : Metrics V)
| ErrorResult (error : string).
Arguments MetricsResult {V} metrics.
Arguments ErrorResult {V} error.

Definition lift {W A} (o : outcome A) : M W A := fun w => (o, w).

Section Harness.
Context {R V : Type}.
Variable chat_parse : string -> R -> (exn + ParsedCompletion) * R.

(** The three functions of [sklearn.metrics], each of which returns or
    raises. *)
Variable accuracy_score : list string -> list string -> outcome PyNum.binary64.
Variable precision_recall_fscore_support :
  list string -> list string -> outcome (PyNum.binary64 * PyNum.binary64 * PyNum.binary64).
Variable classification_report : list string -> list string -> outcome (Report V).

Definition _get_predictions (batch_input : list BatchItem)
  : M (World R) (gmap Z (list ReviewInsight)) :=
  for_each (py_range 0 (len batch_input) BATCH_SIZE)
    (fun i predictions_map =>
       let chunk := slice batch_input i (i + BATCH_SIZE) in
       batch_results <~ analyze_review_batch chat_parse chunk ;;
       ret (foldl (fun m res => <[id res := insights res]> m) predictions_map batch_results))
    ∅.

(** Step 2 after the first pass. *)
Definition consistency_check (dual_mode : bool) (batch_input : list BatchItem)
    (predictions_pass_1 : gmap Z (list ReviewInsight)) (total_checks : nat)
  : M (World R) (option binary64) :=
  if dual_mode then
    predictions_pass_2 <~ _get_predictions batch_input ;;
    ret (Some (consistency predictions_pass_1 predictions_pass_2 total_checks))
  else ret None.

(** [round(float(x) * 100, 2)], [x] being a float already. *)
Definition percent (x : binary64) : binary64 :=
  float_round2 (SFmul prec emax x (of_int 100)).

(** The body of the [try] of step 4. *)
Definition compute_metrics (tally : Tally) (consistency_score : option binary64)
  : M (World R) (ValidationResult V) :=
  acc <~ lift (accuracy_score (y_true_aspect tally) (y_pred_aspect tally)) ;;
  prf <~ lift (precision_recall_fscore_support (y_true_aspect tally) (y_pred_aspect tally)) ;;
  report_dict <~ lift (classification_report (y_true_aspect tally) (y_pred_aspect tally)) ;;
  match report_dict with
  | ReportText _ => raise (PyError "AssertionError" "")
  | ReportDict entries =>
      let '(precision, recall, f1) := prf in
      ret (MetricsResult
             (mkMetrics
                (percent acc) (percent precision) (percent recall) (percent f1)
                (filter (fun kv => kv.1 ∉ ["accuracy"; "macro avg"; "weighted avg"]) entries)
                (map final_edge_stat (edge_case_stats tally))
                (details tally)
                consistency_score))
  end.

(** [file] is what opening and parsing the gold file yields. *)
Definition run_gold_standard_validation (file : outcome (list GoldItem)) (dual_mode : bool)
  : M (World R) (ValidationResult V) :=
  match file with
  | Raises e => ret (ErrorResult ("Failed to load JSON: " +:+ exn_msg e))
  | Returns gold_data =>
      let '(ground_truth_map, batch_input) := prepare_data 0 gold_data in
      predictions_pass_1 <~ _get_predictions batch_input ;;
      consistency_score <~
        consistency_check dual_mode batch_input predictions_pass_1 (length gold_data) ;;
      let tally := foldl (compare_line predictions_pass_1) (mkTally [] [] [] [])
                         ground_truth_map in
      try_except (compute_metrics tally consistency_score)
                 (fun e => ret (ErrorResult (exn_msg e)))
  end.

End Harness.

End Validator.

(** ** test.py *)

Module TestScript.
Import PyStr PySeq PyNum Models LlmEngine.

(** [[{"id": idx, "text": item['text']} for idx, item in enumerate(data)]],
    [data] being the texts of the samples. *)
Fixpoint enumerate_items (idx : Z) (data : list string) : list BatchItem :=
  match data with
  | [] => []
  | text :: rest => mkItem idx text :: enumerate_items (idx + 1)%Z rest
  end.

(** The value stored for one result. *)
Definition label (found : list ReviewInsight) : string :=
  match found with
  | insight :: _ => aspect insight +:+ "|" +:+ sentiment insight
  | [] => "none|none"
  end.

Section Stress.
Context {R : Type}.
Variable chat_parse : string -> R -> (exn + ParsedCompletion) * R.

(** The dictionary [results] of [run_batch_test]; the elapsed time it
    returns beside it is read off the clock and is left out. The handler of
    the [try] prints and goes on to the next chunk. *)
Definition run_batch_test (data : list string) (batch_size : Z)
  : M (World R) (gmap Z string) :=
  let batch_input := enumerate_items 0 data in
  if (batch_size =? 0)%Z
  then raise (PyError "ValueError" "range() arg 3 must not be zero")
  else
    for_each (py_range 0 (len batch_input) batch_size)
      (fun i results =>
         let chunk := slice batch_input i (i + batch_size) in
         try_except
           (batch_out <~ analyze_review_batch chat_parse chunk ;;
            ret (foldl (fun m res => <[id res := label (insights res)]> m) results batch_out))
           (fun _ => ret results))
      ∅.

End Stress.

(** The comparison with the baseline in [main] (lines 115 to 126). *)
Definition count_matches (baseline_results curr_results : gmap Z string) (total : nat) : nat :=
  foldl (fun matches idx =>
           let base_val := default "missing_base" (baseline_results !! idx) in
           let curr_val := default "missing_curr" (curr_results !! idx) in
           if String.eqb base_val curr_val then S matches else matches)
        0%nat (map Z.of_nat (seq 0 total)).

Definition consistency (baseline_results curr_results : gmap Z string) (total : nat)
  : binary64 :=
  float_percentage (count_matches baseline_results curr_results total) total.

End TestScript.

(** * Notions used to state the properties *)

Module Spec.
Import PyStr PySeq Models LlmEngine Analyzer.

Section Reply.
Context {R : Type}.
Variable chat_parse : string -> R -> (exn + ParsedCompletion) * R.

(** What the client hands back for a batch when the service is in state
    [r], read off the service's answer. *)
Definition reply (reviews_batch : list BatchItem) (r : R) : list ReviewResult :=
  match (chat_parse (user_content reviews_batch) r).1 with
  | inl _ => []
  | inr completion =>
      match choices completion with
      | [] => []
      | message :: _ =>
          if str_truthy (refusal message) then []
          else match parsed message with
               | Some response => reviews response
               | None => []
               end
      end
  end.

Definition remote_after (reviews_batch : list BatchItem) (r : R) : R :=
  (chat_parse (user_content reviews_batch) r).2.

End Reply.

Section Replies.
Context {R : Type}.
Variable chat_parse : string -> R -> (exn + ParsedCompletion) * R.

(** The calls made for a list of batches, the service starting in state
    [r], and the state it is left in. *)
Fixpoint run_calls (bl : list (list BatchItem)) (r : R) : list Call * R :=
  match bl with
  | [] => ([], r)
  | b :: bl' =>
      let '(cs, r') := run_calls bl' (remote_after chat_parse b r) in
      ((b, reply chat_parse b r) :: cs, r')
  end.

(** The answer of the service depends on the message only, not on what
    it was asked before. *)
Definition stateless : Prop :=
  forall content r1 r2, (chat_parse content r1).1 = (chat_parse content r2).1.

End Replies.

(** The chunks [df.iloc[i:end_idx]] in loop order. *)
Definition chunks (df : DataFrame) (batch_size : Z) : list (list (Z * string)) :=
  map (fun i => iloc df i (Z.min (i + batch_size) (len df)))
      (py_range 0 (len df) batch_size).

(** The batches that reach the client: the non-empty filtered chunks. *)
Definition batches (df : DataFrame) (batch_size : Z) : list (list BatchItem) :=
  filter (fun b => b <> []) (map prepare_batch (chunks df batch_size)).

(** The rows that pass the filter, as items, in sheet order. *)
Definition kept_items (df : DataFrame) : list BatchItem := prepare_batch (iterrows df).

(** The rows appended to the table after one call. *)
Definition call_rows (c : Call) : list AnalyzedRow :=
  rows_for_batch (results_map c.2) c.1.

(** The same rows, each paired with the id of the item it was appended for. *)
Definition tagged_rows (c : Call) : list (Z * AnalyzedRow) :=
  flat_map (fun item => map (pair (item_id item)) (rows_for_item (results_map c.2) item)) c.1.

Definition attributed (new : list Call) : list (Z * AnalyzedRow) :=
  flat_map tagged_rows new.

(** The rows of the table appended for the item with id [k]. *)
Definition emitted_for (k : Z) (new : list Call) : list AnalyzedRow :=
  map snd (filter (fun x => x.1 = k) (attributed new)).

(** Blocks of rows under the id of their item, and their flattening. *)
Definition tagged (blocks : list (Z * list AnalyzedRow)) : list (Z * AnalyzedRow) :=
  flat_map (fun b => map (pair b.1) b.2) blocks.

Definition blocks_of (new : list Call) : list (Z * list AnalyzedRow) :=
  flat_map (fun c => map (fun item => (item_id item, rows_for_item (results_map c.2) item)) c.1)
           new.

(** Rows of an earlier sheet row come before rows of a later one. *)
Definition row_order_preserved (t : list (Z * AnalyzedRow)) : Prop :=
  forall i j x y, t !! i = Some x -> t !! j = Some y -> (x.1 < y.1)%Z -> (i < j)%nat.

(** What the results returned by the client say about an id: the
    insights of the last result that carries it, if any does. *)
Fixpoint returned_for (k : Z) (results : list ReviewResult) : option (list ReviewInsight) :=
  match results with
  | [] => None
  | res :: later =>
      match returned_for k later with
      | Some found => Some found
      | None => if (id res =? k)%Z then Some (insights res) else None
      end
  end.

(** The rows an item is to get from the results returned for its batch:
    one per insight, in order, or the single placeholder when the results
    have nothing or an empty list for its id. *)
Definition answer_rows (results : list ReviewResult) (item : BatchItem) : list AnalyzedRow :=
  match returned_for (item_id item) results with
  | Some (insight :: rest) =>
      map (fun i => mkRow (item_text item) (aspect i) (sentiment i) (evidence i) (rationale i))
          (insight :: rest)
  | _ => [mkRow (item_text item) "other" "neutral" ""
                "No insight detected (or skipped by LLM)"]
  end.

(** A call with the results for ids that were not sent removed. *)
Definition known_results (c : Call) : Call :=
  (c.1, filter (fun res => id res ∈ map item_id c.1) c.2).

(** The dual-run comparison in the words of its description: the number of
    index-aligned pairs whose aspect and sentiment both match, and the first
    run with each row marked from its partner (rows without partner stay
    pending). *)
Fixpoint agreeing (run1 run2 : list AnalyzedRow) : nat :=
  match run1, run2 with
  | r1 :: run1', r2 :: run2' =>
      ((if App.same_label r1 r2 then 1 else 0) + agreeing run1' run2')%nat
  | _, _ => 0%nat
  end.

Fixpoint annotate (run1 run2 : list AnalyzedRow) : list App.CheckedRow :=
  match run1 with
  | [] => []
  | r1 :: run1' =>
      match run2 with
      | [] => App.mkChecked r1 App.Pending :: annotate run1' []
      | r2 :: run2' =>
          App.mkChecked r1 (if App.same_label r1 r2 then App.Verified
                            else App.Mismatch (row_aspect r2) (row_sentiment r2))
            :: annotate run1' run2'
      end
  end.

(** The consistency count in the words of its description: the samples,
    by position, whose first insight has the same aspect and sentiment in
    both passes, a sample without insight standing as ("none", "none"). *)
Definition first_label (p : gmap Z (list ReviewInsight)) (idx : Z) : string * string :=
  match p !! idx with
  | Some (insight :: _) => (aspect insight, sentiment insight)
  | _ => ("none", "none")
  end.

Definition agreeing_samples (p1 p2 : gmap Z (list ReviewInsight)) (n : nat) : nat :=
  length (filter (fun idx => first_label p1 idx = first_label p2 idx) (Validator.range n)).

(** The chunks handed to the client by one pass of the validation. *)
Definition gold_chunks (batch_input : list BatchItem) : list (list BatchItem) :=
  map (fun i => slice batch_input i (i + Config.BATCH_SIZE))
      (py_range 0 (len batch_input) Config.BATCH_SIZE).

(** The line of the details written for one gold entry. *)
Definition entry_detail (p : gmap Z (list ReviewInsight)) (entry : Z * Validator.Truth)
  : list Validator.Detail :=
  Validator.details (Validator.compare_line p (Validator.mkTally [] [] [] []) entry).

(** Whether the prediction for a gold entry is counted as correct. *)
Definition entry_correct (p : gmap Z (list ReviewInsight)) (entry : Z * Validator.Truth) : bool :=
  match entry_detail p entry with
  | d :: _ => Validator.detail_match d
  | [] => false
  end.

(** The value kept for a tag in [edge_case_stats]. *)
Fixpoint tag_stat (tag : string) (stats : list (string * (nat * nat))) : option (nat * nat) :=
  match stats with
  | [] => None
  | (t, v) :: rest => if String.eqb t tag then Some v else tag_stat tag rest
  end.

(** The gold entries that carry a tag, and those of them counted correct. *)
Definition carriers (tag : string) (entries : list (Z * Validator.Truth))
  : list (Z * Validator.Truth) :=
  filter (fun e => tag ∈ Validator.truth_tags e.2) entries.

Definition correct_carriers (p : gmap Z (list ReviewInsight)) (tag : string)
    (entries : list (Z * Validator.Truth)) : list (Z * Validator.Truth) :=
  filter (fun e => entry_correct p e = true) (carriers tag entries).

(** The prediction compared with the gold labels: the first insight, or
    ("other", "neutral") when there is none. *)
Definition predicted_label (p : gmap Z (list ReviewInsight)) (idx : Z) : string * string :=
  match p !! idx with
  | Some (insight :: _) => (aspect insight, sentiment insight)
  | _ => ("other", "neutral")
  end.

(** One more sample counted for a tag. *)
Definition count_one (is_correct : bool) (o : option (nat * nat)) : nat * nat :=
  match o with
  | Some (total, correct) => (S total, if is_correct then S correct else correct)
  | None => (1%nat, if is_correct then 1%nat else 0%nat)
  end.

(** An occurrence of [w] in the text that follows [prev], with [\b]
    holding at both of its ends. *)
Definition bounded_at (prev : option ascii) (w s : string) : Prop :=
  exists pre post,
    s = pre +:+ w +:+ post /\
    word_boundary (last_char prev pre) (head_char (w +:+ post)) = true /\
    word_boundary (last_char prev (pre +:+ w)) (head_char post) = true.

(** A word that begins and ends with a word character. *)
Definition wordy (w : string) : Prop :=
  word_at (head_char w) = true /\ word_at (last_char None w) = true.

(** Number of copies of [c] the text starts with. *)
Fixpoint leading (c : ascii) (s : string) : nat :=
  match s with
  | EmptyString => 0%nat
  | String a s' => if Ascii.eqb c a then S (leading c s') else 0%nat
  end.

(** The text neither starts nor ends with white space. *)
Definition trimmed (s : string) : bool :=
  match head_char s, last_char None s with
  | Some a, Some b => negb (is_space a) && negb (is_space b)
  | _, _ => true
  end.

(** Both runs of the stress test hold a value for the sample, and the two
    values are equal. *)
Definition answered_alike (baseline_results curr_results : gmap Z string) (idx : Z) : bool :=
  match baseline_results !! idx, curr_results !! idx with
  | Some base_val, Some curr_val => String.eqb base_val curr_val
  | _, _ => false
  end.

(** The dictionary filled from the results of the stress test's calls. *)
Definition stored_labels (results : list ReviewResult) : gmap Z string :=
  foldl (fun m res => <[id res := TestScript.label (insights res)]> m) ∅ results.

(** The chunks of the stress test, for a positive batch size. *)
Definition test_chunks (batch_input : list BatchItem) (batch_size : Z) : list (list BatchItem) :=
  map (fun i => PySeq.slice batch_input i (i + batch_size))
      (PySeq.py_range 0 (PySeq.len batch_input) batch_size).

(** [k] hundredths is the decimal with two places nearest to [x], a tie
    going to the even [k]. *)
Definition nearest_hundredths (x : Q) (k : Z) : Prop :=
  (Qabs (x * 100 - inject_Z k) <= 1 # 2)%Q /\
  ((Qabs (x * 100 - inject_Z k) == 1 # 2)%Q -> Z.even k = true).

(** [r] is [round(x, 2)]: for a finite [x], the float nearest to the
    two-place decimal nearest to the exact value of [x], with the sign of
    [x]; [x] itself when it is a zero, an infinity or not a number. *)
Definition rounded2 (x r : PyNum.binary64) : Prop :=
  match x with
  | S754_finite s m e =>
      exists k : Z,
        nearest_hundredths (PyNum.value (S754_finite false m e)) k /\
        r = match k with
            | Zpos p => SFdiv prec emax (S754_finite s p 0) (PyNum.of_int 100)
            | _ => S754_zero s
            end
  | _ => r = x
  end.

Section Handled.
Import Validator.
Context {R V : Type}.
Variable accuracy_score : list string -> list string -> outcome PyNum.binary64.
Variable precision_recall_fscore_support :
  list string -> list string -> outcome (PyNum.binary64 * PyNum.binary64 * PyNum.binary64).
Variable classification_report : list string -> list string -> outcome (Report V).

(** What step 4 of the harness hands back: the value of the [try] body,
    or the error dictionary built by the handler. *)
Definition handled (tally : Tally) (score : option PyNum.binary64) (w : World R)
  : ValidationResult V :=
  match (compute_metrics accuracy_score precision_recall_fscore_support classification_report
                         tally score w).1 with
  | Returns result => result
  | Raises e => ErrorResult (exn_msg e)
  end.

End Handled.

End Spec.

(** * A concrete run

    The three-row sheet of the end-to-end scenario, and a service that
    answers every call with two insights for review 0 and one for an id
    that was never sent. *)

Module Scenario.
Import Models LlmEngine Analyzer.

Definition sheet : DataFrame :=
  ["Great delivery, but packaging was damaged"; "Terrible support"; "nan"].

Definition answer : BatchResponse :=
  mkBatchResponse
    [mkResult 0 [mkInsight "delivery_shipping" "positive" "Great delivery" "praise";
                 mkInsight "product_quality" "negative" "packaging was damaged" "damage"];
     mkResult 7 [mkInsight "service" "negative" "support" "stray"]].

Definition service (content : string) (r : nat) : (exn + ParsedCompletion) * nat :=
  (inr (mkCompletion [mkMessage None (Some answer)]), S r).

Definition down (content : string) (r : nat) : (exn + ParsedCompletion) * nat :=
  (inl (PyError "APIConnectionError" "Connection error."), S r).

Definition start : World nat := mkWorld 0%nat [].

Definition run5 : list AnalyzedRow :=
  [mkRow "a" "service" "negative" "" ""; mkRow "b" "usability" "positive" "" "";
   mkRow "c" "price_value" "mixed" "" ""; mkRow "d" "other" "neutral" "" "";
   mkRow "e" "delivery_shipping" "positive" "" ""].

(** Two runs of three rows that agree on the first row only. *)
Definition run3 : list AnalyzedRow :=
  [mkRow "a" "service" "negative" "" ""; mkRow "b" "usability" "positive" "" "";
   mkRow "c" "price_value" "mixed" "" ""].

Definition run3' : list AnalyzedRow :=
  [mkRow "a" "service" "negative" "" ""; mkRow "b" "usability" "negative" "" "";
   mkRow "c" "other" "mixed" "" ""].

(** [run5] with the aspect of its third row changed. *)
Definition run5' : list AnalyzedRow :=
  <[2%nat := mkRow "c" "product_quality" "mixed" "" ""]> run5.

Definition gold2 : list Validator.GoldItem :=
  [Validator.mkGold (Some "Terrible support") (Some "service") (Some "negative");
   Validator.mkGold (Some "Not bad, however slow delivery") (Some "delivery_shipping")
                    (Some "mixed")].

(** Three gold samples, and a service whose answers alternate: the
    second differs from the first on the last two samples. *)
Definition gold3 : list Validator.GoldItem :=
  [Validator.mkGold (Some "Terrible support") (Some "service") (Some "negative");
   Validator.mkGold (Some "Great phone") (Some "product_quality") (Some "positive");
   Validator.mkGold (Some "Too expensive") (Some "price_value") (Some "negative")].

Definition first_answer : BatchResponse :=
  mkBatchResponse
    [mkResult 0 [mkInsight "service" "negative" "support" ""];
     mkResult 1 [mkInsight "product_quality" "positive" "phone" ""];
     mkResult 2 [mkInsight "price_value" "negative" "expensive" ""]].

Definition second_answer : BatchResponse :=
  mkBatchResponse
    [mkResult 0 [mkInsight "service" "negative" "support" ""];
     mkResult 1 [mkInsight "usability" "positive" "phone" ""];
     mkResult 2 []].

Definition wavering (content : string) (r : nat) : (exn + ParsedCompletion) * nat :=
  (inr (mkCompletion
          [mkMessage None (Some (if Nat.even r then first_answer else second_answer))]),
   S r).

(** Metric functions that return, and one that raises as on empty input. *)
Definition one : PyNum.binary64 := S754_finite false 4503599627370496 (-52).

Definition sk_accuracy (y_true y_pred : list string) : outcome PyNum.binary64 := Returns one.

Definition sk_prf (y_true y_pred : list string) : outcome (PyNum.binary64 * PyNum.binary64 * PyNum.binary64) :=
  Returns (one, one, one).

Definition sk_report (y_true y_pred : list string) : outcome (Validator.Report unit) :=
  Returns (Validator.ReportDict [("service", tt); ("accuracy", tt)]).

Definition sk_empty (y_true y_pred : list string) : outcome PyNum.binary64 :=
  match y_true with
  | [] => Raises (PyError "ValueError" "Found empty input array.")
  | _ :: _ => Returns one
  end.

(** A summary service that wraps its answer in a code fence. *)
Definition writer (prompt : string) (r : nat) : (exn + ChatCompletion) * nat :=
  (inr (mkChat [Some ("```html" +:+ PyStr.newline +:+ "<h3>Executive Overview</h3>" +:+
                      PyStr.newline +:+ "```")]), S r).

End Scenario.

(** * Properties *)

(** ** Strings and the word-pattern search *)

Section PyStrFacts.
Import PyStr Spec.
Local Arguments String.append !_ _ / : simpl nomatch.

Lemma strip_prefix_app (w rest : string) : strip_prefix w (w +:+ rest) = Some rest.
Proof.
  induction w as [|a w IH]; simpl; [reflexivity|].
  now rewrite Ascii.eqb_refl.
Qed.

Lemma strip_prefix_inv (w s rest : string) :
  strip_prefix w s = Some rest -> s = w +:+ rest.
Proof.
  revert s. induction w as [|a w IH]; intros s H; simpl in *.
  - now inversion H.
  - destruct s as [|b s]; [discriminate|].
    destruct (Ascii.eqb a b) eqn:E; [|discriminate].
    apply Ascii.eqb_eq in E. subst b. f_equal. now apply IH.
Qed.

Lemma last_char_app (prev : option ascii) (a b : string) :
  last_char prev (a +:+ b) = last_char (last_char prev a) b.
Proof. revert prev. induction a as [|x a IH]; intros prev; simpl; [reflexivity | apply IH]. Qed.

Lemma match_here_spec (alts : list string) (prev : option ascii) (s : string) :
  match_here alts prev s = true <->
  exists w post, In w alts /\ s = w +:+ post /\
    word_boundary prev (head_char s) = true /\
    word_boundary (last_char prev w) (head_char post) = true.
Proof.
  unfold match_here. rewrite andb_true_iff, existsb_exists. split.
  - intros [Hb (w & Hin & Hw)].
    destruct (strip_prefix w s) as [rest|] eqn:E; [|discriminate].
    apply strip_prefix_inv in E. exists w, rest. auto.
  - intros (w & post & Hin & -> & Hb & Ha). split; [exact Hb|].
    exists w. split; [exact Hin|]. now rewrite strip_prefix_app.
Qed.

Lemma search_from_spec (alts : list string) (s : string) :
  forall prev,
    search_from alts prev s = true <-> exists w, In w alts /\ bounded_at prev w s.
Proof.
  induction s as [|c s IH]; intros prev; simpl search_from; rewrite orb_true_iff.
  - rewrite match_here_spec. split.
    + intros [(w & post & Hin & Hs & Hb & Ha) | Hf]; [|discriminate].
      exists w. split; [exact Hin|]. exists "", post.
      split; [exact Hs|]. split; [|exact Ha].
      simpl last_char. rewrite <- Hs. exact Hb.
    + intros (w & Hin & pre & post & Hs & Hb & Ha). left.
      destruct pre; [|discriminate].
      exists w, post. split; [exact Hin|]. split; [exact Hs|].
      split; [|exact Ha]. rewrite Hs. exact Hb.
  - rewrite match_here_spec, IH. split.
    + intros [(w & post & Hin & Hs & Hb & Ha) | (w & Hin & pre & post & Hs & Hb & Ha)].
      * exists w. split; [exact Hin|]. exists "", post.
        split; [exact Hs|]. split; [|exact Ha].
        simpl last_char. rewrite <- Hs. exact Hb.
      * exists w. split; [exact Hin|]. exists (String c pre), post.
        split; [simpl; now rewrite Hs|]. split; [exact Hb | exact Ha].
    + intros (w & Hin & pre & post & Hs & Hb & Ha).
      destruct pre as [|c' pre].
      * left. exists w, post. split; [exact Hin|]. split; [exact Hs|].
        split; [|exact Ha]. rewrite Hs. exact Hb.
      * right. simpl in Hs. injection Hs as <- Hs.
        exists w. split; [exact Hin|]. exists pre, post.
        split; [exact Hs|]. split; [exact Hb | exact Ha].
Qed.

Lemma wordy_head (w post : string) :
  wordy w -> word_at (head_char (w +:+ post)) = true.
Proof. intros [H _]. destruct w; [discriminate | exact H]. Qed.

Lemma wordy_last (prev : option ascii) (w : string) :
  wordy w -> word_at (last_char prev w) = true.
Proof. intros [_ H]. destruct w; [discriminate | exact H]. Qed.

Lemma bounded_at_whole_word (w s : string) :
  wordy w -> (bounded_at None w s <-> whole_word w s).
Proof.
  intros Hw. unfold bounded_at, whole_word, word_boundary.
  split; intros (pre & post & Hs & Hb & Ha); exists pre, post;
    rewrite last_char_app in *;
    rewrite (wordy_head w post Hw) in *; rewrite (wordy_last _ w Hw) in *;
    (split; [exact Hs|]).
  - destruct (word_at (last_char None pre)), (word_at (head_char post)); auto; discriminate.
  - rewrite Hb, Ha. auto.
Qed.

Lemma re_search_words_spec (alts : list string) (s : string) :
  Forall wordy alts ->
  (re_search_words alts s = true <-> exists w, In w alts /\ whole_word w s).
Proof.
  intros Hall. unfold re_search_words. rewrite search_from_spec.
  rewrite Forall_forall in Hall.
  split; intros (w & Hin & H); exists w; (split; [exact Hin|]);
    apply (bounded_at_whole_word w s); auto;
    apply Hall; now apply list_elem_of_In.
Qed.

End PyStrFacts.

(** ** Complexity tags *)

Section ComplexityTags.
Import PyStr Validator Spec.

Lemma negation_words_wordy : Forall wordy NEGATION_WORDS.
Proof. repeat constructor. Qed.

Lemma contrast_words_wordy : Forall wordy CONTRAST_WORDS.
Proof. repeat constructor. Qed.

(** The three tests of the tagger, and the list it builds from them. *)
Lemma detect_complexity_tags_unfold (text : string) :
  detect_complexity_tags text =
    match
      (if re_search_words NEGATION_WORDS (lower text) then ["Negation"] else []) ++
      (if re_search_words CONTRAST_WORDS (lower text) then ["Mixed/Contrast"] else []) ++
      (if (150 <? String.length text)%nat then ["Long Text"] else [])
    with
    | [] => ["Simple"]
    | t :: ts => t :: ts
    end.
Proof.
  unfold detect_complexity_tags.
  destruct (re_search_words NEGATION_WORDS (lower text)),
           (re_search_words CONTRAST_WORDS (lower text)),
           (150 <? String.length text)%nat; reflexivity.
Qed.

(** C6, as the code has it: the word "not" standing alone (in any case)
    gives "Negation", the word "however" standing alone gives
    "Mixed/Contrast", 151 characters or more give "Long Text", a text in
    which none of the tagger's negation or contrast words stands alone and
    which has at most 150 characters gets exactly ["Simple"], and some text
    carries two tags. *)
Theorem detect_complexity_tags_words :
  (forall text : string,
      (whole_word "not" (lower text) -> In "Negation" (detect_complexity_tags text)) /\
      (whole_word "however" (lower text) -> In "Mixed/Contrast" (detect_complexity_tags text)) /\
      ((151 <= String.length text)%nat -> In "Long Text" (detect_complexity_tags text)) /\
      ((forall w, In w NEGATION_WORDS -> ~ whole_word w (lower text)) ->
       (forall w, In w CONTRAST_WORDS -> ~ whole_word w (lower text)) ->
       (String.length text <= 150)%nat ->
       detect_complexity_tags text = ["Simple"])) /\
  (exists text : string, (1 < length (detect_complexity_tags text))%nat).
Proof.
  split.
  - intros text. rewrite detect_complexity_tags_unfold.
    pose proof (re_search_words_spec NEGATION_WORDS (lower text) negation_words_wordy) as Hn.
    pose proof (re_search_words_spec CONTRAST_WORDS (lower text) contrast_words_wordy) as Hc.
    repeat split.
    + intros H.
      assert (re_search_words NEGATION_WORDS (lower text) = true) as ->.
      { apply Hn. exists "not". split; [simpl; auto | exact H]. }
      simpl. auto.
    + intros H.
      assert (re_search_words CONTRAST_WORDS (lower text) = true) as ->.
      { apply Hc. exists "however". split; [simpl; auto | exact H]. }
      destruct (re_search_words NEGATION_WORDS (lower text)); simpl; auto.
    + intros H.
      assert ((150 <? String.length text)%nat = true) as -> by (apply Nat.ltb_lt; lia).
      destruct (re_search_words NEGATION_WORDS (lower text)),
               (re_search_words CONTRAST_WORDS (lower text)); simpl; auto.
    + intros Hno_neg Hno_con Hlen.
      assert (re_search_words NEGATION_WORDS (lower text) = false) as ->.
      { apply not_true_is_false. intros E. apply Hn in E as (w & Hin & Hw).
        exact (Hno_neg w Hin Hw). }
      assert (re_search_words CONTRAST_WORDS (lower text) = false) as ->.
      { apply not_true_is_false. intros E. apply Hc in E as (w & Hin & Hw).
        exact (Hno_con w Hin Hw). }
      assert ((150 <? String.length text)%nat = false) as -> by (apply Nat.ltb_ge; lia).
      reflexivity.
  - exists "not bad, however slow". vm_compute. lia.
Qed.

Lemma detect_complexity_tags_words_witness :
  In "Negation" (detect_complexity_tags "I do NOT like it").
Proof.
  apply (proj1 (proj1 detect_complexity_tags_words "I do NOT like it")).
  exists "i do ", " like it". repeat split.
Defined.

(** The text "nothing" contains "not" and is tagged ["Simple"] only. *)
Lemma detect_complexity_tags_substring_counterexample :
  ~ (forall text : string,
        contains "not" text = true -> In "Negation" (detect_complexity_tags text)).
Proof.
  intros H. specialize (H "nothing" eq_refl).
  vm_compute in H. intuition discriminate.
Qed.

End ComplexityTags.

(** ** The batch client *)

Section ClientFacts.
Import PyStr Models LlmEngine Spec.
Context {R : Type}.
Variable chat_parse : string -> R -> (exn + ParsedCompletion) * R.

(** Every call returns the reply, moves the service on and extends the
    history by one entry. *)
Lemma analyze_review_batch_run (reviews_batch : list BatchItem) (w : World R) :
  analyze_review_batch chat_parse reviews_batch w =
    (Returns (reply chat_parse reviews_batch (remote w)),
     mkWorld (remote_after chat_parse reviews_batch (remote w))
             (calls w ++ [(reviews_batch, reply chat_parse reviews_batch (remote w))])).
Proof.
  unfold analyze_review_batch, try_except, bind, request_reviews, call_api, bind,
    reply, remote_after, record_call.
  destruct (chat_parse (user_content reviews_batch) (remote w)) as [[e|completion] r']; simpl.
  - reflexivity.
  - unfold first_message. destruct (choices completion) as [|message rest]; simpl.
    + reflexivity.
    + destruct (str_truthy (refusal message)); simpl; [reflexivity|].
      destruct (parsed message); reflexivity.
Qed.

(** C5: the client always returns and never lets an exception out; when
    the call raises, when the first message carries a refusal, and when it
    carries no parsed response, what it returns is the empty list. *)
Theorem analyze_review_batch_never_raises (reviews_batch : list BatchItem) (w : World R) :
  (exists results w',
      analyze_review_batch chat_parse reviews_batch w = (Returns results, w')) /\
  (forall e r',
      chat_parse (user_content reviews_batch) (remote w) = (inl e, r') ->
      (analyze_review_batch chat_parse reviews_batch w).1 = Returns []) /\
  (forall completion r' message rest,
      chat_parse (user_content reviews_batch) (remote w) = (inr completion, r') ->
      choices completion = message :: rest ->
      str_truthy (refusal message) = true \/ parsed message = None ->
      (analyze_review_batch chat_parse reviews_batch w).1 = Returns []).
Proof.
  rewrite analyze_review_batch_run. split; [eauto|]. unfold reply. split.
  - intros e r' ->. reflexivity.
  - intros completion r' message rest Hcall Hchoices Hempty.
    rewrite Hcall. simpl. rewrite Hchoices.
    destruct Hempty as [Href | Hnone].
    + now rewrite Href.
    + rewrite Hnone. now destruct (str_truthy (refusal message)).
Qed.

End ClientFacts.

Lemma analyze_review_batch_never_raises_witness :
  (LlmEngine.analyze_review_batch Scenario.down
     [Models.mkItem 0 "Terrible support"] Scenario.start).1 = Returns [].
Proof.
  eapply (proj1 (proj2 (analyze_review_batch_never_raises _ _ _))).
  reflexivity.
Defined.

(** ** Ranges, slices and chunks *)

Section SeqFacts.
Import PySeq.
Context {A : Type}.

Lemma flat_map_map {X Y B} (g : X -> Y) (f : Y -> list B) (xs : list X) :
  flat_map f (map g xs) = flat_map (fun x => f (g x)) xs.
Proof. induction xs as [|x xs IH]; simpl; [reflexivity | now rewrite IH]. Qed.

Lemma range_len_covers (n bs : Z) :
  (0 < bs)%Z -> (0 <= n)%Z -> (n <= range_len 0 n bs * bs)%Z /\ (0 <= range_len 0 n bs)%Z.
Proof.
  intros Hbs Hn. unfold range_len.
  destruct (0 <? bs)%Z eqn:E; [|apply Z.ltb_ge in E; lia].
  destruct (0 <? n)%Z eqn:En.
  - apply Z.ltb_lt in En. rewrite Z.sub_0_r.
    pose proof (Z.div_mod (n + bs - 1) bs ltac:(lia)) as Hdm.
    pose proof (Z.mod_pos_bound (n + bs - 1) bs Hbs) as Hmod.
    split; [nia|]. apply Z.div_pos; lia.
  - apply Z.ltb_ge in En. lia.
Qed.

Lemma py_range_from_zero (n bs : Z) :
  py_range 0 n bs = map (fun k => (Z.of_nat k * bs)%Z) (seq 0 (Z.to_nat (range_len 0 n bs))).
Proof. unfold py_range. apply map_ext. intros k. lia. Qed.

Lemma take_either (l : list A) (m b : nat) :
  m = b \/ (length l <= m /\ length l <= b)%nat -> take m l = take b l.
Proof. intros [-> | [H1 H2]]; [reflexivity|]. now rewrite !take_ge. Qed.

(** The slice taken by the chunk loops is the next [bs] elements, with or
    without the upper bound clamped to the length. *)
Lemma slice_chunk (l : list A) (k : nat) (bs j : Z) :
  (0 < bs)%Z ->
  j = (Z.of_nat k * bs + bs)%Z \/ j = Z.min (Z.of_nat k * bs + bs) (len l) ->
  slice l (Z.of_nat k * bs) j = take (Z.to_nat bs) (drop (k * Z.to_nat bs) l).
Proof.
  intros Hbs Hj. unfold slice, len in *.
  assert (Z.to_nat (Z.of_nat k * bs) = k * Z.to_nat bs)%nat as -> by nia.
  apply take_either. rewrite length_drop.
  destruct Hj as [-> | ->]; [left; nia|].
  destruct (Z.le_ge_cases (Z.of_nat k * bs + bs) (Z.of_nat (length l))) as [Hle | Hge].
  - left. rewrite Z.min_l by exact Hle. nia.
  - right. rewrite Z.min_r by exact Hge. nia.
Qed.

Lemma chunks_prefix (l : list A) (b m : nat) :
  flat_map (fun k => take b (drop (k * b) l)) (seq 0 m) = take (m * b) l.
Proof.
  induction m as [|m IH]; [reflexivity|].
  rewrite seq_S, flat_map_app, IH. simpl. rewrite app_nil_r.
  rewrite take_take_drop. f_equal. lia.
Qed.

(** The chunks of a positive step, taken in order, make up the list. *)
Lemma slices_cover (l : list A) (bs : Z) (upper : Z -> Z) :
  (0 < bs)%Z ->
  (forall i, upper i = (i + bs)%Z \/ upper i = Z.min (i + bs) (len l)) ->
  flat_map (fun i => slice l i (upper i)) (py_range 0 (len l) bs) = l.
Proof.
  intros Hbs Hup. rewrite py_range_from_zero, flat_map_map.
  rewrite (flat_map_ext _ (fun k => take (Z.to_nat bs) (drop (k * Z.to_nat bs) l))).
  - rewrite chunks_prefix. apply take_ge.
    destruct (range_len_covers (len l) bs Hbs) as [Hc Hc0]; unfold len in *; [lia|]. nia.
  - intros k. apply slice_chunk; [exact Hbs|]. apply Hup.
Qed.

Lemma concat_filter_nonempty (ls : list (list A)) :
  concat (filter (fun b => b <> []) ls) = concat ls.
Proof.
  induction ls as [|b ls IH]; [reflexivity|].
  rewrite filter_cons. destruct (decide (b <> [])) as [Hb | Hb]; simpl.
  - now rewrite IH.
  - destruct b; [simpl; exact IH | exfalso; apply Hb; discriminate].
Qed.

End SeqFacts.

(** ** Rows grouped by item *)

Section Blocks.
Import Analyzer Spec.

Lemma map_lookup {X Y} (f : X -> Y) (l : list X) (i : nat) :
  map f l !! i = f <$> l !! i.
Proof.
  revert i. induction l as [|x l IH]; intros [|i]; simpl; try reflexivity. apply IH.
Qed.

Lemma tagged_app (a b : list (Z * list AnalyzedRow)) :
  tagged (a ++ b) = tagged a ++ tagged b.
Proof. apply flat_map_app. Qed.

Lemma tagged_erase (blocks : list (Z * list AnalyzedRow)) :
  map snd (tagged blocks) = flat_map snd blocks.
Proof.
  induction blocks as [|[k rows] blocks IH]; [reflexivity|].
  simpl. rewrite map_app, IH, map_map. simpl. now rewrite map_id.
Qed.

Lemma tagged_keys (blocks : list (Z * list AnalyzedRow)) (x : Z * AnalyzedRow) :
  In x (tagged blocks) -> exists rows, In (x.1, rows) blocks /\ In x.2 rows.
Proof.
  unfold tagged. rewrite in_flat_map. intros ([k rows] & Hb & Hx).
  apply in_map_iff in Hx as (r & <- & Hr). simpl. eauto.
Qed.

Lemma filter_block (k k' : Z) (rows : list AnalyzedRow) :
  filter (fun x : Z * AnalyzedRow => x.1 = k) (map (pair k') rows) =
    if decide (k' = k) then map (pair k') rows else [].
Proof.
  induction rows as [|r rows IH]; simpl.
  - now destruct (decide (k' = k)).
  - rewrite filter_cons, IH. simpl. now destruct (decide (k' = k)).
Qed.

Lemma filter_tagged_absent (k : Z) (blocks : list (Z * list AnalyzedRow)) :
  (forall b, In b blocks -> b.1 <> k) ->
  filter (fun x : Z * AnalyzedRow => x.1 = k) (tagged blocks) = [].
Proof.
  induction blocks as [|[k' rows] blocks IH]; intros Hne; [reflexivity|].
  simpl. rewrite filter_app, filter_block.
  destruct (decide (k' = k)) as [E|_].
  - exfalso. apply (Hne (k', rows)); simpl; auto.
  - simpl. apply IH. intros b Hb. apply Hne. simpl. auto.
Qed.

Lemma filter_tagged_present (k : Z) (rows : list AnalyzedRow)
    (blocks : list (Z * list AnalyzedRow)) :
  StronglySorted Z.lt (map fst blocks) ->
  In (k, rows) blocks ->
  filter (fun x : Z * AnalyzedRow => x.1 = k) (tagged blocks) = map (pair k) rows.
Proof.
  induction blocks as [|[k' rows'] blocks IH]; intros Hs Hin; [destruct Hin|].
  simpl in Hs. apply StronglySorted_inv in Hs as [Hs Hall].
  rewrite Forall_forall in Hall.
  simpl. rewrite filter_app, filter_block.
  destruct Hin as [E | Hin].
  - injection E as -> ->. rewrite decide_True by reflexivity.
    rewrite filter_tagged_absent; [apply app_nil_r|].
    intros b Hb Eb. specialize (Hall b.1).
    assert (k < b.1)%Z; [|lia].
    apply Hall. apply list_elem_of_In. apply in_map. exact Hb.
  - rewrite decide_False.
    + simpl. now apply IH.
    + intros ->. specialize (Hall k).
      assert (k < k)%Z; [|lia].
      apply Hall. apply list_elem_of_In.
      change k with (fst (k, rows)). apply in_map. exact Hin.
Qed.

Lemma tagged_sorted (blocks : list (Z * list AnalyzedRow)) :
  StronglySorted Z.lt (map fst blocks) ->
  StronglySorted Z.le (map fst (tagged blocks)).
Proof.
  induction blocks as [|[k rows] blocks IH]; intros Hs; [constructor|].
  simpl in Hs. apply StronglySorted_inv in Hs as [Hs Hall].
  rewrite Forall_forall in Hall.
  simpl. rewrite map_app. apply StronglySorted_app. split; [|split].
  - intros x1 x2 H1 H2.
    apply list_elem_of_In, in_map_iff in H1 as (y1 & <- & Hy1).
    apply in_map_iff in Hy1 as (r & <- & _). simpl.
    apply list_elem_of_In, in_map_iff in H2 as (y2 & <- & Hy2).
    apply tagged_keys in Hy2 as (rows2 & Hb & _).
    assert (k < y2.1)%Z; [|lia].
    apply Hall. apply list_elem_of_In.
    change y2.1 with (fst (y2.1, rows2)). apply in_map. exact Hb.
  - clear. induction rows as [|r rows IH]; simpl; constructor; [exact IH|].
    apply Forall_forall. intros x Hx.
    apply list_elem_of_In, in_map_iff in Hx as (y & <- & Hy).
    apply in_map_iff in Hy as (r' & <- & _). simpl. lia.
  - apply IH. exact Hs.
Qed.

Lemma sorted_le_lookup (l : list Z) :
  StronglySorted Z.le l ->
  forall i j a b, l !! i = Some a -> l !! j = Some b -> (i < j)%nat -> (a <= b)%Z.
Proof.
  induction 1 as [|x l Hs IH Hall]; intros i j a b Hi Hj Hij; [destruct i; discriminate|].
  destruct j as [|j]; [lia|]. simpl in Hj.
  destruct i as [|i]; simpl in Hi.
  - injection Hi as <-. rewrite Forall_forall in Hall. apply Hall.
    apply list_elem_of_lookup. eauto.
  - apply (IH i j); [assumption .. | lia].
Qed.

Lemma sorted_tags_order (t : list (Z * AnalyzedRow)) :
  StronglySorted Z.le (map fst t) -> row_order_preserved t.
Proof.
  intros Hs i j x y Hi Hj Hlt.
  destruct (Nat.lt_ge_cases i j) as [Hij | Hji]; [exact Hij | exfalso].
  destruct (Nat.eq_dec j i) as [-> | Hne].
  - rewrite Hi in Hj. injection Hj as <-. lia.
  - assert (y.1 <= x.1)%Z; [|lia].
    apply (sorted_le_lookup _ Hs j i); [| | lia]; rewrite map_lookup.
    + now rewrite Hj.
    + now rewrite Hi.
Qed.

End Blocks.

(** ** The orchestration loop *)

Section SheetFacts.
Import PySeq Models LlmEngine Analyzer Spec.

Lemma length_index_from (k : Z) (df : DataFrame) : length (index_from k df) = length df.
Proof. revert k. induction df as [|c df IH]; intros k; simpl; [reflexivity | now rewrite IH]. Qed.

Lemma index_from_In (k : Z) (df : DataFrame) (pos : nat) (text : string) :
  df !! pos = Some text -> In ((k + Z.of_nat pos)%Z, text) (index_from k df).
Proof.
  revert k pos. induction df as [|c df IH]; intros k [|pos] H; simpl in H; try discriminate.
  - injection H as ->. left. f_equal. lia.
  - right. replace (k + Z.of_nat (S pos))%Z with (k + 1 + Z.of_nat pos)%Z by lia.
    now apply IH.
Qed.

Lemma In_index_from (k : Z) (df : DataFrame) (x : Z * string) :
  In x (index_from k df) ->
  exists pos, x.1 = (k + Z.of_nat pos)%Z /\ df !! pos = Some x.2.
Proof.
  revert k. induction df as [|c df IH]; intros k H; simpl in *; [destruct H|].
  destruct H as [<- | H].
  - exists 0%nat. simpl. split; [lia | reflexivity].
  - apply IH in H as (pos & Hk & Hp). exists (S pos). split; [lia | exact Hp].
Qed.

Lemma prepare_batch_app (a b : list (Z * string)) :
  prepare_batch (a ++ b) = prepare_batch a ++ prepare_batch b.
Proof.
  induction a as [|[idx text] a IH]; simpl; [reflexivity|].
  destruct (skipped text); simpl; now rewrite IH.
Qed.

Lemma in_prepare_batch (item : BatchItem) (l : list (Z * string)) :
  In item (prepare_batch l) <->
  In (item_id item, item_text item) l /\ skipped (item_text item) = false.
Proof.
  induction l as [|[idx text] l IH]; simpl; [tauto|].
  destruct (skipped text) eqn:E; simpl; rewrite IH.
  - split; [tauto|]. intros [[H | H] Hs]; [|tauto].
    injection H as H1 H2. rewrite <- H2 in Hs. congruence.
  - split.
    + intros [<- | H]; simpl; tauto.
    + intros [[H | H] Hs]; [|tauto]. left. destruct item. simpl in *. congruence.
Qed.

Lemma kept_ids_from (k : Z) (df : DataFrame) :
  Forall (fun i => (k <= i)%Z) (map item_id (prepare_batch (index_from k df))) /\
  StronglySorted Z.lt (map item_id (prepare_batch (index_from k df))).
Proof.
  revert k. induction df as [|c df IH]; intros k; simpl; [split; constructor|].
  destruct (IH (k + 1)%Z) as [Hge Hs].
  assert (Forall (fun i => (k < i)%Z) (map item_id (prepare_batch (index_from (k + 1) df)))) as Hgt.
  { eapply Forall_impl; [exact Hge|]. simpl. intros. lia. }
  destruct (skipped c); simpl.
  - split; [|exact Hs]. eapply Forall_impl; [exact Hgt|]. simpl. intros. lia.
  - split.
    + constructor; [lia|]. eapply Forall_impl; [exact Hgt|]. simpl. intros. lia.
    + constructor; assumption.
Qed.

Lemma chunks_concat (df : DataFrame) (bs : Z) :
  (0 < bs)%Z -> concat (chunks df bs) = iterrows df.
Proof.
  intros Hbs. unfold chunks, iloc. rewrite <- flat_map_concat_map.
  assert (len df = len (iterrows df)) as E.
  { unfold len, iterrows. now rewrite length_index_from. }
  rewrite E. apply (slices_cover (iterrows df) bs (fun i => Z.min (i + bs) (len (iterrows df)))).
  - exact Hbs.
  - intros i. right. reflexivity.
Qed.

Lemma batches_concat (df : DataFrame) (bs : Z) :
  (0 < bs)%Z -> concat (batches df bs) = kept_items df.
Proof.
  intros Hbs. unfold batches, kept_items.
  rewrite concat_filter_nonempty, <- (chunks_concat df bs Hbs).
  induction (chunks df bs) as [|c cs IH]; [reflexivity|].
  simpl. now rewrite prepare_batch_app, IH.
Qed.

Lemma kept_items_lookup (df : DataFrame) (item : BatchItem) :
  In item (kept_items df) <->
  exists pos, item_id item = Z.of_nat pos /\ df !! pos = Some (item_text item) /\
              skipped (item_text item) = false.
Proof.
  unfold kept_items, iterrows. rewrite in_prepare_batch. split.
  - intros [Hin Hs]. apply In_index_from in Hin as (pos & Hk & Hp). simpl in *.
    exists pos. repeat split; [lia | exact Hp | exact Hs].
  - intros (pos & Hk & Hp & Hs). split; [|exact Hs].
    rewrite Hk. apply (index_from_In 0 df pos). exact Hp.
Qed.

Lemma blocks_of_keys (new : list Call) :
  map fst (blocks_of new) = map item_id (concat (map fst new)).
Proof.
  induction new as [|[batch results] new IH]; [reflexivity|].
  simpl. rewrite !map_app, IH, map_map. reflexivity.
Qed.

Lemma attributed_blocks (new : list Call) : attributed new = tagged (blocks_of new).
Proof.
  induction new as [|[batch results] new IH]; [reflexivity|].
  unfold attributed, blocks_of in *. simpl. rewrite tagged_app. f_equal; [|exact IH].
  unfold tagged_rows, tagged. simpl. now rewrite flat_map_map.
Qed.

(** Dropping the ids gives back the rows of the table. *)
Lemma attributed_erase (new : list Call) :
  map snd (attributed new) = flat_map call_rows new.
Proof.
  induction new as [|[batch results] new IH]; [reflexivity|].
  unfold attributed in *. simpl. rewrite map_app, IH. f_equal.
  unfold tagged_rows, call_rows, rows_for_batch. simpl.
  induction batch as [|item batch IHb]; [reflexivity|].
  simpl. rewrite map_app, IHb, map_map. simpl. now rewrite map_id.
Qed.

Lemma in_blocks_of (new : list Call) (batch : list BatchItem) (results : list ReviewResult)
    (item : BatchItem) :
  In (batch, results) new -> In item batch ->
  In (item_id item, rows_for_item (results_map results) item) (blocks_of new).
Proof.
  intros Hc Hi. unfold blocks_of. apply in_flat_map. exists (batch, results).
  split; [exact Hc|]. simpl. apply in_map_iff. eauto.
Qed.

End SheetFacts.

Section LoopFacts.
Import PySeq Models LlmEngine Analyzer Spec.
Context {R : Type}.
Variable chat_parse : string -> R -> (exn + ParsedCompletion) * R.

Lemma chunk_loop_run (df : DataFrame) (bs : Z) (starts : list Z) :
  forall acc w, exists new r',
    for_each starts (process_chunk chat_parse df bs) acc w =
      (Returns (acc ++ flat_map call_rows new), mkWorld r' (calls w ++ new)) /\
    map fst new =
      filter (fun b => b <> [])
        (map (fun i => prepare_batch (iloc df i (Z.min (i + bs) (len df)))) starts).
Proof.
  induction starts as [|i starts IH]; intros acc w.
  - exists [], (remote w). simpl. unfold ret. rewrite !app_nil_r. destruct w; auto.
  - simpl for_each. unfold bind at 1. unfold process_chunk at 1.
    simpl map. rewrite filter_cons.
    destruct (prepare_batch (iloc df i (Z.min (i + bs) (len df)))) as [|item batch] eqn:E.
    + unfold ret at 1. destruct (IH acc w) as (new & r' & Hrun & Hb).
      exists new, r'. split; [exact Hrun|].
      rewrite decide_False by (intros H; now apply H). exact Hb.
    + unfold bind at 1. rewrite analyze_review_batch_run. unfold ret at 1.
      match goal with
      | |- context [for_each starts _ ?acc' ?w'] =>
          destruct (IH acc' w') as (new & r' & Hrun & Hb)
      end.
      exists ((item :: batch, reply chat_parse (item :: batch) (remote w)) :: new), r'.
      split.
      * rewrite Hrun. simpl calls. simpl flat_map. unfold call_rows at 2. simpl.
        now rewrite <- !app_assoc.
      * rewrite decide_True by discriminate. simpl. now rewrite Hb.
Qed.

(** With a positive batch size the loop returns; the table is made of the
    rows of the calls it made, in order, and the batches of those calls are
    the non-empty filtered chunks, in order. *)
Lemma process_excel_file_run (df : DataFrame) (bs : Z) (w : World R) :
  (0 < bs)%Z ->
  exists new r',
    process_excel_file chat_parse df bs w =
      (Returns (flat_map call_rows new), mkWorld r' (calls w ++ new)) /\
    map fst new = batches df bs.
Proof.
  intros Hbs. unfold process_excel_file.
  destruct (bs =? 0)%Z eqn:E; [apply Z.eqb_eq in E; lia|].
  destruct (chunk_loop_run df bs (py_range 0 (len df) bs) [] w) as (new & r' & Hrun & Hb).
  exists new, r'. split; [exact Hrun|].
  rewrite Hb. unfold batches, chunks. now rewrite map_map.
Qed.

Lemma sent_items (df : DataFrame) (bs : Z) (new : list Call) :
  (0 < bs)%Z -> map fst new = batches df bs ->
  concat (map fst new) = kept_items df /\
  StronglySorted Z.lt (map fst (blocks_of new)).
Proof.
  intros Hbs Hb. assert (concat (map fst new) = kept_items df) as E.
  { rewrite Hb. now apply batches_concat. }
  split; [exact E|]. rewrite blocks_of_keys, E. apply kept_ids_from.
Qed.

Lemma sent_item_call (new : list Call) (item : BatchItem) :
  In item (concat (map fst new)) ->
  exists batch results, In (batch, results) new /\ In item batch.
Proof.
  intros H. apply in_concat in H as (batch & Hb & Hi).
  apply in_map_iff in Hb as ([batch' results] & <- & Hc). eauto.
Qed.

End LoopFacts.

Section ResultsMapFacts.
Import Models LlmEngine Analyzer Spec.

Lemma flat_map_agree {X Y} (f g : X -> list Y) (l : list X) :
  (forall x, In x l -> f x = g x) -> flat_map f l = flat_map g l.
Proof.
  induction l as [|x l IH]; intros H; simpl; [reflexivity|].
  rewrite (H x) by (simpl; auto). rewrite IH; [reflexivity|].
  intros y Hy. apply H. simpl. auto.
Qed.

Lemma results_map_snoc (results : list ReviewResult) (res : ReviewResult) :
  results_map (results ++ [res]) = <[id res := insights res]> (results_map results).
Proof. unfold results_map. now rewrite foldl_app. Qed.

(** No result with the id: the dictionary has no entry for it. *)
Lemma results_map_omitted (results : list ReviewResult) (k : Z) :
  (forall res, In res results -> id res <> k) -> results_map results !! k = None.
Proof.
  induction results as [|res results IH] using rev_ind; intros Hne; [reflexivity|].
  rewrite results_map_snoc, lookup_insert_ne.
  - apply IH. intros r Hr. apply Hne. apply in_or_app. auto.
  - apply Hne. apply in_or_app. simpl. auto.
Qed.

(** The entry of an id is the insight list of the last result carrying it. *)
Lemma results_map_last (results later : list ReviewResult) (res : ReviewResult) :
  (forall r, In r later -> id r <> id res) ->
  results_map (results ++ res :: later) !! id res = Some (insights res).
Proof.
  induction later as [|r later IH] using rev_ind; intros Hne.
  - rewrite results_map_snoc. apply lookup_insert_eq.
  - replace (results ++ res :: later ++ [r]) with ((results ++ res :: later) ++ [r])
      by now rewrite <- app_assoc.
    rewrite results_map_snoc, lookup_insert_ne.
    + apply IH. intros r' Hr'. apply Hne. apply in_or_app. auto.
    + apply Hne. apply in_or_app. simpl. auto.
Qed.

Lemma results_map_known (ids : list Z) (results : list ReviewResult) (k : Z) :
  k ∈ ids ->
  results_map (filter (fun res => id res ∈ ids) results) !! k = results_map results !! k.
Proof.
  intros Hk. induction results as [|res results IH] using rev_ind; [reflexivity|].
  rewrite filter_app, filter_cons, filter_nil, results_map_snoc.
  destruct (decide (id res ∈ ids)) as [Hin | Hout].
  - rewrite results_map_snoc.
    destruct (decide (id res = k)) as [-> | Hne].
    + now rewrite !lookup_insert_eq.
    + now rewrite !lookup_insert_ne.
  - rewrite app_nil_r, lookup_insert_ne; [exact IH|].
    intros E. rewrite E in Hout. contradiction.
Qed.

Lemma rows_for_item_nonempty (rm : gmap Z (list ReviewInsight)) (item : BatchItem) :
  (1 <= length (rows_for_item rm item))%nat.
Proof.
  unfold rows_for_item. destruct (default [] (rm !! item_id item)); simpl; lia.
Qed.

Lemma rows_for_item_cases (rm : gmap Z (list ReviewInsight)) (item : BatchItem) :
  (rm !! item_id item = None -> rows_for_item rm item = [no_insight_row (item_text item)]) /\
  (rm !! item_id item = Some [] -> rows_for_item rm item = [no_insight_row (item_text item)]) /\
  (forall found, rm !! item_id item = Some found -> found <> [] ->
                 rows_for_item rm item = map (insight_row (item_text item)) found).
Proof.
  unfold rows_for_item. repeat split.
  - now intros ->.
  - now intros ->.
  - intros found -> Hne. simpl. destruct found; [contradiction | reflexivity].
Qed.

(** Results for ids that were not sent do not change the rows of a batch. *)
Lemma call_rows_known (c : Call) : call_rows (known_results c) = call_rows c.
Proof.
  destruct c as [batch results]. unfold call_rows, known_results, rows_for_batch. simpl.
  apply flat_map_agree. intros item Hin. unfold rows_for_item.
  rewrite results_map_known; [reflexivity|].
  apply list_elem_of_In. now apply in_map.
Qed.

Lemma tagged_rows_ids (c : Call) (x : Z * AnalyzedRow) :
  In x (tagged_rows c) -> In x.1 (map item_id c.1).
Proof.
  unfold tagged_rows. rewrite in_flat_map. intros (item & Hi & Hx).
  apply in_map_iff in Hx as (r & <- & _). simpl. now apply in_map.
Qed.

Lemma skipped_false (text : string) :
  skipped text = false <-> (5 <= String.length text)%nat /\ PyStr.lower text <> "nan".
Proof.
  unfold skipped. rewrite orb_false_iff, Z.ltb_ge, String.eqb_neq. intuition lia.
Qed.

Lemma results_map_returned (results : list ReviewResult) (k : Z) :
  forall m : gmap Z (list ReviewInsight),
    foldl (fun m res => <[id res := insights res]> m) m results !! k =
      match returned_for k results with
      | Some found => Some found
      | None => m !! k
      end.
Proof.
  induction results as [|res results IH]; intros m; [reflexivity|].
  simpl. rewrite IH. destruct (returned_for k results) as [found|]; [reflexivity|].
  destruct (id res =? k)%Z eqn:E.
  - apply Z.eqb_eq in E. rewrite E. apply lookup_insert_eq.
  - apply Z.eqb_neq in E. now apply lookup_insert_ne.
Qed.

(** The rows the loop appends for an item are those its results call for. *)
Lemma rows_for_item_answer (results : list ReviewResult) (item : BatchItem) :
  rows_for_item (results_map results) item = answer_rows results item.
Proof.
  unfold rows_for_item, answer_rows, results_map.
  rewrite results_map_returned, lookup_empty.
  destruct (returned_for (item_id item) results) as [[|i rest]|]; reflexivity.
Qed.

Lemma returned_for_omitted (results : list ReviewResult) (k : Z) :
  (forall res, In res results -> id res <> k) -> returned_for k results = None.
Proof.
  induction results as [|res results IH]; intros Hne; [reflexivity|].
  simpl. rewrite IH by (intros r Hr; apply Hne; now right).
  destruct (id res =? k)%Z eqn:E; [|reflexivity].
  apply Z.eqb_eq in E. exfalso. apply (Hne res); [now left | exact E].
Qed.

Lemma returned_for_last (earlier later : list ReviewResult) (res : ReviewResult) :
  (forall r, In r later -> id r <> id res) ->
  returned_for (id res) (earlier ++ res :: later) = Some (insights res).
Proof.
  intros Hne. induction earlier as [|r earlier IH]; simpl.
  - rewrite (returned_for_omitted later _ Hne). now rewrite Z.eqb_refl.
  - now rewrite IH.
Qed.

Lemma attributed_answers (new : list Call) :
  map snd (attributed new) = flat_map (fun c : Call => flat_map (answer_rows c.2) c.1) new.
Proof.
  rewrite attributed_erase. apply flat_map_agree. intros [batch results] _.
  unfold call_rows, rows_for_batch. simpl. apply flat_map_agree. intros item _.
  apply rows_for_item_answer.
Qed.

End ResultsMapFacts.

Section Orchestration.
Import PyStr PySeq Models LlmEngine Analyzer Spec.
Context {R : Type}.
Variable chat_parse : string -> R -> (exn + ParsedCompletion) * R.

(** The run of the loop, with the table written as the rows of the calls
    under the ids of their items. *)
Lemma process_excel_file_attributed (df : DataFrame) (bs : Z) (w : World R) :
  (0 < bs)%Z ->
  exists new r',
    process_excel_file chat_parse df bs w =
      (Returns (map snd (attributed new)), mkWorld r' (calls w ++ new)) /\
    map fst new = batches df bs /\
    concat (map fst new) = kept_items df /\
    StronglySorted Z.lt (map fst (blocks_of new)).
Proof.
  intros Hbs. destruct (process_excel_file_run chat_parse df bs w Hbs) as (new & r' & Hrun & Hb).
  exists new, r'. rewrite attributed_erase.
  destruct (sent_items df bs new Hbs Hb) as [Hk Hs]. auto.
Qed.

(** C1: a row whose text has at least five characters and is not "nan" in
    any case is sent in one of the calls. The table is made of one block of
    rows per item sent, in the order sent, and the block of this row is, by
    the results the client returned for its batch: the single placeholder row
    when no result carries its id or the last one that does has no insight,
    and otherwise one row per insight of that result, in order. *)
Theorem kept_row_is_answered (df : DataFrame) (bs : Z) (w : World R)
    (pos : nat) (text : string) :
  (0 < bs)%Z ->
  df !! pos = Some text ->
  (5 <= String.length text)%nat ->
  lower text <> "nan" ->
  exists new r' data batch results,
    process_excel_file chat_parse df bs w = (Returns data, mkWorld r' (calls w ++ new)) /\
    data = flat_map (fun c : Call => flat_map (answer_rows c.2) c.1) new /\
    concat (map fst new) = kept_items df /\
    In (batch, results) new /\
    In (mkItem (Z.of_nat pos) text) batch /\
    emitted_for (Z.of_nat pos) new = answer_rows results (mkItem (Z.of_nat pos) text) /\
    (1 <= length (emitted_for (Z.of_nat pos) new))%nat /\
    ((forall res, In res results -> id res <> Z.of_nat pos) ->
     emitted_for (Z.of_nat pos) new =
       [mkRow text "other" "neutral" "" "No insight detected (or skipped by LLM)"]) /\
    (forall earlier res later,
        results = earlier ++ res :: later ->
        id res = Z.of_nat pos ->
        (forall r, In r later -> id r <> Z.of_nat pos) ->
        emitted_for (Z.of_nat pos) new =
          match insights res with
          | [] => [mkRow text "other" "neutral" "" "No insight detected (or skipped by LLM)"]
          | _ :: _ =>
              map (fun i => mkRow text (aspect i) (sentiment i) (evidence i) (rationale i))
                  (insights res)
          end).
Proof.
  intros Hbs Hpos Hlen Hnan.
  destruct (process_excel_file_attributed df bs w Hbs) as (new & r' & Hrun & Hb & Hk & Hs).
  set (item := mkItem (Z.of_nat pos) text).
  assert (In item (kept_items df)) as Hin.
  { apply kept_items_lookup. exists pos. simpl. repeat split; [exact Hpos|].
    apply skipped_false. auto. }
  rewrite <- Hk in Hin. apply sent_item_call in Hin as (batch & results & Hc & Hi).
  exists new, r', (map snd (attributed new)), batch, results.
  assert (emitted_for (Z.of_nat pos) new = answer_rows results item) as E.
  { unfold emitted_for. rewrite attributed_blocks.
    rewrite (filter_tagged_present _ (rows_for_item (results_map results) item)).
    - rewrite map_map. simpl. rewrite map_id. apply rows_for_item_answer.
    - exact Hs.
    - apply (in_blocks_of new batch results item Hc Hi). }
  split; [exact Hrun|]. split; [apply attributed_answers|]. split; [exact Hk|].
  split; [exact Hc|]. split; [exact Hi|]. split; [exact E|].
  rewrite E. unfold answer_rows. cbn [item item_id item_text].
  split; [|split].
  - destruct (returned_for (Z.of_nat pos) results) as [[|i rest]|]; simpl; lia.
  - intros Hom. now rewrite (returned_for_omitted results _ Hom).
  - intros earlier res later -> Hid Hlater.
    rewrite <- Hid, (returned_for_last earlier later res) by (now rewrite Hid).
    destruct (insights res); reflexivity.
Qed.

(** C3: a row whose text has fewer than five characters, or is "nan" in
    any case, is in no batch handed to the client, and the table has no row
    for it. *)
Theorem skipped_row_is_dropped (df : DataFrame) (bs : Z) (w : World R)
    (pos : nat) (text : string) :
  (0 < bs)%Z ->
  df !! pos = Some text ->
  (String.length text < 5)%nat \/ lower text = "nan" ->
  exists new r',
    process_excel_file chat_parse df bs w =
      (Returns (map snd (attributed new)), mkWorld r' (calls w ++ new)) /\
    (forall batch results item,
        In (batch, results) new -> In item batch -> item_id item <> Z.of_nat pos) /\
    emitted_for (Z.of_nat pos) new = [].
Proof.
  intros Hbs Hpos Hskip.
  destruct (process_excel_file_attributed df bs w Hbs) as (new & r' & Hrun & Hb & Hk & Hs).
  exists new, r'. split; [exact Hrun|].
  assert (forall item, In item (concat (map fst new)) -> item_id item <> Z.of_nat pos) as Hne.
  { intros item Hin Eid. rewrite Hk in Hin.
    apply kept_items_lookup in Hin as (pos' & Hid & Hp & Hkept).
    assert (pos' = pos) as -> by lia.
    rewrite Hpos in Hp. injection Hp as Ht. rewrite <- Ht in Hkept.
    apply skipped_false in Hkept as [Hlen Hnan].
    destruct Hskip; [lia | contradiction]. }
  split.
  - intros batch results item Hc Hi. apply Hne.
    apply in_concat. exists batch. split; [|exact Hi].
    apply in_map_iff. exists (batch, results). auto.
  - unfold emitted_for. rewrite attributed_blocks, filter_tagged_absent; [reflexivity|].
    intros b Hbl Eb.
    assert (In b.1 (map fst (blocks_of new))) as Hin by now apply in_map.
    rewrite blocks_of_keys in Hin. apply in_map_iff in Hin as (item & Hid & Hitem).
    apply (Hne item Hitem). congruence.
Qed.

(** C4: for chunk size 1 and for any positive chunk size, the rows of an
    earlier sheet row come before the rows of a later one, and the items
    sent are the kept rows in sheet order; the table is the concatenation,
    call after call (the non-empty filtered chunks, in order), of the rows
    of the call's items in batch order, each item's rows in insight order. *)
Theorem row_order_is_preserved (df : DataFrame) (n : Z) (w1 wn : World R) :
  (0 < n)%Z ->
  exists new1 r1 newn rn,
    process_excel_file chat_parse df 1 w1 =
      (Returns (map snd (attributed new1)), mkWorld r1 (calls w1 ++ new1)) /\
    process_excel_file chat_parse df n wn =
      (Returns (map snd (attributed newn)), mkWorld rn (calls wn ++ newn)) /\
    row_order_preserved (attributed new1) /\
    row_order_preserved (attributed newn) /\
    concat (map fst new1) = kept_items df /\
    concat (map fst newn) = kept_items df /\
    map fst (blocks_of new1) = map fst (blocks_of newn) /\
    map fst newn = batches df n /\
    map snd (attributed newn) =
      flat_map (fun c => flat_map (rows_for_item (results_map c.2)) c.1) newn.
Proof.
  intros Hn.
  destruct (process_excel_file_attributed df 1 w1 ltac:(lia))
    as (new1 & r1 & Hrun1 & Hb1 & Hk1 & Hs1).
  destruct (process_excel_file_attributed df n wn Hn)
    as (newn & rn & Hrunn & Hbn & Hkn & Hsn).
  exists new1, r1, newn, rn. repeat split; try assumption.
  - apply sorted_tags_order. rewrite attributed_blocks. now apply tagged_sorted.
  - apply sorted_tags_order. rewrite attributed_blocks. now apply tagged_sorted.
  - rewrite !blocks_of_keys. congruence.
  - apply attributed_erase.
Qed.

(** C10: results whose id is not among the ids of the batch they answer
    leave the table as it is, and every row of the table is a row of an
    item of the batch it was produced for. *)
Theorem unknown_ids_are_ignored (df : DataFrame) (bs : Z) (w : World R) :
  (0 < bs)%Z ->
  exists new r' data,
    process_excel_file chat_parse df bs w = (Returns data, mkWorld r' (calls w ++ new)) /\
    data = flat_map call_rows new /\
    data = flat_map (fun c => call_rows (known_results c)) new /\
    data = map snd (attributed new) /\
    (forall c x, In c new -> In x (tagged_rows c) -> In x.1 (map item_id c.1)).
Proof.
  intros Hbs.
  destruct (process_excel_file_run chat_parse df bs w Hbs) as (new & r' & Hrun & Hb).
  exists new, r', (flat_map call_rows new). repeat split.
  - exact Hrun.
  - apply flat_map_ext. intros c. symmetry. apply call_rows_known.
  - symmetry. apply attributed_erase.
  - intros c x _. apply tagged_rows_ids.
Qed.

End Orchestration.

(** The first row of the sheet gets the two insights returned for id 0,
    in their order. *)
Lemma kept_row_is_answered_witness :
  (0 < 2)%Z /\
  Scenario.sheet !! 0%nat = Some "Great delivery, but packaging was damaged" /\
  (5 <= String.length "Great delivery, but packaging was damaged")%nat /\
  PyStr.lower "Great delivery, but packaging was damaged" <> "nan" /\
  exists new,
    Spec.emitted_for (Z.of_nat 0) new =
      [Analyzer.mkRow "Great delivery, but packaging was damaged"
                      "delivery_shipping" "positive" "Great delivery" "praise";
       Analyzer.mkRow "Great delivery, but packaging was damaged"
                      "product_quality" "negative" "packaging was damaged" "damage"].
Proof.
  assert (0 < 2)%Z as H1 by reflexivity.
  assert (Scenario.sheet !! 0%nat = Some "Great delivery, but packaging was damaged") as H2
    by reflexivity.
  assert (5 <= String.length "Great delivery, but packaging was damaged")%nat as H3
    by (vm_compute; lia).
  assert (PyStr.lower "Great delivery, but packaging was damaged" <> "nan") as H4
    by (vm_compute; discriminate).
  repeat split; try assumption.
  destruct (kept_row_is_answered Scenario.service Scenario.sheet 2 Scenario.start
              0 "Great delivery, but packaging was damaged" H1 H2 H3 H4)
    as (new & r' & data & batch & results & Hrun & _ & _ & Hc & _ & _ & _ & _ & Hlast).
  exists new.
  vm_compute in Hrun. injection Hrun as _ _ Hcalls. subst new.
  destruct Hc as [Hc | []]. injection Hc as _ <-.
  exact (Hlast [] _ [_] eq_refl eq_refl
               ltac:(intros r [<- | []]; vm_compute; discriminate)).
Defined.

Lemma skipped_row_is_dropped_witness :
  (0 < 2)%Z /\
  Scenario.sheet !! 2%nat = Some "nan" /\
  ((String.length "nan" < 5)%nat \/ PyStr.lower "nan" = "nan") /\
  exists new, Spec.emitted_for (Z.of_nat 2) new = [].
Proof.
  assert (0 < 2)%Z as H1 by reflexivity.
  assert (Scenario.sheet !! 2%nat = Some "nan") as H2 by reflexivity.
  assert ((String.length "nan" < 5)%nat \/ PyStr.lower "nan" = "nan") as H3
    by (right; reflexivity).
  repeat split; try assumption.
  destruct (skipped_row_is_dropped Scenario.service Scenario.sheet 2 Scenario.start
              2 "nan" H1 H2 H3) as (new & r' & Hrun & Hsent & Hnone).
  exists new. exact Hnone.
Defined.

Lemma row_order_is_preserved_witness :
  (0 < 2)%Z /\
  exists new1 newn,
    Spec.row_order_preserved (Spec.attributed new1) /\
    Spec.row_order_preserved (Spec.attributed newn) /\
    concat (map fst new1) = concat (map fst newn).
Proof.
  assert (0 < 2)%Z as H1 by reflexivity.
  split; [exact H1|].
  destruct (row_order_is_preserved Scenario.service Scenario.sheet 2
              Scenario.start Scenario.start H1)
    as (new1 & r1 & newn & rn & _ & _ & Ho1 & Hon & Hk1 & Hkn & _).
  exists new1, newn. repeat split; [exact Ho1 | exact Hon | congruence].
Defined.

Lemma unknown_ids_are_ignored_witness :
  (0 < 2)%Z /\
  exists new data,
    data = flat_map Spec.call_rows new /\
    data = flat_map (fun c => Spec.call_rows (Spec.known_results c)) new.
Proof.
  assert (0 < 2)%Z as H1 by reflexivity.
  split; [exact H1|].
  destruct (unknown_ids_are_ignored Scenario.service Scenario.sheet 2 Scenario.start H1)
    as (new & r' & data & _ & Hd & Hk & _).
  exists new, data. split; assumption.
Defined.

(** ** The dual-run comparison *)

Section RoundingFacts.
Import PyNum Spec.

Lemma round_half_even_nearest (q : Q) :
  (Qabs (q - inject_Z (round_half_even q)) <= 1 # 2)%Q /\
  ((Qabs (q - inject_Z (round_half_even q)) == 1 # 2)%Q ->
   Z.even (round_half_even q) = true).
Proof.
  unfold round_half_even.
  pose proof (Qfloor_le q) as Hlo. pose proof (Qlt_floor q) as Hhi.
  set (f := Qfloor q) in *.
  rewrite inject_Z_plus in Hhi. change (inject_Z 1) with 1%Q in Hhi.
  destruct (Qcompare (q - inject_Z f) (1 # 2)) eqn:E.
  - apply Qeq_alt in E.
    destruct (Z.even f) eqn:Ev.
    + split; [|intros _; exact Ev]. apply Qabs_Qle_condition. split; lra.
    + rewrite inject_Z_plus. change (inject_Z 1) with 1%Q. split.
      * apply Qabs_Qle_condition. split; lra.
      * intros _. rewrite Z.even_add, Ev. reflexivity.
  - apply Qlt_alt in E. split.
    + apply Qabs_Qle_condition. split; lra.
    + intros Heq. exfalso.
      rewrite Qabs_pos in Heq by lra. lra.
  - apply Qgt_alt in E. rewrite inject_Z_plus. change (inject_Z 1) with 1%Q. split.
    + apply Qabs_Qle_condition. split; lra.
    + intros Heq. exfalso.
      rewrite Qabs_neg in Heq by lra. lra.
Qed.

(** [float_round2] rounds as [rounded2] says. *)
Lemma float_round2_spec (x : binary64) : rounded2 x (float_round2 x).
Proof.
  destruct x as [s|s| |s m e]; try reflexivity.
  unfold rounded2, float_round2.
  exists (round_half_even (value (S754_finite false m e) * 100)).
  split; [|reflexivity].
  apply round_half_even_nearest.
Qed.

(** A positive integer divided by itself is 1.0. *)
Lemma div_self (p : positive) :
  SFdiv prec emax (S754_finite false p 0) (S754_finite false p 0) = Scenario.one.
Proof.
  unfold SFdiv, SFdiv_core_binary.
  replace (Zdigits2 (Z.pos p) + 0 - (Zdigits2 (Z.pos p) + 0))%Z with 0%Z by lia.
  change (Z.min (fexp prec emax 0) (0 - 0)) with (-53)%Z.
  change (0 - 0 - -53)%Z with 53%Z. cbv iota.
  rewrite Z.shiftl_mul_pow2 by lia.
  assert (Z.div_eucl (Z.pos p * 2 ^ 53) (Z.pos p) = (2 ^ 53, 0))%Z as ->.
  { pose proof (Z_div_mod (Z.pos p * 2 ^ 53) (Z.pos p) eq_refl) as H.
    destruct (Z.div_eucl (Z.pos p * 2 ^ 53) (Z.pos p)) as [q r] eqn:E.
    assert (q = 2 ^ 53)%Z by nia. assert (r = 0)%Z by nia. subst. reflexivity. }
  unfold new_location. destruct (Z.even (Z.pos p)); reflexivity.
Qed.

(** [n / n * 100] is 100.0, and [round] leaves it. *)
Lemma float_percentage_full (n : nat) :
  (0 < n)%nat ->
  float_percentage n n = S754_finite false 7036874417766400 (-46) /\
  float_round2 (float_percentage n n) = S754_finite false 7036874417766400 (-46).
Proof.
  intros Hn. unfold float_percentage.
  destruct n as [|n]; [lia|].
  change (Z.of_nat (S n)) with (Z.pos (Pos.of_succ_nat n)).
  change (of_int (Z.pos (Pos.of_succ_nat n)))
    with (S754_finite false (Pos.of_succ_nat n) 0).
  rewrite div_self. split; vm_compute; reflexivity.
Qed.

(** [0 / n * 100] is 0.0. *)
Lemma float_percentage_none (n : nat) :
  (0 < n)%nat -> float_percentage 0 n = S754_zero false.
Proof. intros Hn. destruct n as [|n]; [lia | reflexivity]. Qed.

End RoundingFacts.

Section Comparison.
Import PyNum Analyzer App Spec.

Lemma agreeing_nil_r (run1 : list AnalyzedRow) : agreeing run1 [] = 0%nat.
Proof. now destruct run1. Qed.

Lemma annotate_nil_r (run1 : list AnalyzedRow) :
  annotate run1 [] = map (fun r => mkChecked r Pending) run1.
Proof. induction run1 as [|r run1 IH]; simpl; [reflexivity | now rewrite IH]. Qed.

(** The index loop, started after [k] rows, finishes the marking and the
    count of the rows that remain. *)
Lemma compare_loop_run (rest1 : list AnalyzedRow) :
  forall (done1 : list CheckedRow) (past2 rest2 : list AnalyzedRow) (c : nat),
    length past2 = length done1 ->
    compare_loop (seq (length done1) (length rest1))
                 (done1 ++ map (fun r => mkChecked r Pending) rest1)
                 (past2 ++ rest2) c
    = (done1 ++ annotate rest1 rest2, (c + agreeing rest1 rest2)%nat).
Proof.
  induction rest1 as [|r1 rest1 IH]; intros done1 past2 rest2 c Hlen.
  - simpl. now rewrite Nat.add_0_r.
  - simpl seq. simpl compare_loop.
    rewrite (lookup_app_r past2) by lia.
    rewrite Hlen, Nat.sub_diag.
    destruct rest2 as [|r2 rest2]; simpl.
    + rewrite annotate_nil_r, Nat.add_0_r. reflexivity.
    + rewrite list_lookup_middle by reflexivity. simpl.
      set (x := mkChecked r1 (if same_label r1 r2 then Verified
                              else Mismatch (row_aspect r2) (row_sentiment r2))).
      assert (forall s, <[length done1 := mkChecked r1 s]>
                (done1 ++ mkChecked r1 Pending :: map (fun r => mkChecked r Pending) rest1)
              = (done1 ++ [mkChecked r1 s]) ++ map (fun r => mkChecked r Pending) rest1) as Hins.
      { intros s. rewrite insert_app_r_alt by lia. rewrite Nat.sub_diag. simpl.
        now rewrite <- app_assoc. }
      specialize (IH (done1 ++ [x]) (past2 ++ [r2]) rest2).
      rewrite !length_app in IH. simpl in IH. rewrite !Nat.add_1_r in IH.
      rewrite <- !app_assoc in IH. simpl in IH.
      subst x. destruct (same_label r1 r2).
      * rewrite Hins, <- app_assoc. simpl. rewrite IH by lia. f_equal. lia.
      * rewrite Hins, <- app_assoc. simpl. rewrite IH by lia. reflexivity.
Qed.

Lemma compare_and_merge_runs_run (df1 df2 : list AnalyzedRow) :
  compare_and_merge_runs df1 df2 =
    (annotate df1 df2,
     if (0 <? length df1)%nat then percentage (agreeing df1 df2) (length df1) else 0%Q).
Proof.
  unfold compare_and_merge_runs.
  pose proof (compare_loop_run df1 [] [] df2 0%nat eq_refl) as H. simpl in H.
  now rewrite H.
Qed.

Lemma compare_and_merge_runs_binary64_run (df1 df2 : list AnalyzedRow) :
  compare_and_merge_runs_binary64 df1 df2 =
    (annotate df1 df2,
     if (0 <? length df1)%nat
     then PyFloat (float_percentage (agreeing df1 df2) (length df1))
     else PyInt 0).
Proof.
  unfold compare_and_merge_runs_binary64.
  pose proof (compare_loop_run df1 [] [] df2 0%nat eq_refl) as H. simpl in H.
  now rewrite H.
Qed.

Lemma agreeing_take (run1 run2 : list AnalyzedRow) :
  agreeing run1 run2 =
    agreeing (take (min (length run1) (length run2)) run1)
             (take (min (length run1) (length run2)) run2).
Proof.
  revert run2. induction run1 as [|r1 run1 IH]; intros [|r2 run2]; simpl; try reflexivity.
  now rewrite <- IH.
Qed.

Lemma agreeing_all (run1 run2 : list AnalyzedRow) :
  Forall2 (fun r1 r2 => row_aspect r1 = row_aspect r2 /\ row_sentiment r1 = row_sentiment r2)
          run1 run2 ->
  agreeing run1 run2 = length run1.
Proof.
  induction 1 as [|r1 r2 run1 run2 [Ha Hs] _ IH]; [reflexivity|].
  simpl. unfold same_label. rewrite Ha, Hs, !String.eqb_refl, IH. reflexivity.
Qed.

Lemma agreeing_none (run1 run2 : list AnalyzedRow) :
  (forall i r1 r2, run1 !! i = Some r1 -> run2 !! i = Some r2 -> same_label r1 r2 = false) ->
  agreeing run1 run2 = 0%nat.
Proof.
  revert run2. induction run1 as [|r1 run1 IH]; intros [|r2 run2] H; simpl; try reflexivity.
  rewrite (H 0%nat r1 r2) by reflexivity.
  apply IH. intros i a b Ha Hb. apply (H (S i)); assumption.
Qed.

Lemma percentage_full (n : nat) : (0 < n)%nat -> (percentage n n == 100)%Q.
Proof.
  intros Hn. unfold percentage. field.
  unfold Qeq. simpl. lia.
Qed.

Lemma percentage_zero (n : nat) : (percentage 0 n == 0)%Q.
Proof. unfold percentage, Qdiv. simpl. ring. Qed.

End Comparison.

Section ComparisonResults.
Import PyNum Analyzer App Spec.

Lemma annotate_pending (run1 run2 : list AnalyzedRow) (i : nat) (r1 : AnalyzedRow) :
  run1 !! i = Some r1 -> run2 !! i = None ->
  annotate run1 run2 !! i = Some (mkChecked r1 Pending).
Proof.
  revert run2 i. induction run1 as [|r run1 IH]; intros run2 i H1 H2; [discriminate|].
  destruct run2 as [|r2 run2], i as [|i]; simpl in *; try discriminate.
  - now injection H1 as ->.
  - now apply IH.
  - now apply IH.
Qed.

(** C2, as the code has it: the score is the number of index-aligned pairs
    whose aspect and sentiment both match, divided by the length of the first
    run, times 100, the quotient and the product being those of binary64 (and
    the integer 0 for an empty first run); pairs are compared up to the
    shorter length; rows of the first run without partner stay pending and
    count in the divisor; when the first run is not the longer one the divisor
    is the shorter length. The table is the one of the exact model. *)
Theorem compare_score_over_first_run (df1 df2 : list AnalyzedRow) :
  (compare_and_merge_runs_binary64 df1 df2).2 =
    (if (0 <? length df1)%nat
     then PyFloat (SFmul prec emax
                     (SFdiv prec emax (of_int (Z.of_nat (agreeing df1 df2)))
                                      (of_int (Z.of_nat (length df1))))
                     (of_int 100))
     else PyInt 0) /\
  agreeing df1 df2 =
    agreeing (take (min (length df1) (length df2)) df1)
             (take (min (length df1) (length df2)) df2) /\
  (forall i r1, df1 !! i = Some r1 -> df2 !! i = None ->
                (compare_and_merge_runs_binary64 df1 df2).1 !! i =
                  Some (mkChecked r1 Pending)) /\
  ((0 < length df1 <= length df2)%nat ->
   (compare_and_merge_runs_binary64 df1 df2).2 =
     PyFloat (SFmul prec emax
                (SFdiv prec emax (of_int (Z.of_nat (agreeing df1 df2)))
                                 (of_int (Z.of_nat (min (length df1) (length df2)))))
                (of_int 100))) /\
  (compare_and_merge_runs_binary64 df1 df2).1 = (compare_and_merge_runs df1 df2).1.
Proof.
  rewrite compare_and_merge_runs_binary64_run, compare_and_merge_runs_run. simpl.
  split; [reflexivity|]. split; [apply agreeing_take|]. split; [|split; [|reflexivity]].
  - intros i r1. apply annotate_pending.
  - intros [Hpos Hle]. rewrite Nat.min_l by exact Hle.
    destruct (length df1); [lia | reflexivity].
Qed.

(** One pair of three agrees: the score is the float 33.33333333333333. *)
Lemma compare_score_over_first_run_witness :
  (0 < length Scenario.run3 <= length Scenario.run3')%nat /\
  (compare_and_merge_runs_binary64 Scenario.run3 Scenario.run3').2 =
    PyFloat (S754_finite false 4691249611844266 (-47)).
Proof.
  assert (0 < length Scenario.run3 <= length Scenario.run3')%nat as H by (vm_compute; lia).
  split; [exact H|].
  rewrite (proj1 (proj2 (proj2 (proj2
             (compare_score_over_first_run Scenario.run3 Scenario.run3')))) H).
  vm_compute. reflexivity.
Defined.

(** A first run of two rows against a second run of one: one pair agrees,
    the score is 50.0 and not 100.0. *)
Lemma compare_score_min_counterexample :
  ~ (forall df1 df2 : list AnalyzedRow,
        (compare_and_merge_runs_binary64 df1 df2).2 =
          PyFloat (SFmul prec emax
                     (SFdiv prec emax (of_int (Z.of_nat (agreeing df1 df2)))
                                      (of_int (Z.of_nat (min (length df1) (length df2)))))
                     (of_int 100))).
Proof.
  intros H.
  specialize (H [mkRow "a" "service" "negative" "" ""; mkRow "b" "other" "neutral" "" ""]
                [mkRow "a" "service" "negative" "" ""]).
  vm_compute in H. discriminate.
Qed.

(** The model's binary64 values are those of the machine's floats: 1 of 3
    gives 33.33333333333333, 7 of 25 gives 28.000000000000004, and 23 of 160
    gives 14.374999999999998, which [round] takes to 14.37. *)
Example float_percentage_samples :
  SF2Prim (float_percentage 1 3) = 0x1.0aaaaaaaaaaaap+5%float /\
  SF2Prim (float_percentage 7 25) = 0x1.c000000000001p+4%float /\
  SF2Prim (float_percentage 23 160) = 0x1.cbfffffffffffp+3%float /\
  SF2Prim (float_round2 (float_percentage 23 160)) = 0x1.cbd70a3d70a3dp+3%float.
Proof. repeat split; vm_compute; reflexivity. Qed.

(** C7: runs that agree row by row on aspect and sentiment score 100
    (the first being non-empty); runs whose aligned pairs all differ score 0;
    with an empty run on either side the score is 0; five identical rows
    score 100 and five rows of which the third differs in aspect score 80.
    The same holds of the score computed in binary64, whose quotient and
    product are exact in these cases: the floats 100.0, 0.0 and 80.0, and the
    integer 0 for an empty first run. *)
Theorem compare_score_extremes :
  (forall df1 df2 : list AnalyzedRow,
      df1 <> [] ->
      Forall2 (fun r1 r2 => row_aspect r1 = row_aspect r2 /\ row_sentiment r1 = row_sentiment r2)
              df1 df2 ->
      ((compare_and_merge_runs df1 df2).2 == 100)%Q) /\
  (forall df1 df2 : list AnalyzedRow,
      (forall i r1 r2, df1 !! i = Some r1 -> df2 !! i = Some r2 -> same_label r1 r2 = false) ->
      ((compare_and_merge_runs df1 df2).2 == 0)%Q) /\
  (forall df1 df2 : list AnalyzedRow,
      df1 = [] \/ df2 = [] -> ((compare_and_merge_runs df1 df2).2 == 0)%Q) /\
  (forall df2 : list AnalyzedRow, (compare_and_merge_runs [] df2).2 = 0%Q) /\
  ((compare_and_merge_runs Scenario.run5 Scenario.run5).2 == 100)%Q /\
  ((compare_and_merge_runs Scenario.run5 Scenario.run5').2 == 80)%Q /\
  (forall df1 df2 : list AnalyzedRow,
      df1 <> [] ->
      Forall2 (fun r1 r2 => row_aspect r1 = row_aspect r2 /\ row_sentiment r1 = row_sentiment r2)
              df1 df2 ->
      (compare_and_merge_runs_binary64 df1 df2).2 =
        PyFloat (S754_finite false 7036874417766400 (-46))) /\
  (forall df1 df2 : list AnalyzedRow,
      df1 <> [] ->
      (forall i r1 r2, df1 !! i = Some r1 -> df2 !! i = Some r2 -> same_label r1 r2 = false) ->
      (compare_and_merge_runs_binary64 df1 df2).2 = PyFloat (S754_zero false)) /\
  (forall df2 : list AnalyzedRow, (compare_and_merge_runs_binary64 [] df2).2 = PyInt 0) /\
  (compare_and_merge_runs_binary64 Scenario.run5 Scenario.run5').2 =
    PyFloat (S754_finite false 5629499534213120 (-46)).
Proof.
  assert (forall df1 df2 : list AnalyzedRow,
             agreeing df1 df2 = 0%nat -> ((compare_and_merge_runs df1 df2).2 == 0)%Q) as Hzero.
  { intros df1 df2 E. rewrite compare_and_merge_runs_run. simpl. rewrite E.
    destruct (0 <? length df1)%nat; [apply percentage_zero | reflexivity]. }
  split; [|split; [|split; [|split; [|split; [|split; [|split; [|split; [|split]]]]]]]].
  - intros df1 df2 Hne Hall. rewrite compare_and_merge_runs_run. simpl.
    rewrite (agreeing_all df1 df2 Hall).
    destruct df1 as [|r df1]; [contradiction|].
    simpl Nat.ltb. apply percentage_full. simpl. lia.
  - intros df1 df2 Hall. apply Hzero. now apply agreeing_none.
  - intros df1 df2 [-> | ->]; apply Hzero; [reflexivity | apply agreeing_nil_r].
  - intros df2. reflexivity.
  - vm_compute. reflexivity.
  - vm_compute. reflexivity.
  - intros df1 df2 Hne Hall. rewrite compare_and_merge_runs_binary64_run. simpl.
    rewrite (agreeing_all df1 df2 Hall).
    destruct df1 as [|r df1]; [contradiction|].
    change (0 <? length (r :: df1))%nat with true. cbv iota.
    now rewrite (proj1 (float_percentage_full (length (r :: df1)) ltac:(simpl; lia))).
  - intros df1 df2 Hne Hall. rewrite compare_and_merge_runs_binary64_run. simpl.
    rewrite (agreeing_none df1 df2 Hall).
    destruct df1 as [|r df1]; [contradiction|].
    change (0 <? length (r :: df1))%nat with true. cbv iota.
    now rewrite float_percentage_none by (simpl; lia).
  - intros df2. reflexivity.
  - vm_compute. reflexivity.
Qed.

Lemma compare_score_extremes_witness :
  Scenario.run5 <> [] /\
  Forall2 (fun r1 r2 => row_aspect r1 = row_aspect r2 /\ row_sentiment r1 = row_sentiment r2)
          Scenario.run5 Scenario.run5 /\
  ((compare_and_merge_runs Scenario.run5 Scenario.run5).2 == 100)%Q.
Proof.
  assert (Scenario.run5 <> []) as H1 by discriminate.
  assert (Forall2 (fun r1 r2 => row_aspect r1 = row_aspect r2 /\
                                row_sentiment r1 = row_sentiment r2)
                  Scenario.run5 Scenario.run5) as H2
    by (repeat constructor).
  split; [exact H1|]. split; [exact H2|].
  exact (proj1 compare_score_extremes Scenario.run5 Scenario.run5 H1 H2).
Defined.

(** The two scenario scores evaluated in binary64: the rounding of the
    quotient and of the product leaves exactly 100.0 and 80.0. *)
Example scenario_scores_binary64 :
  percentage_binary64 (agreeing Scenario.run5 Scenario.run5) (length Scenario.run5)
    = 100%float /\
  percentage_binary64 (agreeing Scenario.run5 Scenario.run5') (length Scenario.run5)
    = 80%float /\
  SF2Prim (S754_finite false 7036874417766400 (-46)) = 100%float /\
  SF2Prim (S754_finite false 5629499534213120 (-46)) = 80%float.
Proof. repeat split; vm_compute; reflexivity. Qed.

End ComparisonResults.

(** ** The validation harness *)

Section HarnessFacts.
Import PySeq Models Config LlmEngine Analyzer Validator Spec.
Context {R V : Type}.
Variable chat_parse : string -> R -> (exn + ParsedCompletion) * R.
Variable accuracy_score : list string -> list string -> outcome PyNum.binary64.
Variable precision_recall_fscore_support :
  list string -> list string -> outcome (PyNum.binary64 * PyNum.binary64 * PyNum.binary64).
Variable classification_report : list string -> list string -> outcome (Report V).

Lemma prediction_loop_run (batch_input : list BatchItem) (starts : list Z) :
  forall (m : gmap Z (list ReviewInsight)) (w : World R), exists new r',
    for_each starts
      (fun i predictions_map =>
         batch_results <~ analyze_review_batch chat_parse
                            (slice batch_input i (i + BATCH_SIZE)) ;;
         ret (foldl (fun m res => <[id res := insights res]> m) predictions_map batch_results))
      m w
    = (Returns (foldl (fun m res => <[id res := insights res]> m) m (concat (map snd new))),
       mkWorld r' (calls w ++ new)) /\
    map fst new = map (fun i => slice batch_input i (i + BATCH_SIZE)) starts.
Proof.
  induction starts as [|i starts IH]; intros m w.
  - exists [], (remote w). simpl. unfold ret. rewrite app_nil_r. destruct w; auto.
  - simpl for_each. unfold bind at 1. unfold bind at 1.
    rewrite analyze_review_batch_run. unfold ret at 1.
    match goal with
    | |- context [for_each starts _ ?m' ?w'] => destruct (IH m' w') as (new & r' & Hrun & Hb)
    end.
    exists ((slice batch_input i (i + BATCH_SIZE),
             reply chat_parse (slice batch_input i (i + BATCH_SIZE)) (remote w)) :: new), r'.
    split.
    + rewrite Hrun. simpl. rewrite foldl_app, <- app_assoc. reflexivity.
    + simpl. now rewrite Hb.
Qed.

(** A pass sends the whole input, in chunks, and keeps for every id the
    insights of the last result that carries it. *)
Lemma get_predictions_run (batch_input : list BatchItem) (w : World R) :
  exists new r',
    _get_predictions chat_parse batch_input w =
      (Returns (results_map (concat (map snd new))), mkWorld r' (calls w ++ new)) /\
    concat (map fst new) = batch_input.
Proof.
  unfold _get_predictions.
  destruct (prediction_loop_run batch_input (py_range 0 (len batch_input) BATCH_SIZE) ∅ w)
    as (new & r' & Hrun & Hb).
  exists new, r'. split; [exact Hrun|].
  rewrite Hb, <- flat_map_concat_map.
  apply (slices_cover batch_input BATCH_SIZE (fun i => (i + BATCH_SIZE)%Z)).
  - reflexivity.
  - intros i. now left.
Qed.

Lemma first_pair_get (p : gmap Z (list ReviewInsight)) (idx : Z) :
  first_pair (get p idx) = first_label p idx.
Proof.
  unfold first_pair, get, first_label.
  destruct (p !! idx) as [[|insight rest]|]; reflexivity.
Qed.

Lemma count_consistent_spec (p1 p2 : gmap Z (list ReviewInsight)) (n : nat) :
  count_consistent p1 p2 n = agreeing_samples p1 p2 n.
Proof.
  unfold count_consistent, agreeing_samples.
  generalize (range n) as idxs. intros idxs.
  change (length (filter (fun idx => first_label p1 idx = first_label p2 idx) idxs))
    with (0 + length (filter (fun idx => first_label p1 idx = first_label p2 idx) idxs))%nat.
  generalize 0%nat as c. induction idxs as [|idx idxs IH]; intros c; simpl.
  - lia.
  - rewrite IH, filter_cons, !first_pair_get.
    destruct (decide (first_label p1 idx = first_label p2 idx)) as [E | E].
    + rewrite bool_decide_eq_true_2 by exact E. simpl. lia.
    + rewrite bool_decide_eq_false_2 by exact E. reflexivity.
Qed.

Lemma prepare_data_items (gold : list GoldItem) :
  forall (k : Z) (i : nat) (g : GoldItem),
    gold !! i = Some g ->
    (prepare_data k gold).2 !! i = Some (mkItem (k + Z.of_nat i) (default "" (gold_text g))).
Proof.
  induction gold as [|item gold IH]; intros k i g H; [discriminate|].
  simpl. destruct (prepare_data (k + 1) gold) as [truths items] eqn:E.
  destruct i as [|i]; simpl in *.
  - injection H as ->. do 2 f_equal. lia.
  - specialize (IH (k + 1)%Z i g H). rewrite E in IH. simpl in IH. rewrite IH.
    do 2 f_equal. lia.
Qed.

Lemma prepare_data_truths (gold : list GoldItem) (k : Z) :
  map (fun e => truth_aspect e.2) (prepare_data k gold).1 =
    map (fun g => default "other" (label_aspect g)) gold.
Proof.
  revert k. induction gold as [|item gold IH]; intros k; [reflexivity|].
  simpl. specialize (IH (k + 1)%Z).
  destruct (prepare_data (k + 1) gold) as [truths items]. simpl in *. now rewrite IH.
Qed.

Lemma tally_labels (p : gmap Z (list ReviewInsight)) (entries : list (Z * Truth)) :
  forall acc : Tally,
    y_true_aspect (foldl (compare_line p) acc entries) =
      y_true_aspect acc ++ map (fun e => truth_aspect e.2) entries /\
    length (y_pred_aspect (foldl (compare_line p) acc entries)) =
      (length (y_pred_aspect acc) + length entries)%nat.
Proof.
  induction entries as [|[idx truth] entries IH]; intros acc.
  - simpl. rewrite app_nil_r. split; [reflexivity | lia].
  - cbn [foldl map length].
    destruct (IH (compare_line p acc (idx, truth))) as [Ht Hp]. rewrite Ht, Hp.
    unfold compare_line. destruct (get p idx) as [|insight rest]; simpl;
      rewrite <- app_assoc, length_app; simpl; split; try reflexivity; lia.
Qed.

(** The metrics block leaves the world as it is. *)
Lemma compute_metrics_pure (tally : Tally) (score : option PyNum.binary64) (w : World R) :
  compute_metrics accuracy_score precision_recall_fscore_support classification_report
                  tally score w
  = ((compute_metrics accuracy_score precision_recall_fscore_support classification_report
                      tally score w).1, w).
Proof.
  unfold compute_metrics, bind, lift, raise, ret.
  destruct (accuracy_score _ _); [|reflexivity].
  destruct (precision_recall_fscore_support _ _) as [[[? ?] ?]|]; [|reflexivity].
  destruct (classification_report _ _) as [[entries|text]|]; reflexivity.
Qed.

End HarnessFacts.

Section HarnessRun.
Import PySeq Models Config LlmEngine Analyzer Validator Spec.
Context {R V : Type}.
Variable chat_parse : string -> R -> (exn + ParsedCompletion) * R.
Variable accuracy_score : list string -> list string -> outcome PyNum.binary64.
Variable precision_recall_fscore_support :
  list string -> list string -> outcome (PyNum.binary64 * PyNum.binary64 * PyNum.binary64).
Variable classification_report : list string -> list string -> outcome (Report V).

Lemma handled_cases (tally : Tally) (score : option PyNum.binary64) (w : World R) :
  let y_true := y_true_aspect tally in
  let y_pred := y_pred_aspect tally in
  (forall e, accuracy_score y_true y_pred = Raises e ->
             handled accuracy_score precision_recall_fscore_support
      classification_report tally score w = ErrorResult (exn_msg e)) /\
  (forall a e, accuracy_score y_true y_pred = Returns a ->
               precision_recall_fscore_support y_true y_pred = Raises e ->
               handled accuracy_score precision_recall_fscore_support
      classification_report tally score w = ErrorResult (exn_msg e)) /\
  (forall a prf e, accuracy_score y_true y_pred = Returns a ->
                   precision_recall_fscore_support y_true y_pred = Returns prf ->
                   classification_report y_true y_pred = Raises e ->
                   handled accuracy_score precision_recall_fscore_support
      classification_report tally score w = ErrorResult (exn_msg e)) /\
  (forall a prf text, accuracy_score y_true y_pred = Returns a ->
                      precision_recall_fscore_support y_true y_pred = Returns prf ->
                      classification_report y_true y_pred = Returns (ReportText text) ->
                      handled accuracy_score precision_recall_fscore_support
      classification_report tally score w = ErrorResult "") /\
  (forall a prf entries, accuracy_score y_true y_pred = Returns a ->
                         precision_recall_fscore_support y_true y_pred = Returns prf ->
                         classification_report y_true y_pred = Returns (ReportDict entries) ->
                         exists m, handled accuracy_score precision_recall_fscore_support
      classification_report tally score w = MetricsResult m) /\
  (forall m, handled accuracy_score precision_recall_fscore_support
      classification_report tally score w = MetricsResult m -> metric_consistency m = score).
Proof.
  unfold handled, compute_metrics, bind, lift, raise, ret. cbv zeta.
  destruct (accuracy_score _ _) as [a|e1]; simpl.
  2:{ repeat split; intros; try discriminate; congruence. }
  destruct (precision_recall_fscore_support _ _) as [[[p r] f]|e2]; simpl.
  2:{ repeat split; intros; try discriminate; congruence. }
  destruct (classification_report _ _) as [[entries|text]|e3]; simpl.
  - repeat split; intros; try discriminate; eauto.
    match goal with H : MetricsResult _ = MetricsResult _ |- _ => injection H as <- end.
    reflexivity.
  - repeat split; intros; try discriminate; congruence.
  - repeat split; intros; try discriminate; congruence.
Qed.

(** The harness on a loaded gold set: one pass, a second one in dual
    mode, then the metrics block. *)
Lemma validation_run (gold : list GoldItem) (dual_mode : bool) (w : World R) :
  exists pass1 pass2 r',
    run_gold_standard_validation chat_parse accuracy_score precision_recall_fscore_support
      classification_report (Returns gold) dual_mode w
    = (Returns
         (handled accuracy_score precision_recall_fscore_support classification_report
            (foldl (compare_line (results_map (concat (map snd pass1)))) (mkTally [] [] [] [])
                   (prepare_data 0 gold).1)
            (if dual_mode
             then Some (consistency (results_map (concat (map snd pass1)))
                                    (results_map (concat (map snd pass2))) (length gold))
             else None)
            (mkWorld r' (calls w ++ pass1 ++ pass2))),
       mkWorld r' (calls w ++ pass1 ++ pass2)) /\
    concat (map fst pass1) = (prepare_data 0 gold).2 /\
    (if dual_mode then concat (map fst pass2) = (prepare_data 0 gold).2 else pass2 = []).
Proof.
  unfold run_gold_standard_validation.
  destruct (prepare_data 0 gold) as [ground_truth_map batch_input] eqn:Eprep. simpl.
  destruct (get_predictions_run chat_parse batch_input w) as (pass1 & r1 & Hrun1 & Hsent1).
  unfold bind at 1. rewrite Hrun1.
  unfold bind at 1. unfold consistency_check.
  destruct dual_mode.
  - destruct (get_predictions_run chat_parse batch_input (mkWorld r1 (calls w ++ pass1)))
      as (pass2 & r2 & Hrun2 & Hsent2).
    unfold bind at 1. rewrite Hrun2. unfold ret at 1. simpl calls.
    exists pass1, pass2, r2. rewrite <- app_assoc.
    split; [|split; assumption].
    unfold try_except. rewrite compute_metrics_pure. unfold handled.
    destruct (compute_metrics _ _ _ _ _ _).1; reflexivity.
  - unfold ret at 1.
    exists pass1, [], r1. rewrite app_nil_r.
    split; [|split; [assumption | reflexivity]].
    unfold try_except. rewrite compute_metrics_pure. unfold handled.
    destruct (compute_metrics _ _ _ _ _ _).1; reflexivity.
Qed.

End HarnessRun.

Section HarnessResults.
Import PySeq PyNum Models Config LlmEngine Analyzer Validator Spec.
Context {R V : Type}.
Variable chat_parse : string -> R -> (exn + ParsedCompletion) * R.
Variable accuracy_score : list string -> list string -> outcome PyNum.binary64.
Variable precision_recall_fscore_support :
  list string -> list string -> outcome (PyNum.binary64 * PyNum.binary64 * PyNum.binary64).
Variable classification_report : list string -> list string -> outcome (Report V).

(** C8: in dual mode the harness makes two passes, each sending every
    gold sample under its position as id; a metrics object it returns carries
    as consistency the number of positions whose first-insight pair is the
    same in both passes (("none", "none") standing for no insight), divided by
    the number of samples, times 100, both in binary64, and that float
    rounded to two decimals as [round] does; it is 0.0 for an empty gold set;
    the harness returns a metrics object whenever the metric functions
    return. *)
Theorem dual_mode_consistency (gold : list GoldItem) (w : World R) :
  exists pass1 pass2 r' result,
    run_gold_standard_validation chat_parse accuracy_score precision_recall_fscore_support
      classification_report (Returns gold) true w
    = (Returns result, mkWorld r' (calls w ++ pass1 ++ pass2)) /\
    concat (map fst pass1) = (prepare_data 0 gold).2 /\
    concat (map fst pass2) = (prepare_data 0 gold).2 /\
    (forall i g, gold !! i = Some g ->
                 (prepare_data 0 gold).2 !! i =
                   Some (mkItem (Z.of_nat i) (default "" (gold_text g)))) /\
    (forall m, result = MetricsResult m ->
               exists score,
                 metric_consistency m = Some score /\
                 if (0 <? length gold)%nat
                 then rounded2
                        (SFmul prec emax
                           (SFdiv prec emax
                              (of_int (Z.of_nat
                                 (agreeing_samples (results_map (concat (map snd pass1)))
                                                   (results_map (concat (map snd pass2)))
                                                   (length gold))))
                              (of_int (Z.of_nat (length gold))))
                           (of_int 100))
                        score
                 else score = S754_zero false) /\
    ((forall y_true y_pred, exists a, accuracy_score y_true y_pred = Returns a) ->
     (forall y_true y_pred, exists prf,
         precision_recall_fscore_support y_true y_pred = Returns prf) ->
     (forall y_true y_pred, exists entries,
         classification_report y_true y_pred = Returns (ReportDict entries)) ->
     exists m, result = MetricsResult m) /\
    (gold = [] -> forall m, result = MetricsResult m ->
                  metric_consistency m = Some (S754_zero false)).
Proof.
  destruct (validation_run chat_parse accuracy_score precision_recall_fscore_support
              classification_report gold true w) as (pass1 & pass2 & r' & Hrun & Hs1 & Hs2).
  eexists pass1, pass2, r', _. split; [exact Hrun|].
  split; [exact Hs1|]. split; [exact Hs2|].
  match goal with
  | |- context [handled _ _ _ ?t ?s ?w'] =>
      destruct (handled_cases accuracy_score precision_recall_fscore_support
                  classification_report t s w') as (_ & _ & _ & _ & Hok & Hscore)
  end.
  split; [|split; [|split]].
  - intros i g Hg. rewrite (prepare_data_items gold 0 i g Hg). do 2 f_equal.
  - intros m Hm. rewrite (Hscore m Hm). eexists. split; [reflexivity|].
    unfold consistency. rewrite count_consistent_spec.
    destruct (0 <? length gold)%nat; [apply float_round2_spec | reflexivity].
  - intros Ha Hp Hr.
    destruct (Ha (y_true_aspect (foldl (compare_line (results_map (concat (map snd pass1))))
                                       (mkTally [] [] [] []) (prepare_data 0 gold).1))
                 (y_pred_aspect (foldl (compare_line (results_map (concat (map snd pass1))))
                                       (mkTally [] [] [] []) (prepare_data 0 gold).1)))
      as [a Ea].
    destruct (Hp (y_true_aspect (foldl (compare_line (results_map (concat (map snd pass1))))
                                       (mkTally [] [] [] []) (prepare_data 0 gold).1))
                 (y_pred_aspect (foldl (compare_line (results_map (concat (map snd pass1))))
                                       (mkTally [] [] [] []) (prepare_data 0 gold).1)))
      as [prf Ep].
    destruct (Hr (y_true_aspect (foldl (compare_line (results_map (concat (map snd pass1))))
                                       (mkTally [] [] [] []) (prepare_data 0 gold).1))
                 (y_pred_aspect (foldl (compare_line (results_map (concat (map snd pass1))))
                                       (mkTally [] [] [] []) (prepare_data 0 gold).1)))
      as [entries Er].
    exact (Hok a prf entries Ea Ep Er).
  - intros -> m Hm. rewrite (Hscore m Hm). reflexivity.
Qed.

(** C9: the harness always returns. A gold file that cannot be loaded
    gives the error dictionary; on a loaded gold set, empty or not, an
    exception raised by any of the metric functions, or the failed assertion
    on the report, gives the error dictionary with the exception's text, and
    otherwise a metrics dictionary is returned. *)
Theorem validation_never_raises (file : outcome (list GoldItem)) (dual_mode : bool)
    (w : World R) :
  exists result w',
    run_gold_standard_validation chat_parse accuracy_score precision_recall_fscore_support
      classification_report file dual_mode w = (Returns result, w') /\
    match file with
    | Raises e => result = ErrorResult ("Failed to load JSON: " +:+ exn_msg e)
    | Returns gold =>
        exists y_pred,
          let y_true := map (fun g => default "other" (label_aspect g)) gold in
          length y_pred = length gold /\
          (forall e, accuracy_score y_true y_pred = Raises e ->
                     result = ErrorResult (exn_msg e)) /\
          (forall a e, accuracy_score y_true y_pred = Returns a ->
                       precision_recall_fscore_support y_true y_pred = Raises e ->
                       result = ErrorResult (exn_msg e)) /\
          (forall a prf e, accuracy_score y_true y_pred = Returns a ->
                           precision_recall_fscore_support y_true y_pred = Returns prf ->
                           classification_report y_true y_pred = Raises e ->
                           result = ErrorResult (exn_msg e)) /\
          (forall a prf text, accuracy_score y_true y_pred = Returns a ->
                              precision_recall_fscore_support y_true y_pred = Returns prf ->
                              classification_report y_true y_pred = Returns (ReportText text) ->
                              result = ErrorResult "") /\
          (forall a prf entries,
              accuracy_score y_true y_pred = Returns a ->
              precision_recall_fscore_support y_true y_pred = Returns prf ->
              classification_report y_true y_pred = Returns (ReportDict entries) ->
              exists m, result = MetricsResult m)
    end.
Proof.
  destruct file as [gold | e].
  - destruct (validation_run chat_parse accuracy_score precision_recall_fscore_support
                classification_report gold dual_mode w)
      as (pass1 & pass2 & r' & Hrun & _ & _).
    eexists _, _. split; [exact Hrun|].
    match goal with
    | |- context [handled _ _ _ ?t ?s ?w'] =>
        pose proof (handled_cases accuracy_score precision_recall_fscore_support
                      classification_report t s w') as Hcases;
        destruct (tally_labels (results_map (concat (map snd pass1)))
                    (prepare_data 0 gold).1 (mkTally [] [] [] [])) as [Htrue Hpred]
    end.
    cbv zeta in Hcases. simpl in Htrue, Hpred.
    rewrite Htrue, prepare_data_truths in Hcases.
    destruct Hcases as (H1 & H2 & H3 & H4 & H5 & _).
    eexists. cbv zeta. split; [|repeat split; eassumption].
    rewrite Hpred. rewrite <- (length_map (fun e : Z * Truth => truth_aspect e.2)).
    rewrite prepare_data_truths. apply length_map.
  - exists (ErrorResult ("Failed to load JSON: " +:+ exn_msg e)), w. split; reflexivity.
Qed.

End HarnessResults.

Lemma dual_mode_consistency_witness :
  (forall y_true y_pred, exists a, Scenario.sk_accuracy y_true y_pred = Returns a) /\
  (forall y_true y_pred, exists prf, Scenario.sk_prf y_true y_pred = Returns prf) /\
  (forall y_true y_pred, exists entries,
      Scenario.sk_report y_true y_pred = Returns (Validator.ReportDict entries)) /\
  exists m w',
    Validator.run_gold_standard_validation Scenario.wavering Scenario.sk_accuracy
      Scenario.sk_prf Scenario.sk_report (Returns Scenario.gold3) true Scenario.start
    = (Returns (Validator.MetricsResult m), w') /\
    Validator.metric_consistency m = Some (S754_finite false 4690780486883082 (-47)).
Proof.
  assert (forall y_true y_pred, exists a, Scenario.sk_accuracy y_true y_pred = Returns a) as H1
    by (intros; eexists; reflexivity).
  assert (forall y_true y_pred, exists prf, Scenario.sk_prf y_true y_pred = Returns prf) as H2
    by (intros; eexists; reflexivity).
  assert (forall y_true y_pred, exists entries,
             Scenario.sk_report y_true y_pred = Returns (Validator.ReportDict entries)) as H3
    by (intros; eexists; reflexivity).
  split; [exact H1|]. split; [exact H2|]. split; [exact H3|].
  destruct (dual_mode_consistency Scenario.wavering Scenario.sk_accuracy Scenario.sk_prf
              Scenario.sk_report Scenario.gold3 Scenario.start)
    as (pass1 & pass2 & r' & result & Hrun & _ & _ & _ & _ & Hok & _).
  destruct (Hok H1 H2 H3) as [m Hm]. subst result.
  exists m, (LlmEngine.mkWorld r' (LlmEngine.calls Scenario.start ++ pass1 ++ pass2)).
  split; [exact Hrun|].
  vm_compute in Hrun. injection Hrun as <- _ _. reflexivity.
Defined.

Lemma validation_never_raises_witness :
  exists w',
    Validator.run_gold_standard_validation Scenario.service Scenario.sk_empty
      Scenario.sk_prf Scenario.sk_report (Returns []) false Scenario.start
    = (Returns (Validator.ErrorResult "Found empty input array."), w').
Proof.
  destruct (validation_never_raises Scenario.service Scenario.sk_empty Scenario.sk_prf
              Scenario.sk_report (Returns []) false Scenario.start)
    as (result & w' & Hrun & y_pred & Hlen & Hraise & _).
  exists w'. rewrite Hrun.
  rewrite (Hraise (PyError "ValueError" "Found empty input array.") eq_refl).
  reflexivity.
Defined.

(** ** The end-to-end scenario, evaluated

    Batch size 2 on the three-row sheet: the two reviews go out in one call,
    "nan" is left out; the table has two rows for the first review, the
    placeholder for the second, none for the third, and the stray result for
    id 7 leaves no trace in it. *)

Example scenario_table :
  Analyzer.process_excel_file Scenario.service Scenario.sheet 2 Scenario.start =
    (Returns
       [Analyzer.mkRow "Great delivery, but packaging was damaged"
                       "delivery_shipping" "positive" "Great delivery" "praise";
        Analyzer.mkRow "Great delivery, but packaging was damaged"
                       "product_quality" "negative" "packaging was damaged" "damage";
        Analyzer.mkRow "Terrible support" "other" "neutral" ""
                       "No insight detected (or skipped by LLM)"],
     LlmEngine.mkWorld 1%nat
       [([Models.mkItem 0 "Great delivery, but packaging was damaged";
          Models.mkItem 1 "Terrible support"],
         Models.reviews Scenario.answer)]).
Proof. vm_compute. reflexivity. Qed.

Example scenario_service_down :
  (Analyzer.process_excel_file Scenario.down Scenario.sheet 2 Scenario.start).1 =
    Returns
      [Analyzer.no_insight_row "Great delivery, but packaging was damaged";
       Analyzer.no_insight_row "Terrible support"].
Proof. vm_compute. reflexivity. Qed.

Example scenario_zero_batch_size :
  (Analyzer.process_excel_file Scenario.service Scenario.sheet 0 Scenario.start).1 =
    Raises (PyError "ValueError" "range() arg 3 must not be zero").
Proof. reflexivity. Qed.

Example tags_of_contraction :
  Validator.detect_complexity_tags "I don't like it" = ["Simple"].
Proof. vm_compute. reflexivity. Qed.

(** Accented letters, superscript digits and fractions are word
    characters, so a word that touches one is not standing alone; other signs
    are not. The characters written by number are e acute (233), E acute
    (201), superscript two (178), the copyright sign (169) and the
    multiplication sign (215). *)
Example tags_of_accented_text :
  Validator.detect_complexity_tags (String "233" "not") = ["Simple"] /\
  Validator.detect_complexity_tags ("j'ai not" +:+ String "233" "") = ["Simple"] /\
  Validator.detect_complexity_tags ("NOT" +:+ String "201" "") = ["Simple"] /\
  Validator.detect_complexity_tags (String "178" "but") = ["Simple"] /\
  Validator.detect_complexity_tags (String "169" "not") = ["Negation"] /\
  Validator.detect_complexity_tags ("it is " +:+ String "215" "not") = ["Negation"].
Proof. repeat split; vm_compute; reflexivity. Qed.

Example tags_of_long_text :
  Validator.detect_complexity_tags (PyStr.repeat_str "a" 151) = ["Long Text"] /\
  Validator.detect_complexity_tags (PyStr.repeat_str "a" 150) = ["Simple"].
Proof. split; vm_compute; reflexivity. Qed.

(** * Further properties of the code *)

(** ** Complexity tags: shape, exact conditions, letter case *)

Section TagFacts.
Import PyStr Validator Spec.

Lemma length_lower (s : string) : String.length (lower s) = String.length s.
Proof. induction s as [|c s IH]; simpl; [reflexivity | now rewrite IH]. Qed.

Lemma is_upper_lower_char (c : ascii) : is_upper (lower_char c) = false.
Proof.
  destruct c as [[] [] [] [] [] [] [] []]; vm_compute; reflexivity.
Qed.

Lemma lower_lower (s : string) : lower (lower s) = lower s.
Proof.
  induction s as [|c s IH]; simpl; [reflexivity|]. rewrite IH. f_equal.
  unfold lower_char at 1. now rewrite is_upper_lower_char.
Qed.

(** The tag list is never empty and has no repetition; it is ["Simple"]
    alone, or some of "Negation", "Mixed/Contrast", "Long Text" in that
    order. *)
Theorem detect_complexity_tags_shape (text : string) :
  detect_complexity_tags text <> [] /\
  NoDup (detect_complexity_tags text) /\
  (detect_complexity_tags text = ["Simple"] \/
   sublist (detect_complexity_tags text) ["Negation"; "Mixed/Contrast"; "Long Text"]) /\
  (In "Simple" (detect_complexity_tags text) -> detect_complexity_tags text = ["Simple"]).
Proof.
  rewrite detect_complexity_tags_unfold.
  destruct (re_search_words NEGATION_WORDS (lower text)),
           (re_search_words CONTRAST_WORDS (lower text)),
           (150 <? String.length text)%nat; simpl;
    (split; [discriminate|]);
    (split; [apply NoDup_ListNoDup; repeat constructor; simpl; intuition discriminate|]);
    (split; [first [left; reflexivity
                   | right; repeat first [apply sublist_skip | apply sublist_cons
                                         | apply sublist_nil]]|]);
    simpl; intuition discriminate.
Qed.

Lemma detect_complexity_tags_shape_witness :
  In "Simple" (detect_complexity_tags "Great phone") /\
  detect_complexity_tags "Great phone" = ["Simple"].
Proof.
  assert (In "Simple" (detect_complexity_tags "Great phone")) as H by (vm_compute; auto).
  split; [exact H|].
  exact (proj2 (proj2 (proj2 (detect_complexity_tags_shape "Great phone"))) H).
Defined.

(** Each tag is present exactly under its condition: a negation word, a
    contrast word standing alone in the lower-cased text, more than 150
    characters, and for "Simple" none of the three. *)
Theorem detect_complexity_tags_exact (text : string) :
  (In "Negation" (detect_complexity_tags text) <->
   exists w, In w NEGATION_WORDS /\ whole_word w (lower text)) /\
  (In "Mixed/Contrast" (detect_complexity_tags text) <->
   exists w, In w CONTRAST_WORDS /\ whole_word w (lower text)) /\
  (In "Long Text" (detect_complexity_tags text) <-> (150 < String.length text)%nat) /\
  (In "Simple" (detect_complexity_tags text) <->
   ~ (exists w, In w NEGATION_WORDS /\ whole_word w (lower text)) /\
   ~ (exists w, In w CONTRAST_WORDS /\ whole_word w (lower text)) /\
   (String.length text <= 150)%nat).
Proof.
  rewrite <- (re_search_words_spec NEGATION_WORDS (lower text) negation_words_wordy).
  rewrite <- (re_search_words_spec CONTRAST_WORDS (lower text) contrast_words_wordy).
  rewrite detect_complexity_tags_unfold.
  destruct (re_search_words NEGATION_WORDS (lower text)),
           (re_search_words CONTRAST_WORDS (lower text)),
           (150 <? String.length text)%nat eqn:E;
    (apply Nat.ltb_lt in E || apply Nat.ltb_ge in E); simpl;
    intuition (try discriminate; try lia; try congruence).
Qed.

(** Two texts of the same length whose lower-cased forms are equal get
    the same tags. *)
Theorem detect_complexity_tags_case (a b : string) :
  lower a = lower b -> String.length a = String.length b ->
  detect_complexity_tags a = detect_complexity_tags b.
Proof.
  intros E Hlen. rewrite !detect_complexity_tags_unfold, E, Hlen. reflexivity.
Qed.

Lemma detect_complexity_tags_case_witness :
  lower "NOT bad, However slow" = lower "not BAD, however SLOW" /\
  String.length "NOT bad, However slow" = String.length "not BAD, however SLOW" /\
  detect_complexity_tags "NOT bad, However slow" = detect_complexity_tags "not BAD, however SLOW".
Proof.
  assert (lower "NOT bad, However slow" = lower "not BAD, however SLOW") as H by reflexivity.
  assert (String.length "NOT bad, However slow" = String.length "not BAD, however SLOW")
    as Hlen by reflexivity.
  split; [exact H|]. split; [exact Hlen|]. exact (detect_complexity_tags_case _ _ H Hlen).
Defined.

End TagFacts.

(** ** The dual-run comparison: bounds, marks, perfect score *)

Section ComparisonFacts.
Import PyNum Analyzer App Spec.


Lemma length_annotate (run1 run2 : list AnalyzedRow) :
  length (annotate run1 run2) = length run1.
Proof.
  revert run2. induction run1 as [|r1 run1 IH]; intros run2; [reflexivity|].
  destruct run2; simpl; now rewrite IH.
Qed.

Lemma annotate_lookup (run1 run2 : list AnalyzedRow) (i : nat) (r1 : AnalyzedRow) :
  run1 !! i = Some r1 ->
  annotate run1 run2 !! i =
    Some (mkChecked r1
            match run2 !! i with
            | None => Pending
            | Some r2 => if same_label r1 r2 then Verified
                         else Mismatch (row_aspect r2) (row_sentiment r2)
            end).
Proof.
  revert run2 i. induction run1 as [|r run1 IH]; intros run2 i H; [discriminate|].
  destruct i as [|i]; simpl in H.
  - injection H as ->. destruct run2; reflexivity.
  - destruct run2 as [|r2 run2]; simpl.
    + rewrite (IH [] i H). reflexivity.
    + apply IH. exact H.
Qed.






(** The returned table is the first run, row by row, with one mark each:
    verified when the partner at the same position has the same aspect and
    sentiment, a mismatch quoting the partner's aspect and sentiment when it
    has not, pending when the second run has no row at that position. *)
Theorem compare_marks_first_run (df1 df2 : list AnalyzedRow) :
  length (compare_and_merge_runs df1 df2).1 = length df1 /\
  forall i r1,
    df1 !! i = Some r1 ->
    (compare_and_merge_runs df1 df2).1 !! i =
      Some (mkChecked r1
              match df2 !! i with
              | None => Pending
              | Some r2 => if same_label r1 r2 then Verified
                           else Mismatch (row_aspect r2) (row_sentiment r2)
              end).
Proof.
  rewrite compare_and_merge_runs_run. simpl. split.
  - apply length_annotate.
  - intros i r1. apply annotate_lookup.
Qed.

Lemma compare_marks_first_run_witness :
  Scenario.run5 !! 2%nat = Some (mkRow "c" "price_value" "mixed" "" "") /\
  (compare_and_merge_runs Scenario.run5 Scenario.run5').1 !! 2%nat =
    Some (mkChecked (mkRow "c" "price_value" "mixed" "" "") (Mismatch "product_quality" "mixed")).
Proof.
  assert (Scenario.run5 !! 2%nat = Some (mkRow "c" "price_value" "mixed" "" "")) as H
    by reflexivity.
  split; [exact H|].
  exact (proj2 (compare_marks_first_run Scenario.run5 Scenario.run5') 2%nat _ H).
Defined.



End ComparisonFacts.

(** ** The orchestration loop as a function of the batches and the replies *)

Section LoopExact.
Import PySeq Models LlmEngine Analyzer Spec.
Context {R : Type}.
Variable chat_parse : string -> R -> (exn + ParsedCompletion) * R.

Lemma world_eta (w : World R) : mkWorld (remote w) (calls w ++ []) = w.
Proof. destruct w. simpl. now rewrite app_nil_r. Qed.

Lemma chunk_loop_exact (df : DataFrame) (bs : Z) (starts : list Z) :
  forall acc w,
    for_each starts (process_chunk chat_parse df bs) acc w =
      (Returns (acc ++ flat_map call_rows
                         (run_calls chat_parse
                            (filter (fun b => b <> [])
                               (map (fun i => prepare_batch
                                                (iloc df i (Z.min (i + bs) (len df)))) starts))
                            (remote w)).1),
       mkWorld (run_calls chat_parse
                  (filter (fun b => b <> [])
                     (map (fun i => prepare_batch
                                      (iloc df i (Z.min (i + bs) (len df)))) starts))
                  (remote w)).2
               (calls w ++
                (run_calls chat_parse
                   (filter (fun b => b <> [])
                      (map (fun i => prepare_batch
                                       (iloc df i (Z.min (i + bs) (len df)))) starts))
                   (remote w)).1)).
Proof.
  induction starts as [|i starts IH]; intros acc w.
  - simpl. unfold ret. now rewrite world_eta, app_nil_r.
  - simpl for_each. unfold bind at 1. unfold process_chunk at 1.
    simpl map. rewrite filter_cons.
    destruct (prepare_batch (iloc df i (Z.min (i + bs) (len df)))) as [|item batch] eqn:E.
    + unfold ret at 1. rewrite decide_False by (intros H; now apply H). apply IH.
    + unfold bind at 1. rewrite analyze_review_batch_run. unfold ret at 1.
      rewrite decide_True by discriminate. rewrite IH. simpl remote. simpl calls.
      simpl run_calls.
      destruct (run_calls chat_parse _ (remote_after chat_parse (item :: batch) (remote w)))
        as [cs r'].
      simpl. unfold call_rows at 2. simpl. now rewrite <- !app_assoc.
Qed.

Lemma process_excel_file_exact (df : DataFrame) (bs : Z) (w : World R) :
  (0 < bs)%Z ->
  process_excel_file chat_parse df bs w =
    (Returns (flat_map call_rows (run_calls chat_parse (batches df bs) (remote w)).1),
     mkWorld (run_calls chat_parse (batches df bs) (remote w)).2
             (calls w ++ (run_calls chat_parse (batches df bs) (remote w)).1)).
Proof.
  intros Hbs. unfold process_excel_file.
  destruct (bs =? 0)%Z eqn:E; [apply Z.eqb_eq in E; lia|].
  rewrite chunk_loop_exact. unfold batches, chunks. now rewrite map_map.
Qed.

Lemma run_calls_batches (bl : list (list BatchItem)) (r : R) :
  map fst (run_calls chat_parse bl r).1 = bl.
Proof.
  revert r. induction bl as [|b bl IH]; intros r; [reflexivity|].
  simpl. specialize (IH (remote_after chat_parse b r)).
  destruct (run_calls chat_parse bl (remote_after chat_parse b r)) as [cs r'].
  simpl in *. now rewrite IH.
Qed.

Lemma run_calls_replies (bl : list (list BatchItem)) (r : R) :
  Forall (fun c : Call => exists r0, c.2 = reply chat_parse c.1 r0)
         (run_calls chat_parse bl r).1.
Proof.
  revert r. induction bl as [|b bl IH]; intros r; [constructor|].
  simpl. specialize (IH (remote_after chat_parse b r)).
  destruct (run_calls chat_parse bl (remote_after chat_parse b r)) as [cs r'].
  simpl in *. constructor; [|exact IH]. simpl. eauto.
Qed.

(** When the client returns the same list whatever the state, the calls
    are the batches paired with that list. *)
Lemma run_calls_fixed (answer : list BatchItem -> list ReviewResult)
    (bl : list (list BatchItem)) (r : R) :
  (forall b r0, reply chat_parse b r0 = answer b) ->
  (run_calls chat_parse bl r).1 = map (fun b => (b, answer b)) bl.
Proof.
  intros Hfix. revert r. induction bl as [|b bl IH]; intros r; [reflexivity|].
  simpl. specialize (IH (remote_after chat_parse b r)).
  destruct (run_calls chat_parse bl (remote_after chat_parse b r)) as [cs r'].
  simpl in *. now rewrite IH, Hfix.
Qed.

Lemma stateless_reply (b : list BatchItem) (r1 r2 : R) :
  stateless chat_parse -> reply chat_parse b r1 = reply chat_parse b r2.
Proof. intros H. unfold reply. now rewrite (H (user_content b) r1 r2). Qed.

Lemma raising_reply (b : list BatchItem) (r : R) :
  (forall content r0, exists e r', chat_parse content r0 = (inl e, r')) ->
  reply chat_parse b r = [].
Proof.
  intros H. unfold reply. destruct (H (user_content b) r) as (e & r' & ->). reflexivity.
Qed.

Lemma length_prepare_batch (l : list (Z * string)) :
  (length (prepare_batch l) <= length l)%nat.
Proof.
  induction l as [|[idx text] l IH]; simpl; [lia|].
  destruct (skipped text); simpl; lia.
Qed.

Lemma batches_bounded (df : DataFrame) (bs : Z) :
  (0 < bs)%Z ->
  Forall (fun b : list BatchItem => b <> [] /\ (length b <= Z.to_nat bs)%nat) (batches df bs) /\
  (length (batches df bs) <= Z.to_nat ((len df + bs - 1) / bs))%nat.
Proof.
  intros Hbs. unfold batches, chunks. split.
  - apply Forall_forall. intros b Hb.
    apply list_elem_of_filter in Hb as [Hne Hb]. split; [exact Hne|].
    apply list_elem_of_In, in_map_iff in Hb as (chunk & <- & Hc).
    apply in_map_iff in Hc as (i & <- & _).
    etransitivity; [apply length_prepare_batch|].
    unfold iloc, slice. rewrite length_take. lia.
  - etransitivity; [apply length_filter|].
    unfold py_range. rewrite !length_map, length_seq. unfold range_len, len.
    destruct (0 <? bs)%Z eqn:E; [|apply Z.ltb_ge in E; lia].
    destruct (0 <? Z.of_nat (length df))%Z eqn:En.
    + rewrite Z.sub_0_r. lia.
    + apply Z.ltb_ge in En. lia.
Qed.

Lemma nonempty_concat_nil {A} (ls : list (list A)) :
  Forall (fun l => l <> []) ls -> concat ls = [] -> ls = [].
Proof.
  intros Hall Hc. destruct ls as [|l ls]; [reflexivity|].
  apply Forall_cons in Hall as [Hl _]. simpl in Hc.
  apply app_eq_nil in Hc as [-> _]. contradiction.
Qed.

Lemma nothing_kept (df : DataFrame) :
  (forall pos text, df !! pos = Some text -> skipped text = true) -> kept_items df = [].
Proof.
  intros H. destruct (kept_items df) as [|item items] eqn:E; [reflexivity|].
  assert (In item (kept_items df)) as Hin by (rewrite E; simpl; auto).
  apply kept_items_lookup in Hin as (pos & _ & Hp & Hs).
  rewrite (H pos _ Hp) in Hs. discriminate.
Qed.

Lemma batches_nothing_kept (df : DataFrame) (bs : Z) :
  (0 < bs)%Z -> kept_items df = [] -> batches df bs = [].
Proof.
  intros Hbs Hk. apply nonempty_concat_nil.
  - destruct (batches_bounded df bs Hbs) as [Hall _].
    eapply Forall_impl; [exact Hall|]. simpl. tauto.
  - now rewrite batches_concat.
Qed.

Lemma call_rows_texts (c : Call) (row : AnalyzedRow) :
  In row (call_rows c) -> exists item, In item c.1 /\ original_text row = item_text item.
Proof.
  unfold call_rows, rows_for_batch. rewrite in_flat_map. intros (item & Hi & Hr).
  exists item. split; [exact Hi|].
  unfold rows_for_item in Hr.
  destruct (default [] (results_map c.2 !! item_id item)) as [|x xs].
  - destruct Hr as [<- | []]. reflexivity.
  - apply in_map_iff in Hr as (insight & <- & _). reflexivity.
Qed.

Lemma length_call_rows (c : Call) : (length c.1 <= length (call_rows c))%nat.
Proof.
  unfold call_rows, rows_for_batch. induction c.1 as [|item items IH]; simpl; [lia|].
  rewrite length_app. pose proof (rows_for_item_nonempty (results_map c.2) item). lia.
Qed.

Lemma length_flat_call_rows (cs : list Call) :
  (length (concat (map fst cs)) <= length (flat_map call_rows cs))%nat.
Proof.
  induction cs as [|c cs IH]; simpl; [lia|].
  rewrite !length_app. pose proof (length_call_rows c). lia.
Qed.

Lemma silent_call_rows (b : list BatchItem) :
  call_rows (b, []) = map (fun item => no_insight_row (item_text item)) b.
Proof.
  unfold call_rows, rows_for_batch. simpl.
  induction b as [|item b IH]; [reflexivity|]. simpl. now rewrite IH.
Qed.

End LoopExact.

Section LoopResults.
Import PyStr PySeq Models LlmEngine Analyzer Spec.
Context {R : Type}.
Variable chat_parse : string -> R -> (exn + ParsedCompletion) * R.

(** With a positive batch size, every batch handed to the client is
    non-empty and has at most [batch_size] items, the ids sent over the
    whole run are strictly increasing (so none is sent twice), and there are
    at most ceil(rows / batch_size) calls. *)
Theorem sent_batches_are_bounded (df : DataFrame) (bs : Z) (w : World R) :
  (0 < bs)%Z ->
  exists new r' data,
    process_excel_file chat_parse df bs w = (Returns data, mkWorld r' (calls w ++ new)) /\
    Forall (fun c : Call => c.1 <> [] /\ (length c.1 <= Z.to_nat bs)%nat) new /\
    StronglySorted Z.lt (map item_id (concat (map fst new))) /\
    (length new <= Z.to_nat ((len df + bs - 1) / bs))%nat.
Proof.
  intros Hbs. rewrite (process_excel_file_exact chat_parse df bs w Hbs).
  eexists _, _, _. split; [reflexivity|].
  pose proof (run_calls_batches chat_parse (batches df bs) (remote w)) as Hb.
  destruct (batches_bounded df bs Hbs) as [Hall Hlen].
  split; [|split].
  - apply Forall_forall. intros c Hc. rewrite Forall_forall in Hall. apply Hall.
    rewrite <- Hb. apply list_elem_of_In. apply in_map. now apply list_elem_of_In.
  - rewrite Hb, (batches_concat df bs Hbs). apply kept_ids_from.
  - rewrite <- Hb, length_map in Hlen. exact Hlen.
Qed.

(** A batch size of zero raises [ValueError] and a negative one returns
    the empty table; in both cases the client is not called and the service
    is left as it was. *)
Theorem nonpositive_batch_size (df : DataFrame) (bs : Z) (w : World R) :
  (bs <= 0)%Z ->
  process_excel_file chat_parse df bs w =
    (if (bs =? 0)%Z
     then Raises (PyError "ValueError" "range() arg 3 must not be zero")
     else Returns [],
     w).
Proof.
  intros Hbs. unfold process_excel_file.
  destruct (bs =? 0)%Z eqn:E; [reflexivity|].
  apply Z.eqb_neq in E.
  unfold py_range, range_len, len.
  destruct (0 <? bs)%Z eqn:E1; [apply Z.ltb_lt in E1; lia|].
  destruct (Z.of_nat (length df) <? 0)%Z eqn:E2; [apply Z.ltb_lt in E2; lia|].
  reflexivity.
Qed.

(** Every row of the table quotes, as its original text, the text of a
    sheet row that passed the filter, and the table has at least as many
    rows as the sheet has rows that passed. *)
Theorem table_quotes_kept_rows (df : DataFrame) (bs : Z) (w : World R) :
  (0 < bs)%Z ->
  exists data w',
    process_excel_file chat_parse df bs w = (Returns data, w') /\
    (length (kept_items df) <= length data)%nat /\
    forall row, In row data ->
                exists pos, df !! pos = Some (original_text row) /\
                            skipped (original_text row) = false.
Proof.
  intros Hbs. rewrite (process_excel_file_exact chat_parse df bs w Hbs).
  eexists _, _. split; [reflexivity|].
  pose proof (run_calls_batches chat_parse (batches df bs) (remote w)) as Hb.
  assert (concat (map fst (run_calls chat_parse (batches df bs) (remote w)).1) = kept_items df)
    as Hk by (rewrite Hb; now apply batches_concat).
  split.
  - rewrite <- Hk. apply length_flat_call_rows.
  - intros row Hrow. apply in_flat_map in Hrow as (c & Hc & Hr).
    apply call_rows_texts in Hr as (item & Hi & ->).
    assert (In item (kept_items df)) as Hin.
    { rewrite <- Hk. apply in_concat. exists c.1. split; [now apply in_map | exact Hi]. }
    apply kept_items_lookup in Hin as (pos & _ & Hp & Hs). eauto.
Qed.

(** When every call to the service raises, the loop still returns: the
    table has exactly one placeholder row for every sheet row that passed
    the filter, in sheet order, and each batch was tried once. *)
Theorem failing_service_gives_placeholders (df : DataFrame) (bs : Z) (w : World R) :
  (0 < bs)%Z ->
  (forall content r, exists e r', chat_parse content r = (inl e, r')) ->
  exists r',
    process_excel_file chat_parse df bs w =
      (Returns (map (fun item => no_insight_row (item_text item)) (kept_items df)),
       mkWorld r' (calls w ++ map (fun b => (b, [])) (batches df bs))).
Proof.
  intros Hbs Hdown. rewrite (process_excel_file_exact chat_parse df bs w Hbs).
  rewrite (run_calls_fixed chat_parse (fun _ => []))
    by (intros b r0; now apply raising_reply).
  eexists. f_equal. f_equal.
  rewrite <- (batches_concat df bs Hbs).
  induction (batches df bs) as [|b bl IH]; [reflexivity|].
  simpl. now rewrite map_app, IH, silent_call_rows.
Qed.

(** When no row of the sheet passes the filter (an empty sheet included),
    the loop returns the empty table without calling the client. *)
Theorem nothing_kept_no_call (df : DataFrame) (bs : Z) (w : World R) :
  (0 < bs)%Z ->
  (forall pos text, df !! pos = Some text -> skipped text = true) ->
  process_excel_file chat_parse df bs w = (Returns [], w).
Proof.
  intros Hbs Hall. rewrite (process_excel_file_exact chat_parse df bs w Hbs).
  rewrite (batches_nothing_kept df bs Hbs (nothing_kept df Hall)). simpl.
  now rewrite world_eta.
Qed.

(** The success path of the client, and the empty answer: when the first
    message carries no refusal and a parsed response, its reviews are returned
    as they are (later choices are not read), the service has moved on and the
    call is on record; a completion without any choice gives the empty list. *)
Theorem analyze_review_batch_passes_reviews (reviews_batch : list BatchItem) (w : World R) :
  (forall completion r' message rest response,
      chat_parse (user_content reviews_batch) (remote w) = (inr completion, r') ->
      choices completion = message :: rest ->
      str_truthy (refusal message) = false ->
      parsed message = Some response ->
      analyze_review_batch chat_parse reviews_batch w =
        (Returns (reviews response),
         mkWorld r' (calls w ++ [(reviews_batch, reviews response)]))) /\
  (forall completion r',
      chat_parse (user_content reviews_batch) (remote w) = (inr completion, r') ->
      choices completion = [] ->
      analyze_review_batch chat_parse reviews_batch w =
        (Returns [], mkWorld r' (calls w ++ [(reviews_batch, [])]))).
Proof.
  rewrite analyze_review_batch_run. unfold reply, remote_after. split.
  - intros completion r' message rest response Hcall Hchoices Href Hparsed.
    rewrite Hcall. simpl. now rewrite Hchoices, Href, Hparsed.
  - intros completion r' Hcall Hchoices. rewrite Hcall. simpl. now rewrite Hchoices.
Qed.

End LoopResults.

Section LoopResultsWitnesses.
Import PyStr PySeq Models LlmEngine Analyzer Spec.

Lemma sent_batches_are_bounded_witness :
  (0 < 2)%Z /\
  exists new, Forall (fun c : Call => c.1 <> [] /\ (length c.1 <= Z.to_nat 2)%nat) new /\
              (length new <= Z.to_nat ((len Scenario.sheet + 2 - 1) / 2))%nat.
Proof.
  assert (0 < 2)%Z as H by reflexivity. split; [exact H|].
  destruct (sent_batches_are_bounded Scenario.service Scenario.sheet 2 Scenario.start H)
    as (new & _ & _ & _ & Hall & _ & Hlen).
  exists new. split; assumption.
Defined.

Lemma nonpositive_batch_size_witness :
  (-3 <= 0)%Z /\
  process_excel_file Scenario.service Scenario.sheet (-3) Scenario.start =
    (Returns [], Scenario.start).
Proof.
  assert (-3 <= 0)%Z as H by discriminate. split; [exact H|].
  exact (nonpositive_batch_size Scenario.service Scenario.sheet (-3) Scenario.start H).
Defined.

Lemma table_quotes_kept_rows_witness :
  (0 < 2)%Z /\
  exists data, (length (kept_items Scenario.sheet) <= length data)%nat /\
               forall row, In row data -> skipped (original_text row) = false.
Proof.
  assert (0 < 2)%Z as H by reflexivity. split; [exact H|].
  destruct (table_quotes_kept_rows Scenario.service Scenario.sheet 2 Scenario.start H)
    as (data & _ & _ & Hlen & Hrows).
  exists data. split; [exact Hlen|].
  intros row Hrow. destruct (Hrows row Hrow) as (pos & _ & Hs). exact Hs.
Defined.

Lemma failing_service_gives_placeholders_witness :
  (0 < 2)%Z /\
  (forall content r, exists e r', Scenario.down content r = (inl e, r')) /\
  (process_excel_file Scenario.down Scenario.sheet 2 Scenario.start).1 =
    Returns (map (fun item => no_insight_row (item_text item)) (kept_items Scenario.sheet)).
Proof.
  assert (0 < 2)%Z as H1 by reflexivity.
  assert (forall content r, exists e r', Scenario.down content r = (inl e, r')) as H2
    by (intros; eexists _, _; reflexivity).
  split; [exact H1|]. split; [exact H2|].
  destruct (failing_service_gives_placeholders Scenario.down Scenario.sheet 2 Scenario.start H1 H2)
    as [r' ->].
  reflexivity.
Defined.

Lemma nothing_kept_no_call_witness :
  (0 < 4)%Z /\
  (forall pos text, ["ok"; "NaN"; ""] !! pos = Some text -> skipped text = true) /\
  process_excel_file Scenario.service ["ok"; "NaN"; ""] 4 Scenario.start =
    (Returns [], Scenario.start).
Proof.
  assert (0 < 4)%Z as H1 by reflexivity.
  assert (forall pos text, ["ok"; "NaN"; ""] !! pos = Some text -> skipped text = true) as H2.
  { intros [|[|[|pos]]] text H; simpl in H; try discriminate;
      injection H as <-; reflexivity. }
  split; [exact H1|]. split; [exact H2|].
  exact (nothing_kept_no_call Scenario.service ["ok"; "NaN"; ""] 4 Scenario.start H1 H2).
Defined.

Lemma analyze_review_batch_passes_reviews_witness :
  analyze_review_batch Scenario.service [mkItem 5 "Terrible support"] Scenario.start =
    (Returns (reviews Scenario.answer),
     mkWorld 1%nat [([mkItem 5 "Terrible support"], reviews Scenario.answer)]).
Proof.
  exact (proj1 (analyze_review_batch_passes_reviews Scenario.service
                  [mkItem 5 "Terrible support"] Scenario.start)
               _ _ _ _ _ eq_refl eq_refl eq_refl eq_refl).
Defined.

End LoopResultsWitnesses.

(** ** The two passes of the route analyze *)

Section PassesFacts.
Import PyNum PySeq Models Config LlmEngine Analyzer App Spec.
Context {R : Type}.
Variable chat_parse : string -> R -> (exn + ParsedCompletion) * R.
Variable format_2f : Q -> string.

Lemma same_label_refl (r : AnalyzedRow) : same_label r r = true.
Proof. unfold same_label. now rewrite !String.eqb_refl. Qed.

Lemma agreeing_refl (run : list AnalyzedRow) : agreeing run run = length run.
Proof.
  induction run as [|r run IH]; [reflexivity|].
  simpl. now rewrite same_label_refl, IH.
Qed.

Lemma annotate_refl (run : list AnalyzedRow) :
  annotate run run = map (fun r => mkChecked r Verified) run.
Proof.
  induction run as [|r run IH]; [reflexivity|].
  simpl. now rewrite same_label_refl, IH.
Qed.

Lemma run_calls_stateless (bl : list (list BatchItem)) (r1 r2 : R) :
  stateless chat_parse ->
  (run_calls chat_parse bl r1).1 = (run_calls chat_parse bl r2).1.
Proof.
  intros H.
  rewrite (run_calls_fixed chat_parse (fun b => reply chat_parse b r1) bl r1)
    by (intros b r0; now apply stateless_reply).
  rewrite (run_calls_fixed chat_parse (fun b => reply chat_parse b r1) bl r2)
    by (intros b r0; now apply stateless_reply).
  reflexivity.
Qed.

(** Dual mode against a service whose answer depends on the message only:
    the second pass repeats the calls of the first, every row of the table
    shown is marked verified, and the score is 100, provided some row of the
    sheet passes the filter. *)
Theorem dual_mode_repeatable_service (df : DataFrame) (w : World R) :
  stateless chat_parse ->
  kept_items df <> [] ->
  exists cs score r',
    analysis_passes chat_parse format_2f true df w =
      (Returns (Annotated (map (fun r => mkChecked r Verified) (flat_map call_rows cs)),
                Some score,
                PyStr.newline +:+ "(Note: Analysis verified with dual-run consistency of " +:+
                format_2f score +:+ "%.)"),
       mkWorld r' (calls w ++ cs ++ cs)) /\
    map fst cs = batches df BATCH_SIZE /\
    (score == 100)%Q.
Proof.
  intros Hstate Hkept.
  assert (0 < BATCH_SIZE)%Z as Hbs by reflexivity.
  unfold analysis_passes. unfold bind at 1.
  rewrite (process_excel_file_exact chat_parse df BATCH_SIZE w Hbs).
  unfold bind at 1.
  rewrite (process_excel_file_exact chat_parse df BATCH_SIZE _ Hbs).
  cbn [remote calls].
  rewrite (run_calls_stateless (batches df BATCH_SIZE)
             (run_calls chat_parse (batches df BATCH_SIZE) (remote w)).2 (remote w) Hstate).
  set (cs := (run_calls chat_parse (batches df BATCH_SIZE) (remote w)).1).
  rewrite compare_and_merge_runs_run, agreeing_refl, annotate_refl.
  unfold ret. rewrite <- app_assoc.
  eexists cs, _, _. split; [reflexivity|].
  split; [apply run_calls_batches|].
  assert (0 < length (flat_map call_rows cs))%nat as Hpos.
  { pose proof (length_flat_call_rows cs) as Hl.
    unfold cs in Hl at 1. rewrite run_calls_batches, (batches_concat df _ Hbs) in Hl.
    destruct (kept_items df); [contradiction | simpl in Hl; lia]. }
  destruct (length (flat_map call_rows cs)) as [|n] eqn:E; [lia|].
  change (0 <? S n)%nat with true. cbv iota. apply percentage_full. lia.
Qed.

(** Dual mode on a sheet none of whose rows passes the filter: no call
    is made, the table is empty and the score reported is 0. *)
Theorem dual_mode_nothing_kept (df : DataFrame) (w : World R) :
  (forall pos text, df !! pos = Some text -> skipped text = true) ->
  analysis_passes chat_parse format_2f true df w =
    (Returns (Annotated [], Some 0%Q,
              PyStr.newline +:+ "(Note: Analysis verified with dual-run consistency of " +:+
              format_2f 0%Q +:+ "%.)"),
     w).
Proof.
  intros Hall. assert (0 < BATCH_SIZE)%Z as Hbs by reflexivity.
  unfold analysis_passes. unfold bind at 1.
  rewrite (nothing_kept_no_call chat_parse df BATCH_SIZE w Hbs Hall).
  unfold bind at 1.
  rewrite (nothing_kept_no_call chat_parse df BATCH_SIZE w Hbs Hall).
  reflexivity.
Qed.

End PassesFacts.

Section PassesFactsWitnesses.
Import PyNum PySeq Models Config LlmEngine Analyzer App Spec.

Lemma dual_mode_repeatable_service_witness :
  stateless Scenario.service /\
  kept_items Scenario.sheet <> [] /\
  exists score w' rows note,
    analysis_passes Scenario.service (fun _ => "100.00") true Scenario.sheet Scenario.start =
      (Returns (Annotated rows, Some score, note), w') /\
    (score == 100)%Q.
Proof.
  assert (stateless Scenario.service) as H1 by (intros content r1 r2; reflexivity).
  assert (kept_items Scenario.sheet <> []) as H2 by (vm_compute; discriminate).
  split; [exact H1|]. split; [exact H2|].
  destruct (dual_mode_repeatable_service Scenario.service (fun _ => "100.00")
              Scenario.sheet Scenario.start H1 H2) as (cs & score & r' & Hrun & _ & Hs).
  eexists score, _, _, _. split; [exact Hrun | exact Hs].
Defined.

Lemma dual_mode_nothing_kept_witness :
  (forall pos text, ["nan"; "n/a"] !! pos = Some text -> skipped text = true) /\
  (analysis_passes Scenario.service (fun _ => "0.00") true ["nan"; "n/a"] Scenario.start).2 =
    Scenario.start.
Proof.
  assert (forall pos text, ["nan"; "n/a"] !! pos = Some text -> skipped text = true) as H.
  { intros [|[|pos]] text E; simpl in E; try discriminate; injection E as <-; reflexivity. }
  split; [exact H|].
  now rewrite (dual_mode_nothing_kept Scenario.service (fun _ => "0.00") ["nan"; "n/a"]
                 Scenario.start H).
Defined.

End PassesFactsWitnesses.

(** ** The validation passes *)

Section PassFacts.
Import PySeq PyNum Models Config LlmEngine Analyzer Validator Spec.
Context {R V : Type}.
Variable chat_parse : string -> R -> (exn + ParsedCompletion) * R.
Variable accuracy_score : list string -> list string -> outcome PyNum.binary64.
Variable precision_recall_fscore_support :
  list string -> list string -> outcome (PyNum.binary64 * PyNum.binary64 * PyNum.binary64).
Variable classification_report : list string -> list string -> outcome (Report V).

Lemma prediction_loop_exact (batch_input : list BatchItem) (starts : list Z) :
  forall (m : gmap Z (list ReviewInsight)) (w : World R),
    for_each starts
      (fun i predictions_map =>
         batch_results <~ analyze_review_batch chat_parse
                            (slice batch_input i (i + BATCH_SIZE)) ;;
         ret (foldl (fun m res => <[id res := insights res]> m) predictions_map batch_results))
      m w
    = (Returns (foldl (fun m res => <[id res := insights res]> m) m
                  (concat (map snd
                     (run_calls chat_parse
                        (map (fun i => slice batch_input i (i + BATCH_SIZE)) starts)
                        (remote w)).1))),
       mkWorld (run_calls chat_parse
                  (map (fun i => slice batch_input i (i + BATCH_SIZE)) starts) (remote w)).2
               (calls w ++
                (run_calls chat_parse
                   (map (fun i => slice batch_input i (i + BATCH_SIZE)) starts)
                   (remote w)).1)).
Proof.
  induction starts as [|i starts IH]; intros m w.
  - simpl. unfold ret. now rewrite world_eta.
  - simpl for_each. unfold bind at 1. unfold bind at 1.
    rewrite analyze_review_batch_run. unfold ret at 1. rewrite IH.
    cbn [remote calls]. simpl map. simpl run_calls.
    destruct (run_calls chat_parse _
                (remote_after chat_parse (slice batch_input i (i + BATCH_SIZE)) (remote w)))
      as [cs r'].
    simpl. now rewrite foldl_app, <- app_assoc.
Qed.

Lemma get_predictions_exact (batch_input : list BatchItem) (w : World R) :
  _get_predictions chat_parse batch_input w =
    (Returns (results_map
                (concat (map snd (run_calls chat_parse (gold_chunks batch_input) (remote w)).1))),
     mkWorld (run_calls chat_parse (gold_chunks batch_input) (remote w)).2
             (calls w ++ (run_calls chat_parse (gold_chunks batch_input) (remote w)).1)).
Proof. unfold _get_predictions. now rewrite prediction_loop_exact. Qed.

Lemma py_range_bounds (n bs i : Z) :
  (0 < bs)%Z -> In i (py_range 0 n bs) -> (0 <= i < n)%Z.
Proof.
  intros Hbs Hin. unfold py_range in Hin.
  apply in_map_iff in Hin as (k & <- & Hk). apply in_seq in Hk.
  unfold range_len in Hk.
  destruct (0 <? bs)%Z eqn:E; [|apply Z.ltb_ge in E; lia].
  destruct (0 <? n)%Z eqn:En; [|simpl in Hk; lia].
  apply Z.ltb_lt in En. rewrite Z.sub_0_r in Hk.
  pose proof (Z.mul_div_le (n + bs - 1) bs Hbs) as Hdiv.
  assert (0 <= (n + bs - 1) / bs)%Z by (apply Z.div_pos; lia).
  nia.
Qed.

Lemma gold_chunks_bounded (batch_input : list BatchItem) :
  Forall (fun b : list BatchItem => (1 <= length b <= 4)%nat) (gold_chunks batch_input) /\
  concat (gold_chunks batch_input) = batch_input /\
  length (gold_chunks batch_input) = Z.to_nat ((len batch_input + 3) / 4).
Proof.
  unfold gold_chunks. split; [|split].
  - apply Forall_forall. intros b Hb.
    apply list_elem_of_In, in_map_iff in Hb as (i & <- & Hi).
    apply (py_range_bounds _ BATCH_SIZE) in Hi; [|reflexivity].
    unfold slice, len in *. rewrite length_take, length_drop.
    change BATCH_SIZE with 4%Z in *. lia.
  - rewrite <- flat_map_concat_map.
    apply (slices_cover batch_input BATCH_SIZE (fun i => (i + BATCH_SIZE)%Z)).
    + reflexivity.
    + intros i. now left.
  - unfold py_range. rewrite !length_map, length_seq. unfold range_len, len.
    change BATCH_SIZE with 4%Z. simpl (0 <? 4)%Z. cbv iota.
    destruct (0 <? Z.of_nat (length batch_input))%Z eqn:En.
    + f_equal. f_equal. lia.
    + apply Z.ltb_ge in En. assert (length batch_input = 0%nat) as -> by lia.
      reflexivity.
Qed.

Lemma length_prepare_data (gold : list GoldItem) (k : Z) :
  length (prepare_data k gold).1 = length gold /\
  length (prepare_data k gold).2 = length gold.
Proof.
  revert k. induction gold as [|item gold IH]; intros k; [split; reflexivity|].
  simpl. specialize (IH (k + 1)%Z).
  destruct (prepare_data (k + 1) gold) as [truths items]. simpl in *. lia.
Qed.

(** The harness on a loaded gold set, with the calls written out. *)
Lemma validation_exact (gold : list GoldItem) (dual_mode : bool) (w : World R) :
  let items := (prepare_data 0 gold).2 in
  let pass1 := run_calls chat_parse (gold_chunks items) (remote w) in
  let pass2 := if dual_mode then run_calls chat_parse (gold_chunks items) pass1.2
               else ([], pass1.2) in
  let p1 := results_map (concat (map snd pass1.1)) in
  let p2 := results_map (concat (map snd pass2.1)) in
  let w' := mkWorld pass2.2 (calls w ++ pass1.1 ++ pass2.1) in
  run_gold_standard_validation chat_parse accuracy_score precision_recall_fscore_support
    classification_report (Returns gold) dual_mode w
  = (Returns
       (handled accuracy_score precision_recall_fscore_support classification_report
          (foldl (compare_line p1) (mkTally [] [] [] []) (prepare_data 0 gold).1)
          (if dual_mode then Some (consistency p1 p2 (length gold)) else None)
          w'),
     w').
Proof.
  cbv zeta. unfold run_gold_standard_validation.
  destruct (prepare_data 0 gold) as [ground_truth_map batch_input] eqn:Eprep. simpl.
  unfold bind at 1. rewrite get_predictions_exact.
  unfold bind at 1. unfold consistency_check.
  destruct dual_mode.
  - unfold bind at 1. rewrite get_predictions_exact. unfold ret at 1. cbn [remote calls].
    rewrite <- app_assoc.
    unfold try_except. rewrite compute_metrics_pure. unfold handled.
    destruct (compute_metrics _ _ _ _ _ _).1; reflexivity.
  - unfold ret at 1. cbn [remote calls fst snd]. rewrite app_nil_r.
    unfold try_except. rewrite compute_metrics_pure. unfold handled.
    destruct (compute_metrics _ _ _ _ _ _).1; reflexivity.
Qed.

End PassFacts.

Section PassResults.
Import PySeq PyNum Models Config LlmEngine Analyzer Validator Spec.
Context {R V : Type}.
Variable chat_parse : string -> R -> (exn + ParsedCompletion) * R.
Variable accuracy_score : list string -> list string -> outcome PyNum.binary64.
Variable precision_recall_fscore_support :
  list string -> list string -> outcome (PyNum.binary64 * PyNum.binary64 * PyNum.binary64).
Variable classification_report : list string -> list string -> outcome (Report V).

(** Every pass of the validation sends all gold samples, none filtered
    out, in ceil(n / 4) batches of one to four samples; without dual mode
    there is a single pass and a returned metrics object carries no
    consistency, and in dual mode the second pass repeats the batches of the
    first. *)
Theorem validation_passes_are_chunked (gold : list GoldItem) (dual_mode : bool) (w : World R) :
  exists pass1 pass2 r' result,
    run_gold_standard_validation chat_parse accuracy_score precision_recall_fscore_support
      classification_report (Returns gold) dual_mode w
    = (Returns result, mkWorld r' (calls w ++ pass1 ++ pass2)) /\
    concat (map fst pass1) = (prepare_data 0 gold).2 /\
    length (prepare_data 0 gold).2 = length gold /\
    Forall (fun c : Call => (1 <= length c.1 <= 4)%nat) (pass1 ++ pass2) /\
    length pass1 = Z.to_nat ((len gold + 3) / 4) /\
    (dual_mode = false ->
     pass2 = [] /\ forall m, result = MetricsResult m -> metric_consistency m = None) /\
    (dual_mode = true -> map fst pass2 = map fst pass1).
Proof.
  pose proof (validation_exact chat_parse accuracy_score precision_recall_fscore_support
                classification_report gold dual_mode w) as Hrun.
  cbv zeta in Hrun.
  set (items := (prepare_data 0 gold).2) in *.
  set (pass1 := run_calls chat_parse (gold_chunks items) (remote w)) in *.
  set (pass2 := if dual_mode then run_calls chat_parse (gold_chunks items) pass1.2
                else ([], pass1.2)) in *.
  destruct (gold_chunks_bounded items) as (Hall & Hcover & Hlen).
  destruct (length_prepare_data gold 0) as [_ Hitems]. fold items in Hitems.
  assert (map fst pass1.1 = gold_chunks items) as H1 by apply run_calls_batches.
  assert (dual_mode = true -> map fst pass2.1 = gold_chunks items) as H2.
  { intros ->. apply run_calls_batches. }
  assert (dual_mode = false -> pass2.1 = []) as H3 by (now intros ->).
  assert (forall cs : list Call, map fst cs = gold_chunks items ->
            Forall (fun c : Call => (1 <= length c.1 <= 4)%nat) cs) as Hcs.
  { intros cs E. apply Forall_forall. intros c Hc. rewrite Forall_forall in Hall.
    apply Hall. rewrite <- E. apply list_elem_of_In, in_map. now apply list_elem_of_In. }
  eexists pass1.1, pass2.1, _, _. split; [exact Hrun|].
  split; [now rewrite H1|]. split; [exact Hitems|].
  split; [|split; [|split]].
  - apply Forall_app. split; [now apply Hcs|].
    destruct dual_mode; [apply Hcs; now apply H2 | rewrite H3 by reflexivity; constructor].
  - transitivity (length (gold_chunks items)).
    + rewrite <- H1. symmetry. apply length_map.
    + rewrite Hlen. unfold len. now rewrite Hitems.
  - intros ->. split; [reflexivity|]. intros m Hm.
    match type of Hm with
    | handled _ _ _ ?t ?s ?w' = _ =>
        destruct (handled_cases accuracy_score precision_recall_fscore_support
                    classification_report t s w') as (_ & _ & _ & _ & _ & Hscore)
    end.
    exact (Hscore m Hm).
  - intros E. now rewrite H1, H2.
Qed.

Lemma filter_all_true {A} (P : A -> Prop) `{forall x, Decision (P x)} (l : list A) :
  (forall x, P x) -> filter P l = l.
Proof.
  intros Hall. induction l as [|x l IH]; [reflexivity|].
  rewrite filter_cons, decide_True by apply Hall. now rewrite IH.
Qed.

(** Dual mode against a service whose answer depends on the message only
    (one that always fails included): a returned metrics object reports a
    consistency of 100 for a non-empty gold set. *)
Theorem dual_validation_repeatable_service (gold : list GoldItem) (w : World R) :
  stateless chat_parse ->
  gold <> [] ->
  exists result w',
    run_gold_standard_validation chat_parse accuracy_score precision_recall_fscore_support
      classification_report (Returns gold) true w = (Returns result, w') /\
    forall m, result = MetricsResult m ->
              exists q, metric_consistency m = Some q /\ (value q == 100)%Q.
Proof.
  intros Hstate Hgold.
  rewrite (validation_exact chat_parse accuracy_score precision_recall_fscore_support
             classification_report gold true w).
  cbv zeta.
  rewrite (run_calls_stateless chat_parse _
             (run_calls chat_parse (gold_chunks (prepare_data 0 gold).2) (remote w)).2
             (remote w) Hstate).
  eexists _, _. split; [reflexivity|]. intros m Hm.
  match type of Hm with
  | handled _ _ _ ?t ?s ?w' = _ =>
      destruct (handled_cases accuracy_score precision_recall_fscore_support
                  classification_report t s w') as (_ & _ & _ & _ & _ & Hscore)
  end.
  rewrite (Hscore m Hm). eexists. split; [reflexivity|].
  unfold consistency. rewrite count_consistent_spec. unfold agreeing_samples.
  rewrite filter_all_true by reflexivity.
  unfold range. rewrite length_map, length_seq.
  destruct gold as [|g gold]; [contradiction|].
  change (0 <? length (g :: gold))%nat with true. cbv iota.
  rewrite (proj2 (float_percentage_full (length (g :: gold)) ltac:(simpl; lia))).
  vm_compute. reflexivity.
Qed.

End PassResults.

Section PassResultsWitnesses.
Import PySeq PyNum Models Config LlmEngine Analyzer Validator Spec.

Lemma validation_passes_are_chunked_witness :
  false = false /\
  exists (pass1 : list Call) r' result,
    run_gold_standard_validation Scenario.service Scenario.sk_accuracy Scenario.sk_prf
      Scenario.sk_report (Returns Scenario.gold2) false Scenario.start
    = (Returns result, mkWorld r' (calls Scenario.start ++ pass1)) /\
    length pass1 = 1%nat.
Proof.
  split; [reflexivity|].
  destruct (validation_passes_are_chunked Scenario.service Scenario.sk_accuracy
              Scenario.sk_prf Scenario.sk_report Scenario.gold2 false Scenario.start)
    as (pass1 & pass2 & r' & result & Hrun & _ & _ & _ & Hlen & Hsingle & _).
  destruct (Hsingle eq_refl) as [-> _]. rewrite app_nil_r in Hrun.
  exists pass1, r', result. split; [exact Hrun | exact Hlen].
Defined.

Lemma dual_validation_repeatable_service_witness :
  stateless Scenario.down /\
  Scenario.gold2 <> [] /\
  exists m w' q,
    run_gold_standard_validation Scenario.down Scenario.sk_accuracy Scenario.sk_prf
      Scenario.sk_report (Returns Scenario.gold2) true Scenario.start
    = (Returns (MetricsResult m), w') /\
    metric_consistency m = Some q /\ (value q == 100)%Q.
Proof.
  assert (stateless Scenario.down) as H1 by (intros content r1 r2; reflexivity).
  assert (Scenario.gold2 <> []) as H2 by discriminate.
  split; [exact H1|]. split; [exact H2|].
  destruct (dual_validation_repeatable_service Scenario.down Scenario.sk_accuracy
              Scenario.sk_prf Scenario.sk_report Scenario.gold2 Scenario.start H1 H2)
    as (result & w' & Hrun & Hscore).
  assert (exists m, result = MetricsResult m) as [m ->].
  { vm_compute in Hrun. injection Hrun as <- _. eexists. reflexivity. }
  destruct (Hscore m eq_refl) as (q & Hq & H100).
  exists m, w', q. auto.
Defined.

End PassResultsWitnesses.

(** ** The tally of the validation: details and per-tag counts *)

Section TallyFacts.
Import PyStr PyNum Models Validator Spec.

Lemma detect_complexity_tags_nodup (text : string) : NoDup (detect_complexity_tags text).
Proof.
  rewrite detect_complexity_tags_unfold.
  destruct (re_search_words NEGATION_WORDS (lower text)),
           (re_search_words CONTRAST_WORDS (lower text)),
           (150 <? String.length text)%nat; simpl;
    apply NoDup_ListNoDup; repeat constructor; simpl; intuition discriminate.
Qed.

Lemma tag_stat_bump_same (tag : string) (c : bool) (stats : list (string * (nat * nat))) :
  tag_stat tag (bump tag c stats) = Some (count_one c (tag_stat tag stats)).
Proof.
  induction stats as [|[t [total correct]] stats IH]; simpl.
  - now rewrite String.eqb_refl.
  - destruct (String.eqb t tag) eqn:E; simpl; rewrite E; [reflexivity | exact IH].
Qed.

Lemma tag_stat_bump_other (tag other : string) (c : bool)
    (stats : list (string * (nat * nat))) :
  other <> tag -> tag_stat other (bump tag c stats) = tag_stat other stats.
Proof.
  intros Hne. induction stats as [|[t [total correct]] stats IH]; simpl.
  - destruct (String.eqb tag other) eqn:E; [|reflexivity].
    apply String.eqb_eq in E. congruence.
  - destruct (String.eqb t tag) eqn:E; simpl.
    + apply String.eqb_eq in E. subst t.
      destruct (String.eqb tag other) eqn:E2; [|reflexivity].
      apply String.eqb_eq in E2. congruence.
    + destruct (String.eqb t other); [reflexivity | exact IH].
Qed.

Lemma bump_keys (tag : string) (c : bool) (stats : list (string * (nat * nat))) :
  map fst (bump tag c stats) =
    match tag_stat tag stats with
    | Some _ => map fst stats
    | None => map fst stats ++ [tag]
    end.
Proof.
  induction stats as [|[t [total correct]] stats IH]; simpl; [reflexivity|].
  destruct (String.eqb t tag) eqn:E; simpl; [reflexivity|].
  rewrite IH. now destruct (tag_stat tag stats).
Qed.

Lemma tag_stat_none (tag : string) (stats : list (string * (nat * nat))) :
  tag_stat tag stats = None <-> ~ In tag (map fst stats).
Proof.
  induction stats as [|[t v] stats IH]; simpl; [tauto|].
  destruct (String.eqb t tag) eqn:E.
  - apply String.eqb_eq in E. split; [discriminate | intros H; exfalso; apply H; auto].
  - apply String.eqb_neq in E. rewrite IH. tauto.
Qed.

Lemma tag_stat_in (tag : string) (v : nat * nat) (stats : list (string * (nat * nat))) :
  List.NoDup (map fst stats) -> In (tag, v) stats -> tag_stat tag stats = Some v.
Proof.
  induction stats as [|[t u] stats IH]; intros Hnd Hin; [destruct Hin|].
  simpl in Hnd. apply List.NoDup_cons_iff in Hnd as [Hnotin Hnd].
  simpl. destruct Hin as [E | Hin].
  - injection E as -> ->. now rewrite String.eqb_refl.
  - destruct (String.eqb t tag) eqn:E.
    + apply String.eqb_eq in E. subst t. exfalso. apply Hnotin.
      change tag with (fst (tag, v)). now apply in_map.
    + now apply IH.
Qed.

Lemma tag_stat_some_in (tag : string) (v : nat * nat) (stats : list (string * (nat * nat))) :
  tag_stat tag stats = Some v -> In (tag, v) stats.
Proof.
  induction stats as [|[t u] stats IH]; simpl; [discriminate|].
  destruct (String.eqb t tag) eqn:E.
  - apply String.eqb_eq in E. intros H. injection H as ->. subst. auto.
  - auto.
Qed.

Lemma bump_nodup (tag : string) (c : bool) (stats : list (string * (nat * nat))) :
  List.NoDup (map fst stats) -> List.NoDup (map fst (bump tag c stats)).
Proof.
  intros Hnd. rewrite bump_keys. destruct (tag_stat tag stats) eqn:E; [exact Hnd|].
  apply tag_stat_none in E.
  apply List.NoDup_rev in Hnd. rewrite <- (rev_involutive (map fst stats ++ [tag])).
  apply List.NoDup_rev. rewrite rev_app_distr. simpl. constructor; [|exact Hnd].
  now rewrite <- in_rev.
Qed.

(** The tags of one sample, all distinct, bump each its own counter. *)
Lemma bump_tags (c : bool) (tags : list string) :
  NoDup tags ->
  forall (stats : list (string * (nat * nat))) (t : string),
    (List.NoDup (map fst stats) ->
     List.NoDup (map fst (foldl (fun st tag => bump tag c st) stats tags))) /\
    tag_stat t (foldl (fun st tag => bump tag c st) stats tags) =
      if decide (t ∈ tags) then Some (count_one c (tag_stat t stats)) else tag_stat t stats.
Proof.
  induction 1 as [|tag tags Hnotin Hnd IH]; intros stats t; cbn [foldl].
  - split; [auto|]. rewrite decide_False by apply not_elem_of_nil. reflexivity.
  - destruct (IH (bump tag c stats) t) as [IH1 IH2]. split.
    + intros Hs. apply IH1. now apply bump_nodup.
    + rewrite IH2. destruct (decide (t = tag)) as [-> | Hne].
      * rewrite decide_False by exact Hnotin.
        rewrite decide_True by (apply elem_of_cons; now left).
        apply tag_stat_bump_same.
      * rewrite (tag_stat_bump_other tag t c stats Hne).
        destruct (decide (t ∈ tags)) as [Hin | Hout].
        -- rewrite decide_True by (apply elem_of_cons; now right). reflexivity.
        -- rewrite decide_False; [reflexivity|].
           intros Hc. apply elem_of_cons in Hc as [Hc | Hc]; contradiction.
Qed.

Lemma entry_detail_single (p : gmap Z (list ReviewInsight)) (idx : Z) (truth : Truth) :
  entry_detail p (idx, truth) =
    [mkDetail (substring 0 50 (truth_text truth) +:+ "...")
              (String.concat ", " (truth_tags truth))
              (truth_aspect truth +:+ " | " +:+ truth_sentiment truth)
              ((predicted_label p idx).1 +:+ " | " +:+ (predicted_label p idx).2)
              (String.eqb (truth_aspect truth) (predicted_label p idx).1 &&
               String.eqb (truth_sentiment truth) (predicted_label p idx).2)].
Proof.
  unfold entry_detail, compare_line, predicted_label, get.
  destruct (p !! idx) as [[|insight rest]|]; reflexivity.
Qed.

Lemma compare_line_step (p : gmap Z (list ReviewInsight)) (acc : Tally) (entry : Z * Truth) :
  details (compare_line p acc entry) = details acc ++ entry_detail p entry /\
  edge_case_stats (compare_line p acc entry) =
    foldl (fun st tag => bump tag (entry_correct p entry) st) (edge_case_stats acc)
          (truth_tags entry.2).
Proof.
  destruct entry as [idx truth]. unfold entry_correct. rewrite entry_detail_single.
  unfold compare_line, predicted_label, get.
  destruct (p !! idx) as [[|insight rest]|]; simpl; split; reflexivity.
Qed.

Lemma tally_details (p : gmap Z (list ReviewInsight)) (entries : list (Z * Truth)) :
  forall acc : Tally,
    details (foldl (compare_line p) acc entries) =
      details acc ++ flat_map (entry_detail p) entries.
Proof.
  induction entries as [|e entries IH]; intros acc.
  - simpl. now rewrite app_nil_r.
  - cbn [foldl flat_map]. rewrite IH.
    rewrite (proj1 (compare_line_step p acc e)). now rewrite <- app_assoc.
Qed.

Lemma tally_snoc (p : gmap Z (list ReviewInsight)) (entries : list (Z * Truth))
    (e : Z * Truth) (acc : Tally) :
  edge_case_stats (foldl (compare_line p) acc (entries ++ [e])) =
    foldl (fun st tag => bump tag (entry_correct p e) st)
          (edge_case_stats (foldl (compare_line p) acc entries))
          (truth_tags e.2).
Proof. rewrite foldl_app. simpl. apply compare_line_step. Qed.

Lemma carriers_snoc (t : string) (entries : list (Z * Truth)) (e : Z * Truth) :
  carriers t (entries ++ [e]) =
    carriers t entries ++ (if decide (t ∈ truth_tags e.2) then [e] else []).
Proof.
  unfold carriers. rewrite filter_app, filter_cons, filter_nil.
  now destruct (decide (t ∈ truth_tags e.2)).
Qed.

Lemma correct_carriers_snoc (p : gmap Z (list ReviewInsight)) (t : string)
    (entries : list (Z * Truth)) (e : Z * Truth) :
  correct_carriers p t (entries ++ [e]) =
    correct_carriers p t entries ++
    (if decide (t ∈ truth_tags e.2) then if entry_correct p e then [e] else [] else []).
Proof.
  unfold correct_carriers. rewrite carriers_snoc, filter_app.
  destruct (decide (t ∈ truth_tags e.2)); [|reflexivity].
  rewrite filter_cons, filter_nil.
  destruct (entry_correct p e) eqn:E.
  - now rewrite decide_True.
  - now rewrite decide_False.
Qed.

(** After the tally, the counters of a tag hold the number of entries
    that carry it and the number of those counted correct. *)
Lemma tally_counts (p : gmap Z (list ReviewInsight)) (entries : list (Z * Truth)) (t : string) :
  Forall (fun e : Z * Truth => NoDup (truth_tags e.2)) entries ->
  let stats := edge_case_stats (foldl (compare_line p) (mkTally [] [] [] []) entries) in
  List.NoDup (map fst stats) /\
  tag_stat t stats =
    match carriers t entries with
    | [] => None
    | _ :: _ => Some (length (carriers t entries), length (correct_carriers p t entries))
    end.
Proof.
  induction entries as [|e entries IH] using rev_ind; intros Hall stats.
  - split; [constructor | reflexivity].
  - apply Forall_app in Hall as [Hall He]. apply Forall_cons in He as [He _].
    specialize (IH Hall). cbv zeta in IH. destruct IH as [IHnd IHstat].
    subst stats. rewrite tally_snoc.
    destruct (bump_tags (entry_correct p e) (truth_tags e.2) He
                (edge_case_stats (foldl (compare_line p) (mkTally [] [] [] []) entries)) t)
      as [Hnd Hstat].
    split; [now apply Hnd|]. rewrite Hstat, IHstat.
    rewrite carriers_snoc, correct_carriers_snoc.
    destruct (decide (t ∈ truth_tags e.2)) as [Hin | Hout].
    + destruct (carriers t entries) as [|c cs] eqn:Ec.
      * unfold correct_carriers. rewrite Ec. simpl.
        now destruct (entry_correct p e).
      * simpl. rewrite !length_app. simpl.
        destruct (entry_correct p e); simpl; do 2 f_equal; lia.
    + rewrite !app_nil_r. reflexivity.
Qed.

Lemma prepare_data_entries (gold : list GoldItem) :
  forall (k : Z) (i : nat) (g : GoldItem),
    gold !! i = Some g ->
    (prepare_data k gold).1 !! i =
      Some ((k + Z.of_nat i)%Z,
            mkTruth (default "other" (label_aspect g)) (default "neutral" (label_sentiment g))
                    (default "" (gold_text g))
                    (detect_complexity_tags (default "" (gold_text g)))).
Proof.
  induction gold as [|item gold IH]; intros k i g H; [discriminate|].
  simpl. destruct (prepare_data (k + 1) gold) as [truths items] eqn:E.
  destruct i as [|i]; simpl in H.
  - injection H as ->. simpl. now rewrite Z.add_0_r.
  - specialize (IH (k + 1)%Z i g H). rewrite E in IH. simpl in IH. simpl lookup.
    rewrite IH. replace (k + 1 + Z.of_nat i)%Z with (k + Z.of_nat (S i))%Z by lia.
    reflexivity.
Qed.

Lemma prepare_data_nodup (gold : list GoldItem) (k : Z) :
  Forall (fun e : Z * Truth => NoDup (truth_tags e.2)) (prepare_data k gold).1.
Proof.
  revert k. induction gold as [|item gold IH]; intros k; [constructor|].
  simpl. specialize (IH (k + 1)%Z).
  destruct (prepare_data (k + 1) gold) as [truths items]. simpl in *.
  constructor; [apply detect_complexity_tags_nodup | exact IH].
Qed.

End TallyFacts.

Section TallyResults.
Import PyStr PySeq PyNum Models Config LlmEngine Analyzer Validator Spec.
Context {R V : Type}.
Variable chat_parse : string -> R -> (exn + ParsedCompletion) * R.
Variable accuracy_score : list string -> list string -> outcome PyNum.binary64.
Variable precision_recall_fscore_support :
  list string -> list string -> outcome (PyNum.binary64 * PyNum.binary64 * PyNum.binary64).
Variable classification_report : list string -> list string -> outcome (Report V).

Lemma handled_fields (tally : Tally) (score : option PyNum.binary64) (w : World R)
    (m : Metrics V) :
  handled accuracy_score precision_recall_fscore_support classification_report tally score w
    = MetricsResult m ->
  metric_details V m = details tally /\
  final_edge_stats V m = map final_edge_stat (edge_case_stats tally).
Proof.
  unfold handled, compute_metrics, bind, lift, raise, ret.
  destruct (accuracy_score _ _) as [a|e1]; simpl; [|discriminate].
  destruct (precision_recall_fscore_support _ _) as [[[p r] f]|e2]; simpl; [|discriminate].
  destruct (classification_report _ _) as [[entries|text]|e3]; simpl; try discriminate.
  intros H. injection H as <-. split; reflexivity.
Qed.

Lemma flat_single_lookup {A B} (f : A -> B) (l : list A) (i : nat) :
  flat_map (fun x => [f x]) l !! i = f <$> l !! i.
Proof.
  revert i. induction l as [|x l IH]; intros [|i]; simpl; try reflexivity. apply IH.
Qed.

(** A returned metrics object has one detail line per gold sample, in
    order: the first 50 characters of the text followed by "...", the tags
    joined by ", ", the gold labels (absent ones read as "other" and
    "neutral"), the prediction of the first pass (the first insight for the
    sample's position, or "other" and "neutral" when there is none), and a
    match exactly when both aspect and sentiment agree. *)
Theorem validation_details (gold : list GoldItem) (dual_mode : bool) (w : World R) :
  exists pass1 pass2 r' result,
    run_gold_standard_validation chat_parse accuracy_score precision_recall_fscore_support
      classification_report (Returns gold) dual_mode w
    = (Returns result, mkWorld r' (calls w ++ pass1 ++ pass2)) /\
    concat (map fst pass1) = (prepare_data 0 gold).2 /\
    forall m, result = MetricsResult m ->
      length (metric_details V m) = length gold /\
      forall i g, gold !! i = Some g ->
        let p1 := results_map (concat (map snd pass1)) in
        let text := default "" (gold_text g) in
        let a := default "other" (label_aspect g) in
        let s := default "neutral" (label_sentiment g) in
        metric_details V m !! i =
          Some (mkDetail (substring 0 50 text +:+ "...")
                         (String.concat ", " (detect_complexity_tags text))
                         (a +:+ " | " +:+ s)
                         ((predicted_label p1 (Z.of_nat i)).1 +:+ " | " +:+
                          (predicted_label p1 (Z.of_nat i)).2)
                         (String.eqb a (predicted_label p1 (Z.of_nat i)).1 &&
                          String.eqb s (predicted_label p1 (Z.of_nat i)).2)).
Proof.
  pose proof (validation_exact chat_parse accuracy_score precision_recall_fscore_support
                classification_report gold dual_mode w) as Hrun.
  cbv zeta in Hrun.
  eexists _, _, _, _. split; [exact Hrun|].
  split.
  { rewrite run_calls_batches. apply gold_chunks_bounded. }
  intros m Hm. apply handled_fields in Hm as [Hd _].
  rewrite Hd, tally_details. simpl app.
  assert (forall p (es : list (Z * Truth)),
             flat_map (entry_detail p) es =
             flat_map (fun e => [match entry_detail p e with d :: _ => d
                                 | [] => mkDetail "" "" "" "" false end]) es) as Hflat.
  { intros p es. apply flat_map_ext. intros [idx truth].
    now rewrite entry_detail_single. }
  rewrite Hflat. split.
  - rewrite (flat_map_constant_length (c := 1%nat)) by reflexivity.
    rewrite (proj1 (length_prepare_data gold 0)). lia.
  - intros i g Hg. cbv zeta. rewrite flat_single_lookup.
    rewrite (prepare_data_entries gold 0 i g Hg). simpl fmap.
    rewrite entry_detail_single. simpl. reflexivity.
Qed.

(** A returned metrics object has one edge-case entry for every tag
    carried by some gold sample and for no other: its total is the number of
    samples carrying the tag (a sample with several tags counts under each of
    them), so at least 1, and its accuracy is the share of those samples
    whose detail line is a match, times 100, both in binary64, and that float
    rounded to two decimals as [round] does. *)
Theorem validation_edge_stats (gold : list GoldItem) (dual_mode : bool) (w : World R) :
  exists pass1 pass2 r' result,
    run_gold_standard_validation chat_parse accuracy_score precision_recall_fscore_support
      classification_report (Returns gold) dual_mode w
    = (Returns result, mkWorld r' (calls w ++ pass1 ++ pass2)) /\
    forall m, result = MetricsResult m ->
      let p1 := results_map (concat (map snd pass1)) in
      let entries := (prepare_data 0 gold).1 in
      List.NoDup (map edge_type (final_edge_stats V m)) /\
      (forall stat, In stat (final_edge_stats V m) ->
         edge_total stat = length (carriers (edge_type stat) entries) /\
         (1 <= edge_total stat)%nat /\
         exists r,
           edge_accuracy stat = PyFloat r /\
           rounded2
             (SFmul prec emax
                (SFdiv prec emax
                   (of_int (Z.of_nat (length (correct_carriers p1 (edge_type stat) entries))))
                   (of_int (Z.of_nat (edge_total stat))))
                (of_int 100))
             r) /\
      (forall tag, carriers tag entries <> [] ->
                   exists stat, In stat (final_edge_stats V m) /\ edge_type stat = tag).
Proof.
  pose proof (validation_exact chat_parse accuracy_score precision_recall_fscore_support
                classification_report gold dual_mode w) as Hrun.
  cbv zeta in Hrun.
  eexists _, _, _, _. split; [exact Hrun|].
  intros m Hm. apply handled_fields in Hm as [_ He]. cbv zeta. rewrite He.
  set (p1 := results_map _).
  pose proof (fun t => tally_counts p1 (prepare_data 0 gold).1 t (prepare_data_nodup gold 0))
    as Hcounts. cbv zeta in Hcounts.
  set (stats := edge_case_stats _) in *.
  assert (map edge_type (map final_edge_stat stats) = map fst stats) as Hkeys.
  { rewrite map_map. apply map_ext. intros [t [n k]]. reflexivity. }
  split; [|split].
  - rewrite Hkeys. exact (proj1 (Hcounts "")).
  - intros stat Hstat. apply in_map_iff in Hstat as ([t [n k]] & <- & Hin).
    destruct (Hcounts t) as [Hnd Ht].
    rewrite (tag_stat_in t (n, k) stats Hnd Hin) in Ht. simpl.
    destruct (carriers t (prepare_data 0 gold).1) as [|c cs] eqn:Ec; [discriminate|].
    injection Ht as -> ->. cbn [edge_total edge_type edge_accuracy final_edge_stat].
    split; [reflexivity|]. split; [simpl; lia|].
    eexists. split; [reflexivity|]. apply float_round2_spec.
  - intros tag Hne. destruct (Hcounts tag) as [_ Ht].
    destruct (carriers tag (prepare_data 0 gold).1) as [|c cs] eqn:Ec; [contradiction|].
    apply tag_stat_some_in in Ht.
    eexists. split; [apply in_map; exact Ht | reflexivity].
Qed.

End TallyResults.

Section TallyResultsWitnesses.
Import PyStr PySeq PyNum Models Config LlmEngine Analyzer Validator Spec.

Lemma validation_details_witness :
  Scenario.gold2 !! 0%nat =
    Some (mkGold (Some "Terrible support") (Some "service") (Some "negative")) /\
  exists m w',
    run_gold_standard_validation Scenario.down Scenario.sk_accuracy Scenario.sk_prf
      Scenario.sk_report (Returns Scenario.gold2) false Scenario.start
    = (Returns (MetricsResult m), w') /\
    metric_details unit m !! 0%nat =
      Some (mkDetail "Terrible support..." "Simple" "service | negative" "other | neutral"
                     false).
Proof.
  assert (Scenario.gold2 !! 0%nat =
          Some (mkGold (Some "Terrible support") (Some "service") (Some "negative"))) as H
    by reflexivity.
  split; [exact H|].
  destruct (validation_details Scenario.down Scenario.sk_accuracy Scenario.sk_prf
              Scenario.sk_report Scenario.gold2 false Scenario.start)
    as (pass1 & pass2 & r' & result & Hrun & _ & Hd).
  assert (exists m, result = MetricsResult m) as [m ->].
  { vm_compute in Hrun. injection Hrun as <- _. eexists. reflexivity. }
  destruct (Hd m eq_refl) as [_ Hline]. specialize (Hline 0%nat _ H). cbv zeta in Hline.
  eexists m, _. split; [exact Hrun|]. rewrite Hline.
  vm_compute in Hrun. injection Hrun as _ _ Hcalls.
  assert (pass1 ++ pass2 =
          [([mkItem 0 "Terrible support"; mkItem 1 "Not bad, however slow delivery"], [])])
    as Hp by (symmetry; exact Hcalls).
  destruct pass1 as [|c1 pass1].
  - reflexivity.
  - injection Hp as -> Hrest. apply app_eq_nil in Hrest as [-> _]. reflexivity.
Defined.

Lemma validation_edge_stats_witness :
  Spec.carriers "Simple" (prepare_data 0 Scenario.gold3).1 <> [] /\
  exists m w' stat,
    run_gold_standard_validation Scenario.wavering Scenario.sk_accuracy Scenario.sk_prf
      Scenario.sk_report (Returns Scenario.gold3) false (mkWorld 1%nat [])
    = (Returns (MetricsResult m), w') /\
    In stat (final_edge_stats unit m) /\ edge_type stat = "Simple" /\
    edge_total stat = 3%nat /\
    edge_accuracy stat = PyFloat (S754_finite false 4690780486883082 (-47)).
Proof.
  assert (Spec.carriers "Simple" (prepare_data 0 Scenario.gold3).1 <> []) as H
    by (vm_compute; discriminate).
  split; [exact H|].
  destruct (validation_edge_stats Scenario.wavering Scenario.sk_accuracy Scenario.sk_prf
              Scenario.sk_report Scenario.gold3 false (mkWorld 1%nat []))
    as (pass1 & pass2 & r' & result & Hrun & He).
  assert (exists m, result = MetricsResult m) as [m ->].
  { vm_compute in Hrun. injection Hrun as <- _. eexists. reflexivity. }
  destruct (He m eq_refl) as (_ & _ & Hall).
  destruct (Hall "Simple" H) as (stat & Hin & Ht).
  eexists m, _, stat. split; [exact Hrun|]. split; [exact Hin|]. split; [exact Ht|].
  vm_compute in Hrun. injection Hrun as <- _ _.
  destruct Hin as [<- | []]. split; reflexivity.
Defined.

End TallyResultsWitnesses.

(** ** The marketing summary *)

Section CleanFacts.
Import PyStr LlmEngine Spec.
Local Arguments String.append !_ _ / : simpl nomatch.
Local Arguments Ascii.eqb : simpl never.

Lemma contains_cons_false (needle : string) (c : ascii) (s : string) :
  contains needle (String c s) = false ->
  strip_prefix needle (String c s) = None /\ contains needle s = false.
Proof.
  simpl. destruct needle as [|a needle]; [discriminate|].
  destruct (strip_prefix (String a needle) (String c s)); [discriminate|]. now split.
Qed.

Lemma contains_cons_intro (needle : string) (c : ascii) (s : string) :
  strip_prefix needle (String c s) = None -> contains needle s = false ->
  contains needle (String c s) = false.
Proof.
  intros Hp Hs. destruct needle as [|a needle]; [discriminate|].
  change (match strip_prefix (String a needle) (String c s) with
          | Some _ => true | None => contains (String a needle) s end = false).
  now rewrite Hp.
Qed.

(** Replacing a text that does not occur changes nothing. *)
Lemma replace_absent (old new s : string) :
  contains old s = false -> replace old new s = s.
Proof.
  unfold replace. induction s as [|c s IH]; intros H; [reflexivity|].
  apply contains_cons_false in H as [Hp Hs].
  simpl replace_from. rewrite Hp. now rewrite IH.
Qed.

Lemma strip_prefix_longer (a b s : string) :
  strip_prefix a s = None -> strip_prefix (a +:+ b) s = None.
Proof.
  revert s. induction a as [|x a IH]; intros s; simpl; [discriminate|].
  destruct s as [|y s]; [reflexivity|]. destruct (Ascii.eqb x y); [apply IH|reflexivity].
Qed.

Lemma contains_longer (a b s : string) :
  contains a s = false -> contains (a +:+ b) s = false.
Proof.
  induction s as [|c s IH]; intros H.
  - destruct a as [|x a]; [discriminate|]. reflexivity.
  - apply contains_cons_false in H as [Hp Hs].
    apply contains_cons_intro; [now apply strip_prefix_longer | now apply IH].
Qed.

Lemma leading_short (s : string) :
  (leading "`" s <= 1)%nat -> strip_prefix "``" s = None.
Proof.
  destruct s as [|a [|b s]]; simpl; try reflexivity.
  - destruct (Ascii.eqb "`" a); reflexivity.
  - destruct (Ascii.eqb "`" a); [|reflexivity].
    destruct (Ascii.eqb "`" b); [lia|reflexivity].
Qed.

Lemma short_leading (s : string) :
  strip_prefix "``" s = None -> (leading "`" s <= 1)%nat.
Proof.
  destruct s as [|a [|b s]]; simpl; try lia.
  - destruct (Ascii.eqb "`" a); lia.
  - destruct (Ascii.eqb "`" a); [|lia].
    destruct (Ascii.eqb "`" b); [discriminate|lia].
Qed.

(** After the fences are taken out none is left, and the text starts with
    no more backticks than before. *)
Lemma replace_fence (n : nat) :
  forall s, (String.length s <= n)%nat ->
    contains "```" (replace "```" "" s) = false /\
    (leading "`" (replace "```" "" s) <= leading "`" s)%nat.
Proof.
  unfold replace. induction n as [|n IH]; intros s Hlen.
  - destruct s; [split; [reflexivity|simpl; lia] | simpl in Hlen; lia].
  - destruct s as [|c s]; [split; [reflexivity|simpl; lia]|].
    simpl in Hlen.
    destruct (strip_prefix "```" (String c s)) as [rest|] eqn:Hp.
    + apply strip_prefix_inv in Hp. simpl in Hp. injection Hp as -> ->.
      simpl. destruct (IH rest) as [H1 H2]; [simpl in Hlen; lia|].
      split; [exact H1|lia].
    + cbn [replace_from]. rewrite Hp.
      destruct (IH s) as [H1 H2]; [lia|]. split.
      * apply contains_cons_intro; [|exact H1].
        simpl in Hp |- *. destruct (Ascii.eqb "`" c); [|reflexivity].
        apply leading_short. apply short_leading in Hp. lia.
      * simpl. destruct (Ascii.eqb "`" c); lia.
Qed.

Lemma contains_lstrip (needle s : string) :
  contains needle s = false -> contains needle (lstrip s) = false.
Proof.
  induction s as [|c s IH]; intros H; [exact H|].
  simpl. destruct (is_space c); [|exact H].
  apply IH. now apply contains_cons_false in H as [_ H].
Qed.

Lemma rstrip_cons (c : ascii) (s : string) :
  rstrip (String c s) = EmptyString \/ rstrip (String c s) = String c (rstrip s).
Proof.
  simpl. destruct (rstrip s); [destruct (is_space c)|]; auto.
Qed.

Lemma strip_prefix_rstrip (needle s : string) :
  strip_prefix needle s = None -> strip_prefix needle (rstrip s) = None.
Proof.
  revert s. induction needle as [|a needle IH]; intros s; [discriminate|].
  destruct s as [|c s]; [reflexivity|].
  destruct (rstrip_cons c s) as [-> | ->]; [reflexivity|].
  simpl. destruct (Ascii.eqb a c); [apply IH|reflexivity].
Qed.

Lemma contains_rstrip (needle s : string) :
  contains needle s = false -> contains needle (rstrip s) = false.
Proof.
  induction s as [|c s IH]; intros H; [exact H|].
  apply contains_cons_false in H as [Hp Hs].
  pose proof (strip_prefix_rstrip _ _ Hp) as Hr.
  destruct (rstrip_cons c s) as [E | E]; rewrite E in Hr |- *.
  - destruct needle; [discriminate|reflexivity].
  - apply contains_cons_intro; [exact Hr | now apply IH].
Qed.

Lemma head_lstrip (s : string) :
  match head_char (lstrip s) with Some a => is_space a = false | None => True end.
Proof.
  induction s as [|c s IH]; [exact I|].
  simpl. destruct (is_space c) eqn:E; [exact IH|exact E].
Qed.

Lemma head_rstrip (s : string) :
  rstrip s = EmptyString \/ head_char (rstrip s) = head_char s.
Proof.
  destruct s as [|c s]; [now left|].
  destruct (rstrip_cons c s) as [-> | ->]; [now left | now right].
Qed.

Lemma last_rstrip (s : string) (prev : option ascii) :
  rstrip s = EmptyString \/
  exists b, last_char prev (rstrip s) = Some b /\ is_space b = false.
Proof.
  revert prev. induction s as [|c s IH]; intros prev; [now left|].
  simpl. destruct (rstrip s) as [|a r] eqn:E.
  - destruct (is_space c) eqn:Ec; [now left|]. right. exists c. now split.
  - right. destruct (IH (Some c)) as [H | H]; [discriminate|]. exact H.
Qed.

Lemma strip_trimmed (s : string) : trimmed (strip s) = true.
Proof.
  unfold trimmed, strip.
  pose proof (head_lstrip s) as Hh.
  destruct (head_rstrip (lstrip s)) as [-> | Hhead]; [reflexivity|].
  destruct (last_rstrip (lstrip s) None) as [-> | (b & Hb & Hsp)]; [reflexivity|].
  rewrite Hhead, Hb. destruct (head_char (lstrip s)) as [a|]; [|reflexivity].
  now rewrite Hh, Hsp.
Qed.

Lemma rstrip_fixed (s : string) :
  match last_char None s with Some b => is_space b = false | None => True end ->
  rstrip s = s.
Proof.
  generalize (@None ascii). induction s as [|c s IH]; intros prev H; [reflexivity|].
  simpl in H. specialize (IH (Some c) H). simpl. rewrite IH.
  destruct s as [|a s]; [|reflexivity]. simpl in H. now rewrite H.
Qed.

Lemma trimmed_strip (s : string) : trimmed s = true -> strip s = s.
Proof.
  unfold trimmed, strip. destruct s as [|c s]; [reflexivity|].
  simpl head_char. destruct (last_char None (String c s)) as [b|] eqn:E.
  - intros H. apply andb_true_iff in H as [Hc Hb].
    apply negb_true_iff in Hc, Hb. simpl lstrip. rewrite Hc.
    apply rstrip_fixed. now rewrite E.
  - exfalso. clear -E. simpl in E. revert E. generalize c.
    induction s as [|a s IH]; intros c0; [discriminate|]. simpl. apply IH.
Qed.

(** The text left by the two lines under [if content:] has no code fence
    and no white space at either end. *)
Lemma clean_summary_clean (content : string) :
  contains "```" (clean_summary content) = false /\ trimmed (clean_summary content) = true.
Proof.
  unfold clean_summary. split; [|apply strip_trimmed].
  unfold strip. apply contains_rstrip, contains_lstrip.
  apply (replace_fence (String.length (replace "```html" "" content))). lia.
Qed.

Lemma clean_summary_fixed (content : string) :
  contains "```" content = false -> trimmed content = true ->
  clean_summary content = content.
Proof.
  intros Hf Ht. unfold clean_summary.
  rewrite (replace_absent "```html" "" content)
    by (apply (contains_longer "```" "html"); exact Hf).
  rewrite (replace_absent _ _ _ Hf). now apply trimmed_strip.
Qed.

End CleanFacts.

Section SummaryResults.
Import PyStr LlmEngine Spec.
Context {R : Type}.
Variable chat_create : string -> R -> (exn + ChatCompletion) * R.

Lemma summary_of_text (stats_text : string) (w : World R)
    (response : ChatCompletion) (text : string) (rest : list (option string)) :
  (chat_create (summary_prompt stats_text) (remote w)).1 = inr response ->
  chat_choices response = Some text :: rest ->
  text <> "" ->
  exists w',
    generate_marketing_summary chat_create stats_text w =
      (Returns (Some (clean_summary text)), w').
Proof.
  intros Hresp Hchoices Htext.
  unfold generate_marketing_summary, try_except, bind, call_create, first_content, raise, ret.
  destruct (chat_create (summary_prompt stats_text) (remote w)) as [[e|response'] r'];
    simpl in Hresp; [discriminate|]. injection Hresp as ->. simpl.
  rewrite Hchoices. simpl. destruct text as [|c text]; [contradiction|].
  eexists. reflexivity.
Qed.

(** [generate_marketing_summary] never raises and makes exactly one
    request, with the prompt built from the statistics; it leaves the call
    history of the review client alone. When the request raises, or the
    response has no choice, the value returned is the text
    "Error generating summary: " followed by the message of the error; a
    message without content is handed back as it is. *)
Theorem summary_never_raises (stats_text : string) (w : World R) :
  exists out,
    generate_marketing_summary chat_create stats_text w =
      (Returns out,
       mkWorld (chat_create (summary_prompt stats_text) (remote w)).2 (calls w)) /\
    match (chat_create (summary_prompt stats_text) (remote w)).1 with
    | inl e => out = Some ("Error generating summary: " +:+ exn_msg e)
    | inr response =>
        match chat_choices response with
        | [] => out = Some "Error generating summary: list index out of range"
        | None :: _ => out = None
        | Some "" :: _ => out = Some ""
        | Some text :: _ => out = Some (clean_summary text)
        end
    end.
Proof.
  unfold generate_marketing_summary, try_except, bind, call_create, first_content, raise, ret.
  destruct (chat_create (summary_prompt stats_text) (remote w)) as [[e|response] r']; simpl.
  - eexists. split; reflexivity.
  - destruct (chat_choices response) as [|[[|c text]|] rest]; simpl;
      eexists; split; reflexivity.
Qed.

(** When the service answers with a non-empty text, the summary returned
    contains no code fence and neither starts nor ends with white space; a
    text that already is like that comes back unchanged. *)
Theorem summary_is_clean (stats_text : string) (w : World R)
    (response : ChatCompletion) (text : string) (rest : list (option string)) :
  (chat_create (summary_prompt stats_text) (remote w)).1 = inr response ->
  chat_choices response = Some text :: rest ->
  text <> "" ->
  exists out w',
    generate_marketing_summary chat_create stats_text w = (Returns (Some out), w') /\
    contains "```" out = false /\
    trimmed out = true /\
    (contains "```" text = false -> trimmed text = true -> out = text).
Proof.
  intros Hresp Hchoices Htext.
  destruct (summary_of_text stats_text w response text rest Hresp Hchoices Htext)
    as (w' & Hrun).
  exists (clean_summary text), w'. split; [exact Hrun|].
  destruct (clean_summary_clean text) as [Hf Ht].
  split; [exact Hf|]. split; [exact Ht|]. apply clean_summary_fixed.
Qed.

End SummaryResults.

Section SummaryResultsWitnesses.
Import PyStr LlmEngine Spec.

Lemma summary_is_clean_witness :
  exists out w',
    generate_marketing_summary Scenario.writer "service: 3 negative" Scenario.start
      = (Returns (Some out), w') /\
    contains "```" out = false /\
    trimmed out = true.
Proof.
  destruct (summary_is_clean Scenario.writer "service: 3 negative" Scenario.start
              (mkChat [Some ("```html" +:+ newline +:+ "<h3>Executive Overview</h3>" +:+
                             newline +:+ "```")])
              ("```html" +:+ newline +:+ "<h3>Executive Overview</h3>" +:+ newline +:+ "```")
              [])
    as (out & w' & Hrun & Hf & Ht & _).
  - reflexivity.
  - reflexivity.
  - vm_compute. discriminate.
  - exists out, w'. split; [exact Hrun|]. split; [exact Hf|exact Ht].
Defined.

(** The no-break space (160) and the next-line control (133) are white
    space and are stripped. *)
Example clean_summary_strips_latin1_space :
  clean_summary (String "160" ("<p>a</p>" +:+ String "133" "")) = "<p>a</p>".
Proof. vm_compute. reflexivity. Qed.

End SummaryResultsWitnesses.

(** ** The choice of the text column *)

Section ColumnFacts.
Import PyStr Analyzer.

Lemma first_column_skip (test : string -> bool) (pre : list string) (rest : list Label) :
  Forall (fun c => test c = false) pre ->
  first_column test (map Str pre ++ rest) = first_column test rest.
Proof.
  induction 1 as [|c pre Hc _ IH]; [reflexivity|]. simpl. now rewrite Hc.
Qed.

Lemma first_column_none (test : string -> bool) (columns : list string) :
  Forall (fun c => test c = false) columns ->
  first_column test (map Str columns) = Returns None.
Proof.
  intros H. rewrite <- (app_nil_r (map Str columns)). now rewrite first_column_skip.
Qed.

Lemma first_column_some (test : string -> bool) (columns : list Label) (col : Label) :
  first_column test columns = Returns (Some col) ->
  In col columns /\ exists name, col = Str name /\ test name = true.
Proof.
  induction columns as [|[c|t] columns IH]; simpl; try discriminate.
  destruct (test c) eqn:E.
  - intros H. injection H as <-. split; [now left|]. now exists c.
  - intros H. destruct (IH H) as [Hin Ht]. split; [now right|exact Ht].
Qed.

(** The loop raises exactly when it meets a label that is not a string
    before any column that passes the test. *)
Lemma first_column_raises (test : string -> bool) (columns : list Label) (e : exn) :
  first_column test columns = Raises e <->
  exists pre type_name post,
    columns = map Str pre ++ NotStr type_name :: post /\
    Forall (fun c => test c = false) pre /\ e = no_lower type_name.
Proof.
  split.
  - induction columns as [|[c|t] columns IH]; simpl; try discriminate.
    + destruct (test c) eqn:E; [discriminate|]. intros H.
      destruct (IH H) as (pre & t & post & -> & Hpre & ->).
      exists (c :: pre), t, post. split; [reflexivity|]. split; [|reflexivity].
      now constructor.
    + intros H. injection H as <-. exists [], t, columns. now repeat split.
  - intros (pre & t & post & -> & Hpre & ->).
    now rewrite (first_column_skip _ _ _ Hpre).
Qed.

Lemma first_column_all_strings (test : string -> bool) (columns : list Label) :
  first_column test columns = Returns None ->
  exists names, columns = map Str names /\ Forall (fun c => test c = false) names.
Proof.
  induction columns as [|[c|t] columns IH]; simpl; try discriminate.
  - intros _. now exists [].
  - destruct (test c) eqn:E; [discriminate|]. intros H.
    destruct (IH H) as (names & -> & Hn). exists (c :: names). split; [reflexivity|].
    now constructor.
Qed.

(** The first column, in sheet order, whose lower-cased name is one of
    the six priority names is selected, whatever the columns before it are
    called and whatever the fallback would give. *)
Theorem priority_column_wins (pre : list string) (post : list Label) (col : string)
    (longest_on_average : outcome Label) :
  Forall (fun c => is_priority c = false) pre ->
  is_priority col = true ->
  select_text_col (map Str pre ++ Str col :: post) longest_on_average = Returns (Str col).
Proof.
  intros Hpre Hcol. unfold select_text_col.
  rewrite (first_column_skip _ _ _ Hpre). simpl. now rewrite Hcol.
Qed.

(** With no priority name in the sheet, the first column whose name
    mentions "review" or "feedback" and neither "id" nor "date" is
    selected, whatever the fallback would give. *)
Theorem keyword_column_second (pre post : list string) (col : string)
    (longest_on_average : outcome Label) :
  Forall (fun c => is_priority c = false) (pre ++ col :: post) ->
  Forall (fun c => is_feedback c = false) pre ->
  is_feedback col = true ->
  select_text_col (map Str (pre ++ col :: post)) longest_on_average = Returns (Str col).
Proof.
  intros Hprio Hpre Hcol. unfold select_text_col.
  rewrite (first_column_none _ _ Hprio), map_app, (first_column_skip _ _ _ Hpre).
  simpl. now rewrite Hcol.
Qed.

(** When the selection raises: with an AttributeError, exactly when a
    label that is not a string stands before every priority name of the
    sheet (the loops run outside any [try]); with an IndexError, only for a
    sheet without columns on which the pandas expression raises too. A
    column it returns is a column of the sheet or the one the pandas
    expression names. *)
Theorem text_column_total (columns : list Label) (longest_on_average : outcome Label) :
  (forall e, select_text_col columns longest_on_average = Raises e ->
             (exists pre type_name post,
                 columns = map Str pre ++ NotStr type_name :: post /\
                 Forall (fun c => is_priority c = false) pre /\
                 e = no_lower type_name) \/
             (columns = [] /\ (exists e', longest_on_average = Raises e') /\
              exn_class e = "IndexError")) /\
  (forall pre type_name post,
      Forall (fun c => is_priority c = false) pre ->
      select_text_col (map Str pre ++ NotStr type_name :: post) longest_on_average =
        Raises (no_lower type_name)) /\
  (forall col, select_text_col columns longest_on_average = Returns col ->
               In col columns \/ longest_on_average = Returns col).
Proof.
  split; [|split].
  - unfold select_text_col.
    destruct (first_column is_priority columns) as [[c1|]|e1] eqn:E1; [discriminate| |].
    + destruct (first_column_all_strings _ _ E1) as (names & -> & Hn).
      destruct (first_column is_feedback (map Str names)) as [[c2|]|e2] eqn:E2;
        [discriminate| |].
      * destruct longest_on_average as [c3|e3]; [discriminate|].
        destruct names as [|c4 rest]; [|discriminate].
        intros e H. injection H as <-. right.
        split; [reflexivity|]. split; [now exists e3|reflexivity].
      * apply first_column_raises in E2 as (pre & t & post & Hcols & _).
        exfalso. clear -Hcols. revert pre Hcols.
        induction names as [|n names IH]; intros [|p pre] Hcols; simpl in Hcols;
          try discriminate.
        injection Hcols as _ Hcols. exact (IH _ Hcols).
    + intros e H. injection H as <-. left.
      apply first_column_raises in E1. exact E1.
  - intros pre t post Hpre. unfold select_text_col.
    now rewrite (proj2 (first_column_raises is_priority _ (no_lower t)))
      by (exists pre, t, post; auto).
  - unfold select_text_col.
    destruct (first_column is_priority columns) as [[c1|]|e1] eqn:E1; [| |discriminate].
    { intros col H. injection H as <-. left. now apply first_column_some in E1. }
    destruct (first_column is_feedback columns) as [[c2|]|e2] eqn:E2; [| |discriminate].
    { intros col H. injection H as <-. left. now apply first_column_some in E2. }
    destruct longest_on_average as [c3|e3]; [intros col H; now right|].
    destruct columns as [|c4 rest]; [discriminate|].
    intros col H. injection H as <-. left. now left.
Qed.

(** A column whose name mentions "id" (as "Video Review" does) and is
    not a priority name is never picked by the keyword step: when it is
    selected, the pandas expression named it or it is the first column of the
    sheet. *)
Theorem id_column_only_by_fallback (columns : list Label) (col : string)
    (longest_on_average : outcome Label) :
  is_priority col = false ->
  contains "id" (lower col) = true ->
  select_text_col columns longest_on_average = Returns (Str col) ->
  longest_on_average = Returns (Str col) \/ head columns = Some (Str col).
Proof.
  intros Hprio Hid. unfold select_text_col.
  destruct (first_column is_priority columns) as [[c1|]|e1] eqn:E1; [| |discriminate].
  { intros H. injection H as ->.
    apply first_column_some in E1 as (_ & name & Hname & E1).
    injection Hname as <-. congruence. }
  destruct (first_column is_feedback columns) as [[c2|]|e2] eqn:E2; [| |discriminate].
  { intros H. injection H as ->.
    apply first_column_some in E2 as (_ & name & Hname & E2).
    injection Hname as <-.
    unfold is_feedback in E2. rewrite Hid in E2. simpl in E2.
    now rewrite andb_false_r in E2. }
  destruct longest_on_average as [c3|e3]; [intros H; left; congruence|].
  destruct columns as [|c4 rest]; [discriminate|].
  intros H. injection H as ->. now right.
Qed.

End ColumnFacts.

Section ColumnFactsWitnesses.
Import PyStr Analyzer.

Lemma priority_column_wins_witness :
  select_text_col (map Str ["Review ID"; "Customer Feedback"] ++
                   Str "Comment" :: [NotStr "int"; Str "Rating"])
                  (Returns (Str "Customer Feedback"))
    = Returns (Str "Comment").
Proof.
  apply priority_column_wins.
  - repeat constructor.
  - reflexivity.
Defined.

Lemma keyword_column_second_witness :
  select_text_col (map Str (["Review ID"; "Review Date"] ++ "Customer Feedback" :: ["Rating"]))
                  (Returns (Str "Rating"))
    = Returns (Str "Customer Feedback").
Proof.
  apply keyword_column_second.
  - repeat constructor.
  - repeat constructor.
  - reflexivity.
Defined.

(** A sheet whose second header cell holds the number 2024. *)
Lemma text_column_total_witness :
  select_text_col (map Str ["Rating"] ++ NotStr "int" :: [Str "Comment"])
                  (Returns (Str "Comment"))
    = Raises (PyError "AttributeError" "'int' object has no attribute 'lower'").
Proof.
  apply (proj1 (proj2 (text_column_total [] (Returns (Str "Comment"))))).
  repeat constructor.
Defined.

Lemma id_column_only_by_fallback_witness :
  select_text_col [Str "Rating"; Str "Video Review"] (Returns (Str "Video Review"))
    = Returns (Str "Video Review") /\
  (Returns (Str "Video Review") = Returns (Str "Video Review") \/
   head [Str "Rating"; Str "Video Review"] = Some (Str "Video Review")).
Proof.
  split; [reflexivity|].
  apply (id_column_only_by_fallback [Str "Rating"; Str "Video Review"] "Video Review"
           (Returns (Str "Video Review"))); reflexivity.
Defined.

End ColumnFactsWitnesses.

(** ** The stress test *)

Section StressFacts.
Import PyStr PySeq PyNum Models LlmEngine TestScript Spec.
Context {R : Type}.
Variable chat_parse : string -> R -> (exn + ParsedCompletion) * R.
Local Arguments String.append !_ _ / : simpl nomatch.
Local Arguments Ascii.eqb : simpl never.





Lemma stress_loop_exact (batch_input : list BatchItem) (bs : Z) (starts : list Z) :
  forall (m : gmap Z string) (w : World R),
    for_each starts
      (fun i results =>
         try_except
           (batch_out <~ analyze_review_batch chat_parse (slice batch_input i (i + bs)) ;;
            ret (foldl (fun m res => <[id res := label (insights res)]> m) results batch_out))
           (fun _ => ret results))
      m w
    = (Returns (foldl (fun m res => <[id res := label (insights res)]> m) m
                  (concat (map snd
                     (run_calls chat_parse
                        (map (fun i => slice batch_input i (i + bs)) starts)
                        (remote w)).1))),
       mkWorld (run_calls chat_parse
                  (map (fun i => slice batch_input i (i + bs)) starts) (remote w)).2
               (calls w ++
                (run_calls chat_parse
                   (map (fun i => slice batch_input i (i + bs)) starts)
                   (remote w)).1)).
Proof.
  induction starts as [|i starts IH]; intros m w.
  - simpl. unfold ret. now rewrite world_eta.
  - simpl for_each. unfold bind at 1. unfold try_except at 1. unfold bind at 1.
    rewrite analyze_review_batch_run. unfold ret at 1. rewrite IH.
    cbn [remote calls]. simpl map. simpl run_calls.
    destruct (run_calls chat_parse _
                (remote_after chat_parse (slice batch_input i (i + bs)) (remote w)))
      as [cs r'].
    simpl. now rewrite foldl_app, <- app_assoc.
Qed.

Lemma run_batch_test_exact (data : list string) (bs : Z) (w : World R) :
  bs <> 0%Z ->
  let sent := run_calls chat_parse (test_chunks (enumerate_items 0 data) bs) (remote w) in
  run_batch_test chat_parse data bs w =
    (Returns (stored_labels (concat (map snd sent.1))), mkWorld sent.2 (calls w ++ sent.1)).
Proof.
  intros Hbs. cbv zeta. unfold run_batch_test.
  destruct (bs =? 0)%Z eqn:E; [apply Z.eqb_eq in E; contradiction|].
  now rewrite stress_loop_exact.
Qed.

Lemma test_chunks_bounded (batch_input : list BatchItem) (bs : Z) :
  (0 < bs)%Z ->
  Forall (fun b : list BatchItem => (1 <= length b <= Z.to_nat bs)%nat)
         (test_chunks batch_input bs) /\
  concat (test_chunks batch_input bs) = batch_input.
Proof.
  intros Hbs. unfold test_chunks. split.
  - apply Forall_forall. intros b Hb.
    apply list_elem_of_In, in_map_iff in Hb as (i & <- & Hi).
    apply (py_range_bounds _ bs) in Hi; [|exact Hbs].
    unfold slice, len in *. rewrite length_take, length_drop. lia.
  - rewrite <- flat_map_concat_map.
    apply (slices_cover batch_input bs (fun i => (i + bs)%Z)); [exact Hbs|].
    intros i. now left.
Qed.

Lemma test_chunks_negative (batch_input : list BatchItem) (bs : Z) :
  (bs < 0)%Z -> test_chunks batch_input bs = [].
Proof.
  intros Hbs. unfold test_chunks, py_range, range_len, len.
  destruct (0 <? bs)%Z eqn:E1; [apply Z.ltb_lt in E1; lia|].
  destruct (Z.of_nat (length batch_input) <? 0)%Z eqn:E2; [apply Z.ltb_lt in E2; lia|].
  reflexivity.
Qed.

Lemma enumerate_items_ids (data : list string) (k : Z) :
  map item_id (enumerate_items k data) = map (fun i => (k + Z.of_nat i)%Z) (seq 0 (length data)).
Proof.
  revert k. induction data as [|text data IH]; intros k; [reflexivity|].
  simpl. rewrite IH, <- seq_shift, map_map. f_equal; [f_equal; lia|].
  apply map_ext. intros i. lia.
Qed.

Lemma count_fold (test : Z -> bool) (l : list Z) (acc : nat) :
  foldl (fun matches idx => if test idx then S matches else matches) acc l =
    (acc + length (filter (fun idx => test idx = true) l))%nat.
Proof.
  revert acc. induction l as [|idx l IH]; intros acc; [simpl; lia|].
  simpl foldl. rewrite IH. rewrite filter_cons.
  destruct (test idx) eqn:E.
  - rewrite decide_True by reflexivity. simpl. lia.
  - rewrite decide_False by discriminate. reflexivity.
Qed.

Lemma count_matches_exact (baseline_results curr_results : gmap Z string) (total : nat) :
  (forall idx v, baseline_results !! idx = Some v -> v <> "missing_curr") ->
  (forall idx v, curr_results !! idx = Some v -> v <> "missing_base") ->
  count_matches baseline_results curr_results total =
    length (filter (fun idx => answered_alike baseline_results curr_results idx = true)
                   (map Z.of_nat (seq 0 total))).
Proof.
  intros Hb Hc. unfold count_matches.
  rewrite (count_fold (fun idx => String.eqb (default "missing_base" (baseline_results !! idx))
                                             (default "missing_curr" (curr_results !! idx)))).
  simpl. f_equal. apply list_filter_iff. intros idx. unfold answered_alike.
  destruct (baseline_results !! idx) as [x|] eqn:Ex;
    destruct (curr_results !! idx) as [y|] eqn:Ey; cbv [from_option id].
  - reflexivity.
  - split; [|discriminate]. intros H. apply String.eqb_eq in H.
    exfalso. now apply (Hb idx x Ex).
  - split; [|discriminate]. intros H. apply String.eqb_eq in H.
    symmetry in H. exfalso. now apply (Hc idx y Ey).
  - split; discriminate.
Qed.

End StressFacts.

Section StressResults.
Import PyStr PySeq PyNum Models LlmEngine TestScript Spec.
Context {R : Type}.
Variable chat_parse : string -> R -> (exn + ParsedCompletion) * R.

Lemma enumerate_items_texts (data : list string) (k : Z) :
  map item_text (enumerate_items k data) = data.
Proof.
  revert k. induction data as [|text data IH]; intros k; [reflexivity|].
  simpl. now rewrite IH.
Qed.

Lemma silent_calls (bl : list (list BatchItem)) :
  concat (map snd (map (fun b : list BatchItem => (b, @nil ReviewResult)) bl)) = [].
Proof. induction bl as [|b bl IH]; [reflexivity|]. simpl. exact IH. Qed.

(** With a positive batch size [run_batch_test] returns, having sent
    every sample exactly once and in order, its position as id, in batches
    of 1 to [batch_size] items; the dictionary it returns is filled from the
    answers in the order they came, a later answer for an id replacing an
    earlier one. *)
Theorem stress_run_sends_all (data : list string) (bs : Z) (w : World R) :
  (0 < bs)%Z ->
  exists new r',
    run_batch_test chat_parse data bs w =
      (Returns (stored_labels (concat (map snd new))), mkWorld r' (calls w ++ new)) /\
    map item_text (concat (map fst new)) = data /\
    map item_id (concat (map fst new)) = map Z.of_nat (seq 0 (length data)) /\
    Forall (fun c : Call => (1 <= length c.1 <= Z.to_nat bs)%nat) new.
Proof.
  intros Hbs.
  pose proof (run_batch_test_exact chat_parse data bs w) as Hrun. cbv zeta in Hrun.
  rewrite Hrun by lia. eexists _, _. split; [reflexivity|].
  pose proof (run_calls_batches chat_parse (test_chunks (enumerate_items 0 data) bs) (remote w))
    as Hb.
  destruct (test_chunks_bounded (enumerate_items 0 data) bs Hbs) as [Hall Hcover].
  rewrite Hb, Hcover. split; [apply enumerate_items_texts|]. split.
  - rewrite enumerate_items_ids. apply map_ext. intros i. lia.
  - rewrite <- Hb in Hall. apply Forall_map in Hall. exact Hall.
Qed.

(** The [range] call stands outside the [try]: a batch size of zero makes
    [run_batch_test] raise [ValueError], and a negative one makes it return
    the empty dictionary; in both cases the client is not called. *)
Theorem stress_nonpositive_batch_size (data : list string) (bs : Z) (w : World R) :
  (bs <= 0)%Z ->
  run_batch_test chat_parse data bs w =
    (if (bs =? 0)%Z
     then Raises (PyError "ValueError" "range() arg 3 must not be zero")
     else Returns ∅,
     w).
Proof.
  intros Hbs. destruct (bs =? 0)%Z eqn:E.
  - unfold run_batch_test. now rewrite E.
  - apply Z.eqb_neq in E.
    pose proof (run_batch_test_exact chat_parse data bs w E) as Hrun. cbv zeta in Hrun.
    rewrite Hrun, test_chunks_negative by lia. simpl. now rewrite world_eta.
Qed.

(** For dictionaries that hold none of the two stand-in texts
    "missing_base" and "missing_curr", the comparison of [main] counts
    exactly the positions below [total] that both dictionaries answer, with
    equal values: a position missing from both is not a match. *)
Theorem count_matches_answered (baseline_results curr_results : gmap Z string) (total : nat) :
  (forall idx v, baseline_results !! idx = Some v -> v <> "missing_curr") ->
  (forall idx v, curr_results !! idx = Some v -> v <> "missing_base") ->
  count_matches baseline_results curr_results total =
    length (filter (fun idx => answered_alike baseline_results curr_results idx = true)
                   (map Z.of_nat (seq 0 total))).
Proof. apply count_matches_exact. Qed.


(** When every request to the service raises, [run_batch_test] returns
    the empty dictionary after trying every chunk once, and two such runs
    have no match at all. *)
Theorem stress_service_down (data : list string) (bs : Z) (w : World R) :
  bs <> 0%Z ->
  (forall content r, exists e r', chat_parse content r = (inl e, r')) ->
  (exists r',
     run_batch_test chat_parse data bs w =
       (Returns ∅,
        mkWorld r' (calls w ++ map (fun b => (b, [])) (test_chunks (enumerate_items 0 data) bs)))) /\
  forall total, count_matches ∅ ∅ total = 0%nat.
Proof.
  intros Hbs Hdown. split.
  - pose proof (run_batch_test_exact chat_parse data bs w Hbs) as Hrun. cbv zeta in Hrun.
    rewrite Hrun.
    rewrite (run_calls_fixed chat_parse (fun _ => []))
      by (intros b r0; now apply raising_reply).
    rewrite silent_calls. eexists. reflexivity.
  - intros total. rewrite count_matches_exact by (intros idx v Hv; now rewrite lookup_empty in Hv).
    assert (forall l : list Z,
               filter (fun idx => answered_alike (∅ : gmap Z string) ∅ idx = true) l = []) as H.
    { induction l as [|idx l IH]; [reflexivity|].
      rewrite filter_cons, decide_False; [exact IH|].
      unfold answered_alike. rewrite lookup_empty. discriminate. }
    now rewrite H.
Qed.

End StressResults.

Section StressResultsWitnesses.
Import PyStr PySeq PyNum Models LlmEngine TestScript Spec.

Lemma stress_run_sends_all_witness :
  exists new r',
    run_batch_test Scenario.service ["Great delivery"; "Terrible support"; "ok"] 2
                   Scenario.start =
      (Returns (stored_labels (concat (map snd new))),
       mkWorld r' (calls Scenario.start ++ new)) /\
    map item_text (concat (map fst new)) = ["Great delivery"; "Terrible support"; "ok"] /\
    length new = 2%nat.
Proof.
  destruct (stress_run_sends_all Scenario.service ["Great delivery"; "Terrible support"; "ok"]
              2 Scenario.start)
    as (new & r' & Hrun & Htexts & _ & _); [lia|].
  exists new, r'. split; [exact Hrun|]. split; [exact Htexts|].
  vm_compute in Hrun. injection Hrun as _ _ <-. reflexivity.
Defined.

Lemma stress_nonpositive_batch_size_witness :
  run_batch_test Scenario.service ["Great delivery"] 0 Scenario.start =
    (Raises (PyError "ValueError" "range() arg 3 must not be zero"), Scenario.start).
Proof.
  apply (stress_nonpositive_batch_size Scenario.service ["Great delivery"] 0 Scenario.start).
  lia.
Defined.

Lemma count_matches_answered_witness :
  count_matches (<[0%Z := "service|negative"]> ∅) (<[1%Z := "service|negative"]> ∅) 2 = 0%nat.
Proof.
  rewrite (count_matches_answered (<[0%Z := "service|negative"]> ∅)
             (<[1%Z := "service|negative"]> ∅) 2).
  - reflexivity.
  - intros idx v Hv. apply lookup_insert_Some in Hv as [[_ <-] | [_ Hv]]; [discriminate|].
    now rewrite lookup_empty in Hv.
  - intros idx v Hv. apply lookup_insert_Some in Hv as [[_ <-] | [_ Hv]]; [discriminate|].
    now rewrite lookup_empty in Hv.
Defined.


Lemma stress_service_down_witness :
  exists r',
    run_batch_test Scenario.down ["Great delivery"; "Terrible support"; "ok"] 2 Scenario.start =
      (Returns ∅,
       mkWorld r' [([mkItem 0 "Great delivery"; mkItem 1 "Terrible support"], []);
                   ([mkItem 2 "ok"], [])]).
Proof.
  destruct (stress_service_down Scenario.down ["Great delivery"; "Terrible support"; "ok"] 2
              Scenario.start) as [[r' Hrun] _].
  - discriminate.
  - intros content r. now eexists _, _.
  - exists r'. exact Hrun.
Defined.

End StressResultsWitnesses.
